(** * crewnecta-qa-flow: the QA auditor pipeline and its scanning tools

  A shallow embedding of
    - [tools/scorecard_calc.py], [tools/compliance_matcher.py] and
      [tools/red_flag_scanner.py] (the three deterministic tools),
    - [_parse_json_safe] and the stages of [QAAuditorFlow] in
      [flow/qa_auditor_flow.py],
    - the records of [state/models.py].

  Conventions.
    - A Python [str] is a [string] whose characters are the code points
      0..255; [str.lower] and the regular expression class [\s] are
      written out on that range.
    - The tools compute with Python floats: these are IEEE binary64
      numbers, here the primitive type [float] with its operations.
      [round(x, n)] is CPython's correctly rounded decimal rounding.
    - The flow only stores and compares the scores it gets from the
      analysis crews, so there a score is the rational number the float
      denotes (pydantic's bounds exclude NaN and the infinities).
    - A crew's [kickoff] is an oracle: a call either raises or returns a
      result with an optional typed record and a raw text. *)

From Stdlib Require Import List Bool Arith ZArith Lia.
From Stdlib Require Import Ascii String.
From Stdlib Require Import QArith Qround Qminmax.
From Stdlib Require Import Floats Uint63.
From Stdlib Require Import Permutation Sorted.
Import ListNotations.

Set Warnings "-inexact-float,-register-all".

(* ================================================================== *)
(** * Python floats *)
(* ================================================================== *)

Module PyFloat.

(** The exact value of a finite float as [m * 2^e], sign apart. *)
Definition decompose (x : float) : option (bool * Z * Z) :=
  match Prim2SF x with
  | S754_zero s => Some (s, 0%Z, 0%Z)
  | S754_finite s m e => Some (s, Zpos m, e)
  | S754_infinity _ | S754_nan => None
  end.

(** [n / d] rounded to the nearest integer, ties to even
    (for [0 <= n], [0 < d]). *)
Definition div_half_even (n d : Z) : Z :=
  let q := (n / d)%Z in
  let r := (n mod d)%Z in
  match (2 * r ?= d)%Z with
  | Lt => q
  | Gt => (q + 1)%Z
  | Eq => if Z.even q then q else (q + 1)%Z
  end.

Definition of_Z (z : Z) : float :=
  if (z <? 0)%Z then (- of_uint63 (Uint63.of_Z (- z)))%float
  else of_uint63 (Uint63.of_Z z).

(** [round(x, ndigits)] of CPython's [float.__round__]: the decimal
    number with [ndigits] fractional digits nearest to the exact value
    of [x] (ties to even), read back as the nearest float. A NaN or an
    infinity is returned as it is. *)
Definition round (x : float) (ndigits : nat) : float :=
  match decompose x with
  | None => x
  | Some (s, m, e) =>
      let p := (10 ^ Z.of_nat ndigits)%Z in
      let n := if (0 <=? e)%Z then (m * p * 2 ^ e)%Z
               else div_half_even (m * p) (2 ^ (- e)) in
      let r := (of_Z n / of_Z p)%float in
      if s then (- r)%float else r
  end.

(** [sum] over floats, from the integer 0, left to right. *)
Definition sum (l : list float) : float :=
  fold_left PrimFloat.add l 0%float.

(** The exact value of a float as a rational in lowest terms (0 for NaN
    and the infinities, which the uses below exclude). *)
Definition to_Q (x : float) : Q :=
  match decompose x with
  | None => 0
  | Some (s, m, e) =>
      let v := if (0 <=? e)%Z then inject_Z (m * 2 ^ e)
               else Qmake m (Z.to_pos (2 ^ (- e))) in
      Qred (if s then Qopp v else v)
  end.

End PyFloat.

(* ================================================================== *)
(** * Dictionaries with string keys *)
(* ================================================================== *)

(** A Python dict literal, in insertion order; [dict_get] is lookup by
  key, [None] when the key is absent. *)
Fixpoint dict_get {V : Type} (d : list (string * V)) (k : string) : option V :=
match d with
| [] => None
| (k', v) :: d' => if String.eqb k' k then Some v else dict_get d' k
end.

(** [d.get(k, default)]. *)
Definition dict_get_default {V : Type} (d : list (string * V)) (k : string)
  (default : V) : V :=
match dict_get d k with
| Some v => v
| None => default
end.

(* ================================================================== *)
(** * tools/scorecard_calc.py *)
(* ================================================================== *)

Module Scorecard.

Open Scope string_scope.

Record weights := Weights {
  w_compliance : float;
  w_empathy : float;
  w_resolution : float;
  w_process_adherence : float
}.

Definition standard_weights : weights :=
  Weights 0.30 0.25 0.25 0.20.

Definition WEIGHT_PROFILES : list (string * weights) :=
  [ ("standard", standard_weights);
    ("compliance_heavy", Weights 0.45 0.15 0.20 0.20);
    ("cx_focused", Weights 0.20 0.35 0.30 0.15) ].

(** One entry of the [breakdown] dict. *)
Record dimension := Dimension {
  raw_score : float;
  weight : float;
  weighted_score : float
}.

Definition mk_dimension (score w : float) : dimension :=
  Dimension score w (PyFloat.round (score * w) 2).

(** The dict that [_run] serialises with [json.dumps]. *)
Record scorecard := Scorecard {
  overall_score : float;
  performance_band : string;
  weight_profile_used : string;
  breakdown : list (string * dimension)
}.

(** [x >= y] on floats. *)
Definition ge (x y : float) : bool := (y <=? x)%float.

Definition band_of (overall : float) : string :=
  if ge overall 90 then "exceeds_expectations"
  else if ge overall 75 then "meets_expectations"
  else if ge overall 60 then "needs_improvement"
  else "critical".

Definition _run (compliance_score empathy_score resolution_score
                 process_adherence_score : float)
                (weight_profile : string) : scorecard :=
  let weights :=
    dict_get_default WEIGHT_PROFILES weight_profile standard_weights in
  let breakdown :=
    [ ("compliance", mk_dimension compliance_score (w_compliance weights));
      ("empathy", mk_dimension empathy_score (w_empathy weights));
      ("resolution", mk_dimension resolution_score (w_resolution weights));
      ("process_adherence",
        mk_dimension process_adherence_score (w_process_adherence weights)) ] in
  let overall :=
    PyFloat.round
      (PyFloat.sum (map (fun dim => weighted_score (snd dim)) breakdown)) 2 in
  Scorecard overall (band_of overall) weight_profile breakdown.

End Scorecard.

(* ================================================================== *)
(** * Python strings *)
(* ================================================================== *)

Module PyStr.

Open Scope string_scope.

(** [str.lower] on one code point of the range 0..255: the letters A-Z
    and the Latin-1 capitals (0xC0-0xDE but the sign 0xD7) move up by 32. *)
Definition lower_char (c : ascii) : ascii :=
  let n := nat_of_ascii c in
  if ((65 <=? n) && (n <=? 90))%nat
     || ((192 <=? n) && (n <=? 222) && negb (n =? 215))%nat
  then ascii_of_nat (n + 32)
  else c.

Fixpoint lower (s : string) : string :=
  match s with
  | EmptyString => EmptyString
  | String c s' => String (lower_char c) (lower s')
  end.

(** [s.startswith(p)]. *)
Fixpoint starts_with (p s : string) : bool :=
  match p, s with
  | EmptyString, _ => true
  | String _ _, EmptyString => false
  | String a p', String b s' => Ascii.eqb a b && starts_with p' s'
  end.

(** [p in s]: [p] occurs in [s] as a substring. *)
Fixpoint contains (p s : string) : bool :=
  starts_with p s
  || match s with
     | EmptyString => false
     | String _ s' => contains p s'
     end.

(** [[p for p in phrases if p in text]]. *)
Definition matching (phrases : list string) (text : string) : list string :=
  filter (fun p => contains p text) phrases.

(** [any(p in text for p in phrases)]. *)
Definition any_in (phrases : list string) (text : string) : bool :=
  existsb (fun p => contains p text) phrases.

End PyStr.

(* ================================================================== *)
(** * tools/compliance_matcher.py *)
(* ================================================================== *)

Module ComplianceMatcher.

Import PyStr.
Open Scope string_scope.

(** One requirement set: the named phrase lists that must appear and the
    named phrase lists that must not. *)
Record requirement_set := RequirementSet {
  must_contain : list (string * list string);
  must_not_contain : list (string * list string)
}.

Definition general : requirement_set :=
  RequirementSet
    [ ("call_recording_disclosure",
        [ "call may be recorded"; "call is being recorded";
          "this call is recorded"; "for quality and training";
          "chat is being recorded" ]);
      ("identity_verification",
        [ "verify your identity"; "confirm your name"; "can you confirm";
          "for security purposes"; "verify your account" ]) ]
    [ ("full_card_readback",
        [ "your card number is"; "card number is "; "read back your card";
          "your full card number" ]);
      ("ssn_spoken",
        [ "your social security number is"; "your ssn is" ]) ].

Definition pci_dss : requirement_set :=
  RequirementSet
    [ ("secure_payment_redirect",
        [ "secure payment"; "transfer you to our payment system";
          "payment portal"; "secure line" ]) ]
    [ ("card_number_spoken",
        [ "your card number is"; "card number is "; "read back your card";
          "repeat your card"; "full card number" ]);
      ("cvv_spoken",
        [ "your cvv is"; "security code is"; "cvv number is" ]);
      ("card_stored",
        [ "we have your card on file"; "stored your card"; "keep your card" ]) ].

Definition collections : requirement_set :=
  RequirementSet
    [ ("mini_miranda",
        [ "this is an attempt to collect a debt";
          "any information obtained will be used for that purpose";
          "debt collector" ]);
      ("right_party_verification",
        [ "am i speaking with"; "is this"; "confirm your identity" ]) ]
    [ ("third_party_disclosure",
        [ "tell them they owe"; "inform your family";
          "let your employer know" ]);
      ("threats",
        [ "we will have you arrested"; "go to jail"; "sue you";
          "garnish your wages" ]) ].

Definition sales : requirement_set :=
  RequirementSet
    [ ("terms_and_conditions",
        [ "terms and conditions"; "terms of service"; "by agreeing";
          "do you accept the terms" ]);
      ("cancellation_policy",
        [ "cancel within"; "cancellation policy"; "cooling off period";
          "money back guarantee" ]);
      ("pricing_disclosure",
        [ "total cost"; "monthly charge"; "per month"; "billed at";
          "price is" ]) ]
    [ ("misleading_claims",
        [ "guaranteed to"; "you will definitely"; "100% guaranteed";
          "no risk at all" ]) ].

Definition REQUIREMENT_SETS : list (string * requirement_set) :=
  [ ("general", general); ("pci_dss", pci_dss);
    ("collections", collections); ("sales", sales) ].

(** One entry of [results]; [phrases] is the entry's [matched_phrases]
    (a must_contain check) or [violation_phrases_found] (a
    must_not_contain check). *)
Record check_result := CheckResult {
  requirement : string;
  type_ : string;
  status : string;
  phrases : list string
}.

(** The loop variables [results], [total] and [passed]. *)
Record tally := Tally {
  results : list check_result;
  total : nat;
  passed : nat
}.

Definition check_must_contain (text_lower : string) (t : tally)
    (req : string * list string) : tally :=
  let (req_name, phrases) := req in
  let found := any_in phrases text_lower in
  let matched := matching phrases text_lower in
  Tally
    (results t ++
       [CheckResult req_name "must_contain"
          (if found then "PASS" else "FAIL") matched])
    (total t + 1)
    (if found then passed t + 1 else passed t).

Definition check_must_not_contain (text_lower : string) (t : tally)
    (req : string * list string) : tally :=
  let (req_name, phrases) := req in
  let violations := matching phrases text_lower in
  let is_clean := (List.length violations =? 0)%nat in
  Tally
    (results t ++
       [CheckResult req_name "must_not_contain"
          (if is_clean then "PASS" else "FAIL") violations])
    (total t + 1)
    (if is_clean then passed t + 1 else passed t).

(** The dict that [_run] serialises with [json.dumps]. *)
Record report := Report {
  requirement_set_used : string;
  total_checks : nat;
  passed_checks : nat;
  failed_checks : nat;
  compliance_rate : float;
  report_results : list check_result
}.

Definition of_nat (n : nat) : float := PyFloat.of_Z (Z.of_nat n).

(** [round((passed / total) * 100, 1) if total > 0 else 100.0]. *)
Definition rate (passed total : nat) : float :=
  if (0 <? total)%nat
  then PyFloat.round (of_nat passed / of_nat total * 100) 1
  else 100.0%float.

(** The body of [_run] once [reqs] is looked up. *)
Definition run_checks (reqs : requirement_set) (requirement_set : string)
    (transcript_text : string) : report :=
  let text_lower := lower transcript_text in
  let t0 := Tally [] 0 0 in
  let t1 := fold_left (check_must_contain text_lower) (must_contain reqs) t0 in
  let t2 :=
    fold_left (check_must_not_contain text_lower) (must_not_contain reqs) t1 in
  Report requirement_set (total t2) (passed t2) (total t2 - passed t2)
    (rate (passed t2) (total t2)) (results t2).

Definition _run (transcript_text requirement_set : string) : report :=
  let reqs := dict_get_default REQUIREMENT_SETS requirement_set general in
  run_checks reqs requirement_set transcript_text.

End ComplianceMatcher.

(* ================================================================== *)
(** * tools/red_flag_scanner.py *)
(* ================================================================== *)

Module RedFlagScanner.

Import PyStr.
Open Scope string_scope.

Definition compliance_patterns : list (string * list string) :=
  [ ("card_number_exposure",
      [ "card number is"; "your card number"; "read back"; "credit card";
        "card ending in"; "full card" ]);
    ("missing_disclosure",
      [ "call may be recorded"; "call is being recorded";
        "for quality and training"; "chat is being recorded" ]);
    ("data_handling",
      [ "social security"; "ssn"; "date of birth"; "mother's maiden" ]) ].

Definition complaint_patterns : list (string * list string) :=
  [ ("escalation_request",
      [ "speak to a manager"; "speak to a supervisor"; "transfer me to";
        "your manager"; "escalate"; "file a complaint"; "formal complaint" ]);
    ("churn_risk",
      [ "cancel my"; "cancellation"; "switch to"; "competitor"; "leaving";
        "done with you"; "never coming back" ]);
    ("frustration",
      [ "unacceptable"; "ridiculous"; "worst service"; "been waiting";
        "third time"; "already told"; "keep repeating"; "waste of time" ]) ].

Definition process_patterns : list (string * list string) :=
  [ ("hold_issues",
      [ "been on hold"; "long hold"; "holding for"; "waited for" ]);
    ("transfer_issues",
      [ "transferred again"; "third person"; "keep getting transferred";
        "bounced around" ]);
    ("repeat_contact",
      [ "called before"; "called yesterday"; "already contacted";
        "third time calling"; "same issue" ]) ].

Definition disclosure_phrases : list string :=
  [ "call may be recorded"; "call is being recorded";
    "for quality and training"; "chat is being recorded" ].

(** One entry of [flags]. *)
Record flag := Flag {
  type_ : string;
  category : string;
  severity : string;
  matched_pattern : string
}.

(** The inner loop over one category's patterns: a flag per pattern that
    occurs in the text. *)
Definition scan_category (type_ severity text_lower : string)
    (entry : string * list string) : list flag :=
  let (category, patterns) := entry in
  map (fun pattern => Flag type_ category severity pattern)
      (matching patterns text_lower).

(** The loop over a table, appending to [flags] in table order. *)
Definition scan_table (type_ severity text_lower : string)
    (table : list (string * list string)) : list flag :=
  flat_map (scan_category type_ severity text_lower) table.

(** The compliance table is scanned without its [missing_disclosure]
    entry ([continue]). *)
Definition scanned_compliance_patterns : list (string * list string) :=
  filter (fun entry => negb (String.eqb (fst entry) "missing_disclosure"))
         compliance_patterns.

Definition missing_disclosure_flag : flag :=
  Flag "compliance" "missing_disclosure" "critical"
       "(no recording disclosure found)".

Definition severity_weights : list (string * float) :=
  [ ("critical", 1.0%float); ("high", 0.7%float); ("medium", 0.4%float) ].

(** [severity_weights[f["severity"]]]; the three severities the scanner
    emits are all keys of the dict. *)
Definition severity_weight (f : flag) : float :=
  dict_get_default severity_weights (severity f) PrimFloat.nan.

(** [max] over a non-empty sequence of floats. *)
Definition py_max (x : float) (l : list float) : float :=
  fold_left (fun best y => if (best <? y)%float then y else best) l x.

(** [min(a, b)] on floats. *)
Definition py_min (a b : float) : float :=
  if (b <? a)%float then b else a.

Definition compute_flags (transcript_text channel : string) : list flag :=
  let text_lower := lower transcript_text in
  let has_disclosure := any_in disclosure_phrases text_lower in
  scan_table "compliance" "critical" text_lower scanned_compliance_patterns
  ++ (if negb has_disclosure
         && (String.eqb channel "voice" || String.eqb channel "chat")
      then [missing_disclosure_flag] else [])
  ++ scan_table "complaint" "high" text_lower complaint_patterns
  ++ scan_table "process" "medium" text_lower process_patterns.

(** The unrounded [risk_score] variable. *)
Definition raw_risk_score (flags : list flag) : float :=
  match map severity_weight flags with
  | [] => 0.1%float
  | w :: ws =>
      let max_severity := py_max w ws in
      py_min 1.0
        (max_severity
         + PyFloat.of_Z (Z.of_nat (List.length flags) - 1) * 0.05)%float
  end.

(** The dict that [_run] serialises with [json.dumps]. *)
Record scan := Scan {
  flags_found : nat;
  flags : list flag;
  risk_score : float;
  priority : string
}.

Definition _run (transcript_text channel : string) : scan :=
  let flags := compute_flags transcript_text channel in
  let risk_score := raw_risk_score flags in
  Scan (List.length flags) flags (PyFloat.round risk_score 2)
       (if (0.7 <=? risk_score)%float then "high"
        else if (0.4 <=? risk_score)%float then "medium"
        else "low").

End RedFlagScanner.

(* ================================================================== *)
(** * Regular expressions of [_parse_json_safe] *)
(* ================================================================== *)

Module Regex.

Import PyStr.
Open Scope string_scope.

(** The class [\s] on the code points 0..255. *)
Definition is_space (c : ascii) : bool :=
  let n := nat_of_ascii c in
  (((9 <=? n) && (n <=? 13)) || ((28 <=? n) && (n <=? 32))
   || (n =? 133) || (n =? 160))%nat.

(** The pieces the three patterns are made of; every pattern has one
    group, and [re.DOTALL] is set, so a dot matches any character. *)
Inductive item : Set :=
| Lit (s : string)   (* the literal text [s] *)
| Spaces             (* [\s*], greedy *)
| AnyLazy            (* [.*?] *)
| AnyGreedy          (* [.*] *)
| GroupOpen          (* [(] *)
| GroupClose.        (* [)] *)

Fixpoint drop (n : nat) (s : string) : string :=
  match n, s with
  | O, _ => s
  | S _, EmptyString => EmptyString
  | S n', String _ s' => drop n' s'
  end.

Fixpoint take (n : nat) (s : string) : string :=
  match n, s with
  | O, _ => EmptyString
  | S _, EmptyString => EmptyString
  | S n', String c s' => String c (take n' s')
  end.

(** The three repetitions, each followed by the rest of the pattern [k]:
    a greedy one tries the longest stretch first and gives characters
    back, a lazy one tries the shortest first. *)
Fixpoint greedy_spaces (k : string -> option string) (s : string)
  : option string :=
  match s with
  | String c s' =>
      if is_space c
      then match greedy_spaces k s' with
           | Some g => Some g
           | None => k s
           end
      else k s
  | EmptyString => k s
  end.

Fixpoint lazy_any (k : string -> option string) (s : string)
  : option string :=
  match k s with
  | Some g => Some g
  | None =>
      match s with
      | String _ s' => lazy_any k s'
      | EmptyString => None
      end
  end.

Fixpoint greedy_any (k : string -> option string) (s : string)
  : option string :=
  match s with
  | String _ s' =>
      match greedy_any k s' with
      | Some g => Some g
      | None => k s
      end
  | EmptyString => k s
  end.

(** The backtracking matcher at one position: [s] is the text left,
    [opened] the text that was left when the group opened and [group] the
    group's text once it has closed. *)
Fixpoint match_here (items : list item) (s opened group : string)
    {struct items} : option string :=
  match items with
  | [] => Some group
  | Lit l :: rest =>
      if starts_with l s
      then match_here rest (drop (String.length l) s) opened group
      else None
  | GroupOpen :: rest => match_here rest s s group
  | GroupClose :: rest =>
      match_here rest s opened
        (take (String.length opened - String.length s) opened)
  | Spaces :: rest =>
      greedy_spaces (fun s' => match_here rest s' opened group) s
  | AnyLazy :: rest =>
      lazy_any (fun s' => match_here rest s' opened group) s
  | AnyGreedy :: rest =>
      greedy_any (fun s' => match_here rest s' opened group) s
  end.

(** [re.search(pattern, raw, re.DOTALL)] followed by [match.group(1)]:
    the leftmost position at which the pattern matches. *)
Fixpoint search (pattern : list item) (raw : string) : option string :=
  match match_here pattern raw raw EmptyString with
  | Some g => Some g
  | None =>
      match raw with
      | String _ raw' => search pattern raw'
      | EmptyString => None
      end
  end.

Definition fence : string := "```".

Definition json_fence : string := "```json".

(** The list [patterns] of [_parse_json_safe]. *)
Definition patterns : list (list item) :=
  [ [Lit json_fence; Spaces; GroupOpen; AnyLazy; GroupClose; Spaces; Lit fence];
    [Lit fence; Spaces; GroupOpen; AnyLazy; GroupClose; Spaces; Lit fence];
    [GroupOpen; Lit "{"; AnyGreedy; Lit "}"; GroupClose] ].

End Regex.

(* ================================================================== *)
(** * Python values and [_parse_json_safe] *)
(* ================================================================== *)

(** What [json.loads] returns, and what the flow reads with [.get]: a
    float is the rational it denotes, [VNonFinite] stands for NaN and the
    infinities (which [json.loads] accepts), [VNone] is [None]. *)
Inductive value : Type :=
| VNone
| VBool (b : bool)
| VInt (z : Z)
| VFloat (q : Q)
| VNonFinite
| VStr (s : string)
| VList (l : list value)
| VDict (d : list (string * value)).

(** What [json.loads] does with a text: it returns a value, it raises
    [JSONDecodeError], or it raises another exception whose [str] is
    [message] (a plain [ValueError] for an integer with more digits than
    the interpreter converts, a [RecursionError] for brackets nested too
    deep). *)
Inductive decoded : Type :=
| Decoded (v : value)
| JSONDecodeError
| OtherError (message : string).

Module Parser.

Import Regex.

(** What a call of [_parse_json_safe] does: it returns a value, or an
    exception whose [str] is [message] leaves it. *)
Inductive outcome : Type :=
| Returned (v : value)
| Threw (message : string).

(** The loop over [patterns]: the first pattern that matches and whose
    group decodes wins; a [JSONDecodeError] is caught and the loop goes
    on, any other exception of the decoder leaves the function; when no
    pattern is left the function returns [None]. *)
Fixpoint try_patterns (loads : string -> decoded)
    (patterns : list (list item)) (raw : string) : outcome :=
  match patterns with
  | [] => Returned VNone
  | pattern :: rest =>
      match search pattern raw with
      | Some group =>
          match loads group with
          | Decoded v => Returned v
          | JSONDecodeError => try_patterns loads rest raw
          | OtherError message => Threw message
          end
      | None => try_patterns loads rest raw
      end
  end.

(** [_parse_json_safe(raw)], for the decoder [loads] ([json.loads]). The
    first [try] catches [JSONDecodeError] (and [TypeError], which a text
    never gives); any other exception of the decoder leaves the
    function. *)
Definition _parse_json_safe (loads : string -> decoded) (raw : string)
  : outcome :=
  match loads raw with
  | Decoded v => Returned v
  | JSONDecodeError => try_patterns loads patterns raw
  | OtherError message => Threw message
  end.

End Parser.

(* ================================================================== *)
(** * A JSON decoder for the examples *)
(* ================================================================== *)

(** The flow and the parser are stated for any decoder. The closed
    examples need one that runs: [JsonLite.loads] follows [json.loads] on
    the fragment of JSON made of objects, arrays, strings with the simple
    escapes, [null], [true], [false], [NaN], [Infinity], [-Infinity],
    integers and decimal fractions. A number with an exponent and a
    [\u] escape are outside the fragment and are rejected. *)
Module JsonLite.

Import PyStr.
Open Scope string_scope.

(** The four whitespace characters of JSON. *)
Definition is_ws (c : ascii) : bool :=
  let n := nat_of_ascii c in
  ((n =? 32) || (n =? 9) || (n =? 10) || (n =? 13))%nat.

Fixpoint skip_ws (s : string) : string :=
  match s with
  | String c s' => if is_ws c then skip_ws s' else s
  | EmptyString => s
  end.

Definition digit_of (c : ascii) : option Z :=
  let n := nat_of_ascii c in
  if ((48 <=? n) && (n <=? 57))%nat then Some (Z.of_nat (n - 48)) else None.

(** The digits at the head of [s]: their number, their value after [acc],
    and the text left. *)
Fixpoint digits (s : string) (acc : Z) (count : nat) : nat * Z * string :=
  match s with
  | String c s' =>
      match digit_of c with
      | Some d => digits s' (acc * 10 + d)%Z (S count)
      | None => (count, acc, s)
      end
  | EmptyString => (count, acc, s)
  end.

(** The float nearest to [n / 10^k], as a rational. *)
Definition decimal (n : Z) (k : nat) : Q :=
  PyFloat.to_Q (PyFloat.of_Z n / PyFloat.of_Z (10 ^ Z.of_nat k))%float.

(** A number: an optional minus, an integer part without a leading zero,
    an optional fraction. *)
Definition number (s : string) : option (value * string) :=
  let (neg, s1) :=
    match s with
    | String "-" s' => (true, s')
    | _ => (false, s)
    end in
  let '(count, int_part, s2) := digits s1 0%Z 0 in
  let leading_zero :=
    match s1 with
    | String "0" _ => (1 <? count)%nat
    | _ => false
    end in
  if (count =? 0)%nat || leading_zero then None
  else
    match s2 with
    | String "." s3 =>
        let '(k, all_digits, s4) := digits s3 int_part 0 in
        if (k =? 0)%nat then None
        else
          match s4 with
          | String "e" _ | String "E" _ => None
          | _ =>
              let q := decimal all_digits k in
              Some (VFloat (if neg then Qopp q else q), s4)
          end
    | String "e" _ | String "E" _ => None
    | _ => Some (VInt (if neg then (- int_part)%Z else int_part), s2)
    end.

Definition quote : ascii := ascii_of_nat 34.

Definition backslash : ascii := ascii_of_nat 92.

(** The characters of a string literal after its opening quote, up to
    the closing one. *)
Fixpoint string_body (s : string) : option (string * string) :=
  match s with
  | EmptyString => None
  | String c s' =>
      if Ascii.eqb c quote then Some (EmptyString, s')
      else if Ascii.eqb c backslash then
        match s' with
        | String e s'' =>
            let unescaped :=
              if Ascii.eqb e quote then Some quote
              else if Ascii.eqb e backslash then Some backslash
              else match e with
                   | "/"%char => Some "/"%char
                   | "b"%char => Some (ascii_of_nat 8)
                   | "f"%char => Some (ascii_of_nat 12)
                   | "n"%char => Some (ascii_of_nat 10)
                   | "r"%char => Some (ascii_of_nat 13)
                   | "t"%char => Some (ascii_of_nat 9)
                   | _ => None
                   end in
            match unescaped, string_body s'' with
            | Some u, Some (body, rest) => Some (String u body, rest)
            | _, _ => None
            end
        | EmptyString => None
        end
      else if (nat_of_ascii c <? 32)%nat then None
      else
        match string_body s' with
        | Some (body, rest) => Some (String c body, rest)
        | None => None
        end
  end.

(** [d[k] = v]: a repeated key keeps its place and takes the last value. *)
Fixpoint dict_set (d : list (string * value)) (k : string) (v : value)
  : list (string * value) :=
  match d with
  | [] => [(k, v)]
  | (k', v') :: d' =>
      if String.eqb k' k then (k', v) :: d' else (k', v') :: dict_set d' k v
  end.

Definition keyword (word : string) (v : value) (s : string)
  : option (value * string) :=
  if starts_with word s then Some (v, Regex.drop (String.length word) s)
  else None.

(** One value at the head of [s] (no leading whitespace), the elements of
    an array after its first one, and the members of an object after its
    first one. *)
Fixpoint parse_value (fuel : nat) (s : string) : option (value * string) :=
  match fuel with
  | O => None
  | S fuel' =>
      match s with
      | String "[" s1 =>
          match skip_ws s1 with
          | String "]" s2 => Some (VList [], s2)
          | s2 =>
              match parse_value fuel' s2 with
              | Some (v, s3) => parse_elements fuel' [v] (skip_ws s3)
              | None => None
              end
          end
      | String "{" s1 =>
          match skip_ws s1 with
          | String "}" s2 => Some (VDict [], s2)
          | s2 => parse_members fuel' [] s2
          end
      | String "n" _ => keyword "null" VNone s
      | String "t" _ => keyword "true" (VBool true) s
      | String "f" _ => keyword "false" (VBool false) s
      | String "N" _ => keyword "NaN" VNonFinite s
      | String "I" _ => keyword "Infinity" VNonFinite s
      | String c s1 =>
          if Ascii.eqb c quote then
            match string_body s1 with
            | Some (body, rest) => Some (VStr body, rest)
            | None => None
            end
          else if starts_with "-Infinity" s
          then keyword "-Infinity" VNonFinite s
          else number s
      | EmptyString => None
      end
  end
with parse_elements (fuel : nat) (acc : list value) (s : string)
  : option (value * string) :=
  match fuel with
  | O => None
  | S fuel' =>
      match s with
      | String "]" s1 => Some (VList acc, s1)
      | String "," s1 =>
          match parse_value fuel' (skip_ws s1) with
          | Some (v, s2) => parse_elements fuel' (acc ++ [v]) (skip_ws s2)
          | None => None
          end
      | _ => None
      end
  end
with parse_members (fuel : nat) (acc : list (string * value)) (s : string)
  : option (value * string) :=
  match fuel with
  | O => None
  | S fuel' =>
      match s with
      | String c s1 =>
          if Ascii.eqb c quote then
            match string_body s1 with
            | Some (key, s2) =>
                match skip_ws s2 with
                | String ":" s3 =>
                    match parse_value fuel' (skip_ws s3) with
                    | Some (v, s4) =>
                        let acc' := dict_set acc key v in
                        match skip_ws s4 with
                        | String "}" s5 => Some (VDict acc', s5)
                        | String "," s5 =>
                            parse_members fuel' acc' (skip_ws s5)
                        | _ => None
                        end
                    | None => None
                    end
                | _ => None
                end
            | None => None
            end
          else None
      | EmptyString => None
      end
  end.

(** One value with whitespace around it, [None] for a text that is not
    such a value. *)
Definition parse (s : string) : option value :=
  match parse_value (2 * String.length s + 2) (skip_ws s) with
  | Some (v, rest) =>
      match skip_ws rest with
      | EmptyString => Some v
      | _ => None
      end
  | None => None
  end.

(** [json.loads(s)] on the fragment, for a text of fewer than 1000
    characters (no number of it reaches the limit of digits and no
    nesting the limit of recursion, so the only exception is
    [JSONDecodeError]). *)
Definition loads (s : string) : decoded :=
  match parse s with
  | Some v => Decoded v
  | None => JSONDecodeError
  end.

End JsonLite.

(* ================================================================== *)
(** * state/models.py *)
(* ================================================================== *)

Inductive ComplianceSeverity : Set := CRITICAL | MAJOR | MINOR | NONE.

Module Severity.

Open Scope string_scope.

(** The enum member's [value]. *)
Definition value (s : ComplianceSeverity) : string :=
  match s with
  | CRITICAL => "critical"
  | MAJOR => "major"
  | MINOR => "minor"
  | NONE => "none"
  end.

(** [ComplianceSeverity(text)]: the member with that value, [None] for
    the [ValueError] of any other text. *)
Definition of_string (text : string) : option ComplianceSeverity :=
  if String.eqb text "critical" then Some CRITICAL
  else if String.eqb text "major" then Some MAJOR
  else if String.eqb text "minor" then Some MINOR
  else if String.eqb text "none" then Some NONE
  else None.

Definition eqb (a b : ComplianceSeverity) : bool :=
  match a, b with
  | CRITICAL, CRITICAL | MAJOR, MAJOR | MINOR, MINOR | NONE, NONE => true
  | _, _ => false
  end.

End Severity.

Module InteractionTranscript.
Record t : Type := mk {
  interaction_id : string;
  agent_id : string;
  agent_name : string;
  channel : string;
  timestamp : string;
  duration_seconds : option Z;
  transcript_text : string;
  customer_issue : string;
  resolution_status : string
}.
End InteractionTranscript.

Module RiskScore.
Record t : Type := mk {
  interaction_id : string;
  risk_score : Q;
  risk_factors : list string;
  priority_for_review : string
}.
End RiskScore.

Module QAEvaluation.
Record t : Type := mk {
  interaction_id : string;
  agent_id : string;
  compliance_score : Q;
  empathy_score : Q;
  resolution_score : Q;
  process_adherence_score : Q;
  overall_score : Q;
  compliance_issues : list string;
  strengths : list string;
  improvement_areas : list string;
  compliance_severity : ComplianceSeverity
}.
End QAEvaluation.

Module PatternInsight.
Record t : Type := mk {
  pattern_type : string;
  description : string;
  affected_agents : list string;
  frequency : string;
  evidence_interaction_ids : list string;
  recommended_action : string
}.
End PatternInsight.

Module CoachingPlan.
Record t : Type := mk {
  agent_id : string;
  agent_name : string;
  overall_performance : string;
  key_strengths : list string;
  priority_improvements : list string;
  specific_examples : list string;
  suggested_training : list string;
  follow_up_timeline : string
}.
End CoachingPlan.

(** The wrapper output models: what a crew's typed result holds. *)
Module RiskScoreOutput.
Record t : Type := mk {
  interaction_id : string;
  risk_score : Q;
  risk_factors : list string;
  priority_for_review : string
}.
End RiskScoreOutput.

Module QAEvaluationOutput.
Record t : Type := mk {
  interaction_id : string;
  agent_id : string;
  compliance_score : Q;
  empathy_score : Q;
  resolution_score : Q;
  process_adherence_score : Q;
  overall_score : Q;
  compliance_issues : list string;
  strengths : list string;
  improvement_areas : list string;
  compliance_severity : string
}.
End QAEvaluationOutput.

Module PatternInsightsOutput.
Record t : Type := mk {
  insights : list PatternInsight.t;
  agents_needing_coaching : list string
}.
End PatternInsightsOutput.

(** One entry of [critical_violations]: the dict with the keys
    [interaction_id], [agent_id] and [issues]. *)
Module Violation.
Record t : Type := mk {
  interaction_id : string;
  agent_id : string;
  issues : list string
}.
End Violation.

(** The central state. [agents_needing_coaching] is declared a list of
    strings, but stage 5 stores what the pattern crew returned without
    validating it: the field holds the items an iteration over it yields,
    as Python values. *)
Module QAAuditorState.
Record t : Type := mk {
  raw_transcripts : list InteractionTranscript.t;
  campaign_name : string;
  evaluation_period : string;
  compliance_requirements : list string;
  risk_scores : list RiskScore.t;
  qa_evaluations : list QAEvaluation.t;
  pattern_insights : list PatternInsight.t;
  average_scores : list (string * Q);
  has_critical_violations : bool;
  critical_violations : list Violation.t;
  agents_needing_coaching : list value;
  coaching_plans : list CoachingPlan.t;
  compliance_escalation_report : string;
  executive_summary : string;
  detailed_qa_report : string;
  errors : list string;
  processing_status : string;
  transcripts_processed : Z;
  transcripts_failed : Z
}.

Open Scope string_scope.

(** [QAAuditorState()]: every field at its default. *)
Definition default : t :=
  mk [] "" "" [] [] [] [] [] false [] [] [] "" "" "" [] "pending" 0%Z 0%Z.

(** Assignments to one field. *)
Definition set_risk_scores (v : list RiskScore.t) (s : t) : t :=
  mk (raw_transcripts s) (campaign_name s) (evaluation_period s) (compliance_requirements s) v (qa_evaluations s) (pattern_insights s) (average_scores s) (has_critical_violations s) (critical_violations s) (agents_needing_coaching s) (coaching_plans s) (compliance_escalation_report s) (executive_summary s) (detailed_qa_report s) (errors s) (processing_status s) (transcripts_processed s) (transcripts_failed s).

Definition set_qa_evaluations (v : list QAEvaluation.t) (s : t) : t :=
  mk (raw_transcripts s) (campaign_name s) (evaluation_period s) (compliance_requirements s) (risk_scores s) v (pattern_insights s) (average_scores s) (has_critical_violations s) (critical_violations s) (agents_needing_coaching s) (coaching_plans s) (compliance_escalation_report s) (executive_summary s) (detailed_qa_report s) (errors s) (processing_status s) (transcripts_processed s) (transcripts_failed s).

Definition set_pattern_insights (v : list PatternInsight.t) (s : t) : t :=
  mk (raw_transcripts s) (campaign_name s) (evaluation_period s) (compliance_requirements s) (risk_scores s) (qa_evaluations s) v (average_scores s) (has_critical_violations s) (critical_violations s) (agents_needing_coaching s) (coaching_plans s) (compliance_escalation_report s) (executive_summary s) (detailed_qa_report s) (errors s) (processing_status s) (transcripts_processed s) (transcripts_failed s).

Definition set_average_scores (v : list (string * Q)) (s : t) : t :=
  mk (raw_transcripts s) (campaign_name s) (evaluation_period s) (compliance_requirements s) (risk_scores s) (qa_evaluations s) (pattern_insights s) v (has_critical_violations s) (critical_violations s) (agents_needing_coaching s) (coaching_plans s) (compliance_escalation_report s) (executive_summary s) (detailed_qa_report s) (errors s) (processing_status s) (transcripts_processed s) (transcripts_failed s).

Definition set_has_critical_violations (v : bool) (s : t) : t :=
  mk (raw_transcripts s) (campaign_name s) (evaluation_period s) (compliance_requirements s) (risk_scores s) (qa_evaluations s) (pattern_insights s) (average_scores s) v (critical_violations s) (agents_needing_coaching s) (coaching_plans s) (compliance_escalation_report s) (executive_summary s) (detailed_qa_report s) (errors s) (processing_status s) (transcripts_processed s) (transcripts_failed s).

Definition set_critical_violations (v : list Violation.t) (s : t) : t :=
  mk (raw_transcripts s) (campaign_name s) (evaluation_period s) (compliance_requirements s) (risk_scores s) (qa_evaluations s) (pattern_insights s) (average_scores s) (has_critical_violations s) v (agents_needing_coaching s) (coaching_plans s) (compliance_escalation_report s) (executive_summary s) (detailed_qa_report s) (errors s) (processing_status s) (transcripts_processed s) (transcripts_failed s).

Definition set_agents_needing_coaching (v : list value) (s : t) : t :=
  mk (raw_transcripts s) (campaign_name s) (evaluation_period s) (compliance_requirements s) (risk_scores s) (qa_evaluations s) (pattern_insights s) (average_scores s) (has_critical_violations s) (critical_violations s) v (coaching_plans s) (compliance_escalation_report s) (executive_summary s) (detailed_qa_report s) (errors s) (processing_status s) (transcripts_processed s) (transcripts_failed s).

Definition set_coaching_plans (v : list CoachingPlan.t) (s : t) : t :=
  mk (raw_transcripts s) (campaign_name s) (evaluation_period s) (compliance_requirements s) (risk_scores s) (qa_evaluations s) (pattern_insights s) (average_scores s) (has_critical_violations s) (critical_violations s) (agents_needing_coaching s) v (compliance_escalation_report s) (executive_summary s) (detailed_qa_report s) (errors s) (processing_status s) (transcripts_processed s) (transcripts_failed s).

Definition set_compliance_escalation_report (v : string) (s : t) : t :=
  mk (raw_transcripts s) (campaign_name s) (evaluation_period s) (compliance_requirements s) (risk_scores s) (qa_evaluations s) (pattern_insights s) (average_scores s) (has_critical_violations s) (critical_violations s) (agents_needing_coaching s) (coaching_plans s) v (executive_summary s) (detailed_qa_report s) (errors s) (processing_status s) (transcripts_processed s) (transcripts_failed s).

Definition set_executive_summary (v : string) (s : t) : t :=
  mk (raw_transcripts s) (campaign_name s) (evaluation_period s) (compliance_requirements s) (risk_scores s) (qa_evaluations s) (pattern_insights s) (average_scores s) (has_critical_violations s) (critical_violations s) (agents_needing_coaching s) (coaching_plans s) (compliance_escalation_report s) v (detailed_qa_report s) (errors s) (processing_status s) (transcripts_processed s) (transcripts_failed s).

Definition set_detailed_qa_report (v : string) (s : t) : t :=
  mk (raw_transcripts s) (campaign_name s) (evaluation_period s) (compliance_requirements s) (risk_scores s) (qa_evaluations s) (pattern_insights s) (average_scores s) (has_critical_violations s) (critical_violations s) (agents_needing_coaching s) (coaching_plans s) (compliance_escalation_report s) (executive_summary s) v (errors s) (processing_status s) (transcripts_processed s) (transcripts_failed s).

Definition set_errors (v : list string) (s : t) : t :=
  mk (raw_transcripts s) (campaign_name s) (evaluation_period s) (compliance_requirements s) (risk_scores s) (qa_evaluations s) (pattern_insights s) (average_scores s) (has_critical_violations s) (critical_violations s) (agents_needing_coaching s) (coaching_plans s) (compliance_escalation_report s) (executive_summary s) (detailed_qa_report s) v (processing_status s) (transcripts_processed s) (transcripts_failed s).

Definition set_processing_status (v : string) (s : t) : t :=
  mk (raw_transcripts s) (campaign_name s) (evaluation_period s) (compliance_requirements s) (risk_scores s) (qa_evaluations s) (pattern_insights s) (average_scores s) (has_critical_violations s) (critical_violations s) (agents_needing_coaching s) (coaching_plans s) (compliance_escalation_report s) (executive_summary s) (detailed_qa_report s) (errors s) v (transcripts_processed s) (transcripts_failed s).

Definition set_transcripts_processed (v : Z) (s : t) : t :=
  mk (raw_transcripts s) (campaign_name s) (evaluation_period s) (compliance_requirements s) (risk_scores s) (qa_evaluations s) (pattern_insights s) (average_scores s) (has_critical_violations s) (critical_violations s) (agents_needing_coaching s) (coaching_plans s) (compliance_escalation_report s) (executive_summary s) (detailed_qa_report s) (errors s) (processing_status s) v (transcripts_failed s).

Definition set_transcripts_failed (v : Z) (s : t) : t :=
  mk (raw_transcripts s) (campaign_name s) (evaluation_period s) (compliance_requirements s) (risk_scores s) (qa_evaluations s) (pattern_insights s) (average_scores s) (has_critical_violations s) (critical_violations s) (agents_needing_coaching s) (coaching_plans s) (compliance_escalation_report s) (executive_summary s) (detailed_qa_report s) (errors s) (processing_status s) (transcripts_processed s) v.

End QAAuditorState.

(* ================================================================== *)
(** * Python values as the flow reads them *)
(* ================================================================== *)

Module Py.

Open Scope string_scope.

(** A Python float as the flow sees it: a finite one is the rational it
    denotes; NaN and the infinities fail every bound of the models. *)
Inductive float_value : Type :=
| Finite (q : Q)
| NonFinite.

(** The exceptions a stage can meet. [Raised] is an exception whose
    [str] is known: what a crew's [kickoff] raised, or a [ValueError] the
    flow raises itself. The others come from built-ins and from pydantic;
    each carries the input that was refused, and its message is the
    library's. *)
Inductive exn : Type :=
| Raised (message : string)
| AttributeError (v : value)
| TypeError (v : value)
| KeyError (key : string)
| ConversionError (text : string)
| OverflowError (z : Z)
| ValidationError (fields : list (string * value)).

(** The result of a block that may raise, with its bind. *)
Definition result (A : Type) : Type := (exn + A)%type.

Definition bind {A B : Type} (r : result A) (k : A -> result B) : result B :=
  match r with
  | inl e => inl e
  | inr a => k a
  end.

Notation "x <- r ;; k" := (bind r (fun x => k))
  (at level 61, r at next level, right associativity).

(** [bool(v)]. *)
Definition truthy (v : value) : bool :=
  match v with
  | VNone => false
  | VBool b => b
  | VInt z => negb (z =? 0)%Z
  | VFloat q => negb (Qeq_bool q 0)
  | VNonFinite => true
  | VStr s => negb (String.eqb s "")
  | VList l => negb (Nat.eqb (List.length l) 0)
  | VDict d => negb (Nat.eqb (List.length d) 0)
  end.

(** [parsed.get(key, default)]: an [AttributeError] on anything but a
    dict. *)
Definition get (parsed : value) (key : string) (default : value)
  : result value :=
  match parsed with
  | VDict d => inr (dict_get_default d key default)
  | _ => inl (AttributeError parsed)
  end.

(** [v1 == v2] for a string [s] on the left: only a string equals it. *)
Definition eq_str (s : string) (v : value) : bool :=
  match v with
  | VStr s' => String.eqb s s'
  | _ => false
  end.

(** [key in parsed]: a key of a dict, an element of a list, a substring
    of a string; a [TypeError] on a value that is no container. *)
Definition contains (key : string) (parsed : value) : result bool :=
  match parsed with
  | VDict d =>
      inr match dict_get d key with
          | Some _ => true
          | None => false
          end
  | VList l => inr (existsb (eq_str key) l)
  | VStr s => inr (PyStr.contains key s)
  | _ => inl (TypeError parsed)
  end.

(** [parsed[key]] for a string [key]. *)
Definition getitem (parsed : value) (key : string) : result value :=
  match parsed with
  | VDict d =>
      match dict_get d key with
      | Some v => inr v
      | None => inl (KeyError key)
      end
  | _ => inl (TypeError parsed)
  end.

(** [float(z)] of an integer: the nearest float, ties to even, which is
    [z] itself up to 53 bits; an [OverflowError] from [2^1024] on. *)
Definition float_of_int (z : Z) : result float_value :=
  let a := Z.abs z in
  let bits := (Z.log2 a + 1)%Z in
  if (bits <=? 53)%Z then inr (Finite (inject_Z z))
  else
    let unit := (2 ^ (bits - 53))%Z in
    let r := (PyFloat.div_half_even a unit * unit)%Z in
    if (2 ^ 1024 <=? r)%Z then inl (OverflowError z)
    else inr (Finite (inject_Z (Z.sgn z * r))).

(** [float(v)], for the reader of strings [float_of_str] (Python's
    [float] on a [str]; [None] when it raises [ValueError]). *)
Definition to_float (float_of_str : string -> option float_value) (v : value)
  : result float_value :=
  match v with
  | VInt z => float_of_int z
  | VFloat q => inr (Finite q)
  | VNonFinite => inr NonFinite
  | VBool b => inr (Finite (if b then 1 else 0))
  | VStr s =>
      match float_of_str s with
      | Some x => inr x
      | None => inl (ConversionError s)
      end
  | VNone | VList _ | VDict _ => inl (TypeError v)
  end.

Definition value_of_float (x : float_value) : value :=
  match x with
  | Finite q => VFloat q
  | NonFinite => VNonFinite
  end.

(** [str(v)]; [repr] writes the numbers, the lists and the dicts. *)
Definition str (repr : value -> string) (v : value) : string :=
  match v with
  | VStr s => s
  | VNone => "None"
  | VBool true => "True"
  | VBool false => "False"
  | _ => repr v
  end.

(** The items a [for] loop over [v] yields: the elements of a list, the
    characters of a string, the keys of a dict; a [TypeError] otherwise. *)
Fixpoint chars (s : string) : list value :=
  match s with
  | EmptyString => []
  | String c s' => VStr (String c EmptyString) :: chars s'
  end.

Definition items (v : value) : result (list value) :=
  match v with
  | VList l => inr l
  | VStr s => inr (chars s)
  | VDict d => inr (map (fun kv => VStr (fst kv)) d)
  | _ => inl (TypeError v)
  end.

(** [hash(v)] succeeds: lists and dicts are unhashable. *)
Definition hashable (v : value) : bool :=
  match v with
  | VList _ | VDict _ => false
  | _ => true
  end.

End Py.

(* ================================================================== *)
(** * Validation of the models' fields (pydantic) *)
(* ================================================================== *)

(** What pydantic does with a constructor argument that came out of
    [json.loads] or out of [float]: a [str] field takes a string, a
    [list[str]] field a list of strings, a bounded [float] field a finite
    float within its bounds. [None] is a refused argument. *)
Module Field.

Definition str (v : value) : option string :=
  match v with
  | VStr s => Some s
  | _ => None
  end.

Fixpoint strs (l : list value) : option (list string) :=
  match l with
  | [] => Some []
  | v :: l' =>
      match str v, strs l' with
      | Some s, Some rest => Some (s :: rest)
      | _, _ => None
      end
  end.

Definition str_list (v : value) : option (list string) :=
  match v with
  | VList l => strs l
  | _ => None
  end.

Definition bounded (lo hi : Q) (x : Py.float_value) : option Q :=
  match x with
  | Py.Finite q => if Qle_bool lo q && Qle_bool q hi then Some q else None
  | Py.NonFinite => None
  end.

End Field.

(* ================================================================== *)
(** * flow/qa_auditor_flow.py: the stages of [QAAuditorFlow] *)
(* ================================================================== *)

Module Flow.

Import Py.
Open Scope string_scope.

(** What [Crew.kickoff] does: it raises an exception whose [str] is
    [message], or it returns a result with its typed record [pydantic]
    (if the crew produced one) and its text [raw]. *)
Inductive outcome (A : Type) : Type :=
| Raises (message : string)
| Returns (pydantic : option A) (raw : string).

Arguments Raises {A} message.
Arguments Returns {A} pydantic raw.

(** What the flow takes from outside: the JSON decoder and the
    conversions of the interpreter, the four crews (the outcome of the
    [k]-th call of a stage's loop), the order in which a set is listed,
    what [datetime.now()] shows, formatted, when stage 4a and when stage
    7 read it, and the texts of the three reports: the escalation report
    and the summary are made of a clock reading and of the fields they
    are given, the detailed report of the state that holds the summary. *)
Record Env : Type := mkEnv {
  json_loads : string -> decoded;
  float_of_str : string -> option float_value;
  repr : value -> string;
  library_message : exn -> string;
  round_mean : list Q -> Q;
  list_of_set : list string -> list string;
  list_of_set_spec :
    forall l, Permutation (list_of_set l) (nodup string_dec l);
  risk_crew : nat -> InteractionTranscript.t -> outcome RiskScoreOutput.t;
  qa_crew : nat -> InteractionTranscript.t -> outcome QAEvaluationOutput.t;
  pattern_crew : outcome PatternInsightsOutput.t;
  coaching_crew : nat -> value -> outcome CoachingPlan.t;
  escalation_clock : string;
  report_clock : string;
  escalation_text :
    string -> string -> string -> list Violation.t -> list QAEvaluation.t
    -> string;
  summary_text : string -> QAAuditorState.t -> string;
  detail_text : QAAuditorState.t -> string
}.

(** [str(e)]. *)
Definition str_exn (env : Env) (e : exn) : string :=
  match e with
  | Raised message => message
  | _ => library_message env e
  end.

(** ** [model_dump] of the crews' typed records *)

Definition dump_strs (l : list string) : value := VList (map VStr l).

Definition dump_risk (o : RiskScoreOutput.t) : value :=
  VDict
    [ ("interaction_id", VStr (RiskScoreOutput.interaction_id o));
      ("risk_score", VFloat (RiskScoreOutput.risk_score o));
      ("risk_factors", dump_strs (RiskScoreOutput.risk_factors o));
      ("priority_for_review", VStr (RiskScoreOutput.priority_for_review o)) ].

Definition dump_qa (o : QAEvaluationOutput.t) : value :=
  VDict
    [ ("interaction_id", VStr (QAEvaluationOutput.interaction_id o));
      ("agent_id", VStr (QAEvaluationOutput.agent_id o));
      ("compliance_score", VFloat (QAEvaluationOutput.compliance_score o));
      ("empathy_score", VFloat (QAEvaluationOutput.empathy_score o));
      ("resolution_score", VFloat (QAEvaluationOutput.resolution_score o));
      ("process_adherence_score",
        VFloat (QAEvaluationOutput.process_adherence_score o));
      ("overall_score", VFloat (QAEvaluationOutput.overall_score o));
      ("compliance_issues", dump_strs (QAEvaluationOutput.compliance_issues o));
      ("strengths", dump_strs (QAEvaluationOutput.strengths o));
      ("improvement_areas", dump_strs (QAEvaluationOutput.improvement_areas o));
      ("compliance_severity", VStr (QAEvaluationOutput.compliance_severity o)) ].

Definition dump_insight (p : PatternInsight.t) : value :=
  VDict
    [ ("pattern_type", VStr (PatternInsight.pattern_type p));
      ("description", VStr (PatternInsight.description p));
      ("affected_agents", dump_strs (PatternInsight.affected_agents p));
      ("frequency", VStr (PatternInsight.frequency p));
      ("evidence_interaction_ids",
        dump_strs (PatternInsight.evidence_interaction_ids p));
      ("recommended_action", VStr (PatternInsight.recommended_action p)) ].

Definition dump_patterns (o : PatternInsightsOutput.t) : value :=
  VDict
    [ ("insights", VList (map dump_insight (PatternInsightsOutput.insights o)));
      ("agents_needing_coaching",
        dump_strs (PatternInsightsOutput.agents_needing_coaching o)) ].

Definition dump_coaching (o : CoachingPlan.t) : value :=
  VDict
    [ ("agent_id", VStr (CoachingPlan.agent_id o));
      ("agent_name", VStr (CoachingPlan.agent_name o));
      ("overall_performance", VStr (CoachingPlan.overall_performance o));
      ("key_strengths", dump_strs (CoachingPlan.key_strengths o));
      ("priority_improvements",
        dump_strs (CoachingPlan.priority_improvements o));
      ("specific_examples", dump_strs (CoachingPlan.specific_examples o));
      ("suggested_training", dump_strs (CoachingPlan.suggested_training o));
      ("follow_up_timeline", VStr (CoachingPlan.follow_up_timeline o)) ].

(** The variable [parsed]: the typed record's dump when there is one,
    else what [_parse_json_safe] makes of the text; an exception that
    leaves [_parse_json_safe] is raised inside the stage's [try]. *)
Definition parsed_of {A : Type} (env : Env) (dump : A -> value)
    (pydantic : option A) (raw : string) : result value :=
  match pydantic with
  | Some o => inr (dump o)
  | None =>
      match Parser._parse_json_safe (json_loads env) raw with
      | Parser.Returned v => inr v
      | Parser.Threw message => inl (Raised message)
      end
  end.

(** ** Stage 1: [ingest_and_risk_score] *)

(** [RiskScore(...)] on the four arguments: pydantic validates them. *)
Definition new_RiskScore (interaction_id : value) (risk_score : float_value)
    (risk_factors priority_for_review : value) : result RiskScore.t :=
  match Field.str interaction_id, Field.bounded 0 1 risk_score,
        Field.str_list risk_factors, Field.str priority_for_review with
  | Some i, Some x, Some f, Some p => inr (RiskScore.mk i x f p)
  | _, _, _, _ =>
      inl (ValidationError
             [ ("interaction_id", interaction_id);
               ("risk_score", value_of_float risk_score);
               ("risk_factors", risk_factors);
               ("priority_for_review", priority_for_review) ])
  end.

(** The body of the [try] for one transcript, on the [k]-th turn of the
    loop: the score to append, or the exception raised. *)
Definition score_transcript (env : Env) (k : nat)
    (transcript : InteractionTranscript.t) : result RiskScore.t :=
  match risk_crew env k transcript with
  | Raises message => inl (Raised message)
  | Returns pydantic raw =>
      parsed <- parsed_of env dump_risk pydantic raw ;;
      if truthy parsed then
        interaction_id <-
          get parsed "interaction_id"
            (VStr (InteractionTranscript.interaction_id transcript)) ;;
        score <- get parsed "risk_score" (VFloat (1 # 2)) ;;
        risk_score <- to_float (float_of_str env) score ;;
        risk_factors <- get parsed "risk_factors" (VList []) ;;
        priority <- get parsed "priority_for_review" (VStr "medium") ;;
        new_RiskScore interaction_id risk_score risk_factors priority
      else
        inl (Raised ("Could not parse risk score output: "
                     ++ Regex.take 200 raw))
  end.

(** The score given to a transcript whose scoring failed. *)
Definition default_risk_score (transcript : InteractionTranscript.t)
  : RiskScore.t :=
  RiskScore.mk (InteractionTranscript.interaction_id transcript) (1 # 2)
    ["error_during_scoring"] "medium".

(** One turn of the loop: the [try] and its handler. *)
Definition risk_step (env : Env) (s : QAAuditorState.t) (k : nat)
    (transcript : InteractionTranscript.t) : QAAuditorState.t :=
  match score_transcript env k transcript with
  | inr r =>
      QAAuditorState.set_transcripts_processed
        (QAAuditorState.transcripts_processed s + 1)
        (QAAuditorState.set_risk_scores
           (QAAuditorState.risk_scores s ++ [r]) s)
  | inl e =>
      let s1 :=
        QAAuditorState.set_errors
          (QAAuditorState.errors s
           ++ ["Failed to risk-score "
               ++ InteractionTranscript.interaction_id transcript
               ++ ": " ++ str_exn env e]) s in
      let s2 :=
        QAAuditorState.set_transcripts_failed
          (QAAuditorState.transcripts_failed s1 + 1) s1 in
      QAAuditorState.set_risk_scores
        (QAAuditorState.risk_scores s2 ++ [default_risk_score transcript]) s2
  end.

Fixpoint risk_loop (env : Env) (k : nat)
    (transcripts : list InteractionTranscript.t) (s : QAAuditorState.t)
  : QAAuditorState.t :=
  match transcripts with
  | [] => s
  | transcript :: rest =>
      risk_loop env (S k) rest (risk_step env s k transcript)
  end.

(** [list.sort(key=lambda r: r.risk_score, reverse=True)]: the stable
    sort by falling score. Each element goes behind the sorted elements
    whose score is not smaller than its own. *)
Fixpoint insert_by_risk (r : RiskScore.t) (sorted : list RiskScore.t)
  : list RiskScore.t :=
  match sorted with
  | [] => [r]
  | x :: rest =>
      if Qle_bool (RiskScore.risk_score r) (RiskScore.risk_score x)
      then x :: insert_by_risk r rest
      else r :: x :: rest
  end.

Definition sort_by_risk (l : list RiskScore.t) : list RiskScore.t :=
  fold_left (fun sorted r => insert_by_risk r sorted) l [].

Definition ingest_and_risk_score (env : Env)
    (initial_state : option QAAuditorState.t) (state : QAAuditorState.t)
  : QAAuditorState.t :=
  let s :=
    match initial_state with
    | Some initial => initial
    | None => state
    end in
  match QAAuditorState.raw_transcripts s with
  | [] =>
      QAAuditorState.set_processing_status "failed_no_input"
        (QAAuditorState.set_errors
           (QAAuditorState.errors s
            ++ ["No transcripts provided for analysis"]) s)
  | _ :: _ =>
      let s' := risk_loop env 0 (QAAuditorState.raw_transcripts s) s in
      QAAuditorState.set_risk_scores
        (sort_by_risk (QAAuditorState.risk_scores s')) s'
  end.

(** ** Stage 2: [deep_qa_analysis] *)

(** [transcript_map.get(interaction_id)]: the dict is filled in the
    order of the transcripts, so the last one with an id is the one kept. *)
Definition transcript_map_get (transcripts : list InteractionTranscript.t)
    (interaction_id : string) : option InteractionTranscript.t :=
  find (fun t =>
          String.eqb (InteractionTranscript.interaction_id t) interaction_id)
       (rev transcripts).

(** [QAEvaluation(...)] on its arguments: pydantic validates them. *)
Definition new_QAEvaluation (interaction_id agent_id : value)
    (compliance empathy resolution process overall : float_value)
    (compliance_issues strengths improvement_areas : value)
    (severity : ComplianceSeverity) : result QAEvaluation.t :=
  match Field.str interaction_id, Field.str agent_id,
        Field.bounded 0 100 compliance, Field.bounded 0 100 empathy,
        Field.bounded 0 100 resolution, Field.bounded 0 100 process,
        Field.bounded 0 100 overall,
        Field.str_list compliance_issues, Field.str_list strengths,
        Field.str_list improvement_areas with
  | Some i, Some a, Some c, Some e, Some r, Some p, Some o,
    Some ci, Some st, Some im =>
      inr (QAEvaluation.mk i a c e r p o ci st im severity)
  | _, _, _, _, _, _, _, _, _, _ =>
      inl (ValidationError
             [ ("interaction_id", interaction_id);
               ("agent_id", agent_id);
               ("compliance_score", value_of_float compliance);
               ("empathy_score", value_of_float empathy);
               ("resolution_score", value_of_float resolution);
               ("process_adherence_score", value_of_float process);
               ("overall_score", value_of_float overall);
               ("compliance_issues", compliance_issues);
               ("strengths", strengths);
               ("improvement_areas", improvement_areas) ])
  end.

(** [ComplianceSeverity(sev_str)], with [NONE] for its [ValueError]. *)
Definition severity_of (sev_str : string) : ComplianceSeverity :=
  match Severity.of_string sev_str with
  | Some severity => severity
  | None => NONE
  end.

(** [float(parsed.get(key, 50))]. *)
Definition score_field (env : Env) (parsed : value) (key : string)
  : result float_value :=
  v <- get parsed key (VInt 50) ;;
  to_float (float_of_str env) v.

(** The body of the [try] for one transcript of high or medium
    priority. *)
Definition analyse_transcript (env : Env) (k : nat)
    (transcript : InteractionTranscript.t) : result QAEvaluation.t :=
  match qa_crew env k transcript with
  | Raises message => inl (Raised message)
  | Returns pydantic raw =>
      parsed <- parsed_of env dump_qa pydantic raw ;;
      if negb (truthy parsed) then
        inl (Raised ("Could not parse QA output: " ++ Regex.take 200 raw))
      else
        sev <- get parsed "compliance_severity" (VStr "none") ;;
        let sev_str := PyStr.lower (str (repr env) sev) in
        let severity := severity_of sev_str in
        interaction_id <-
          get parsed "interaction_id"
            (VStr (InteractionTranscript.interaction_id transcript)) ;;
        agent_id <-
          get parsed "agent_id"
            (VStr (InteractionTranscript.agent_id transcript)) ;;
        compliance <- score_field env parsed "compliance_score" ;;
        empathy <- score_field env parsed "empathy_score" ;;
        resolution <- score_field env parsed "resolution_score" ;;
        process <- score_field env parsed "process_adherence_score" ;;
        overall <- score_field env parsed "overall_score" ;;
        compliance_issues <- get parsed "compliance_issues" (VList []) ;;
        strengths <- get parsed "strengths" (VList []) ;;
        improvement_areas <- get parsed "improvement_areas" (VList []) ;;
        new_QAEvaluation interaction_id agent_id
          compliance empathy resolution process overall
          compliance_issues strengths improvement_areas severity
  end.

(** The em dash of the two messages below, as its UTF-8 bytes. *)
Definition em_dash : string :=
  String (ascii_of_nat 226)
    (String (ascii_of_nat 128) (String (ascii_of_nat 148) EmptyString)).

(** The evaluation of a transcript of low priority. *)
Definition default_pass (risk : RiskScore.t)
    (transcript : InteractionTranscript.t) : QAEvaluation.t :=
  QAEvaluation.mk (RiskScore.interaction_id risk)
    (InteractionTranscript.agent_id transcript)
    85 75 80 80 80
    [] ["Low risk " ++ em_dash ++ " passed automated screening"] [] NONE.

(** The evaluation of a transcript whose analysis failed. *)
Definition default_failed (risk : RiskScore.t)
    (transcript : InteractionTranscript.t) : QAEvaluation.t :=
  QAEvaluation.mk (RiskScore.interaction_id risk)
    (InteractionTranscript.agent_id transcript)
    50 50 50 50 50
    ["evaluation_failed"] []
    ["Unable to evaluate " ++ em_dash ++ " review manually"] NONE.

Definition append_evaluation (ev : QAEvaluation.t) (s : QAAuditorState.t)
  : QAAuditorState.t :=
  QAAuditorState.set_qa_evaluations (QAAuditorState.qa_evaluations s ++ [ev]) s.

Definition append_error (message : string) (s : QAAuditorState.t)
  : QAAuditorState.t :=
  QAAuditorState.set_errors (QAAuditorState.errors s ++ [message]) s.

(** One turn of the loop over the risk scores. *)
Definition qa_step (env : Env) (s : QAAuditorState.t) (k : nat)
    (risk : RiskScore.t) : QAAuditorState.t :=
  match transcript_map_get (QAAuditorState.raw_transcripts s)
          (RiskScore.interaction_id risk) with
  | None =>
      append_error
        ("Transcript " ++ RiskScore.interaction_id risk
         ++ " not found for QA analysis") s
  | Some transcript =>
      if String.eqb (RiskScore.priority_for_review risk) "low"
      then append_evaluation (default_pass risk transcript) s
      else
        match analyse_transcript env k transcript with
        | inr ev => append_evaluation ev s
        | inl e =>
            append_evaluation (default_failed risk transcript)
              (append_error
                 ("Failed QA analysis for " ++ RiskScore.interaction_id risk
                  ++ ": " ++ str_exn env e) s)
        end
  end.

Fixpoint qa_loop (env : Env) (k : nat) (risks : list RiskScore.t)
    (s : QAAuditorState.t) : QAAuditorState.t :=
  match risks with
  | [] => s
  | risk :: rest => qa_loop env (S k) rest (qa_step env s k risk)
  end.

(** The dict of the five averages over [evals]. *)
Definition averages (env : Env) (evals : list QAEvaluation.t)
  : list (string * Q) :=
  [ ("compliance", round_mean env (map QAEvaluation.compliance_score evals));
    ("empathy", round_mean env (map QAEvaluation.empathy_score evals));
    ("resolution", round_mean env (map QAEvaluation.resolution_score evals));
    ("process_adherence",
      round_mean env (map QAEvaluation.process_adherence_score evals));
    ("overall", round_mean env (map QAEvaluation.overall_score evals)) ].

Definition deep_qa_analysis (env : Env) (s : QAAuditorState.t)
  : QAAuditorState.t :=
  match QAAuditorState.risk_scores s with
  | [] => append_error "No risk scores available for QA analysis" s
  | _ :: _ =>
      let s' := qa_loop env 0 (QAAuditorState.risk_scores s) s in
      match QAAuditorState.qa_evaluations s' with
      | [] => s'
      | _ :: _ =>
          QAAuditorState.set_average_scores
            (averages env (QAAuditorState.qa_evaluations s')) s'
      end
  end.

(** ** Stage 3: [route_by_compliance] *)

Definition is_critical (e : QAEvaluation.t) : bool :=
  Severity.eqb (QAEvaluation.compliance_severity e) CRITICAL.

Definition violation_of (e : QAEvaluation.t) : Violation.t :=
  Violation.mk (QAEvaluation.interaction_id e) (QAEvaluation.agent_id e)
    (QAEvaluation.compliance_issues e).

(** The state the router leaves and the label it returns. *)
Definition route_by_compliance (s : QAAuditorState.t)
  : QAAuditorState.t * string :=
  let critical := filter is_critical (QAAuditorState.qa_evaluations s) in
  match critical with
  | _ :: _ =>
      (QAAuditorState.set_critical_violations (map violation_of critical)
         (QAAuditorState.set_has_critical_violations true s),
       "compliance_escalation")
  | [] => (s, "standard_analysis")
  end.

(** ** Stage 4a: [handle_compliance_escalation] *)

(** The report is a text made of the campaign, the period, the
    violations, the evaluations and of [now], what [datetime.now()]
    shows when the stage reads it. *)
Definition handle_compliance_escalation (env : Env) (now : string)
    (s : QAAuditorState.t) : QAAuditorState.t :=
  QAAuditorState.set_compliance_escalation_report
    (escalation_text env now (QAAuditorState.campaign_name s)
       (QAAuditorState.evaluation_period s)
       (QAAuditorState.critical_violations s)
       (QAAuditorState.qa_evaluations s)) s.

(** ** Stage 5: [detect_patterns] *)

(** [PatternInsight] on the unpacked [p]: [p] has to be a mapping;
    pydantic wants the two fields without a default and ignores keys it
    does not know. *)
Definition new_PatternInsight (p : value) : result PatternInsight.t :=
  match p with
  | VDict d =>
      match dict_get d "pattern_type", dict_get d "description" with
      | Some pattern_type, Some description =>
          match Field.str pattern_type, Field.str description,
                Field.str_list (dict_get_default d "affected_agents" (VList [])),
                Field.str (dict_get_default d "frequency" (VStr "")),
                Field.str_list
                  (dict_get_default d "evidence_interaction_ids" (VList [])),
                Field.str (dict_get_default d "recommended_action" (VStr ""))
          with
          | Some pt, Some de, Some aa, Some fr, Some ev, Some ra =>
              inr (PatternInsight.mk pt de aa fr ev ra)
          | _, _, _, _, _, _ => inl (ValidationError d)
          end
      | _, _ => inl (ValidationError d)
      end
  | _ => inl (TypeError p)
  end.

(** The list comprehension over [parsed["insights"]]. *)
Fixpoint new_PatternInsights (l : list value)
  : result (list PatternInsight.t) :=
  match l with
  | [] => inr []
  | p :: rest =>
      insight <- new_PatternInsight p ;;
      insights <- new_PatternInsights rest ;;
      inr (insight :: insights)
  end.

(** The first [if] under [if parsed:]: the insights to store, the old
    ones when the key is not there. *)
Definition read_insights (parsed : value) (s : QAAuditorState.t)
  : result (list PatternInsight.t) :=
  present <- contains "insights" parsed ;;
  if present then
    raw_insights <- getitem parsed "insights" ;;
    l <- items raw_insights ;;
    new_PatternInsights l
  else inr (QAAuditorState.pattern_insights s).

(** The second [if], and the [len] of the second [print]: the value is
    stored as it is, and counting it raises when it has no length. (The
    handler then overwrites the field, so the state keeps the old list
    in that case.) *)
Definition read_agents (parsed : value) (s : QAAuditorState.t)
  : QAAuditorState.t * option exn :=
  match contains "agents_needing_coaching" parsed with
  | inl e => (s, Some e)
  | inr false => (s, None)
  | inr true =>
      match getitem parsed "agents_needing_coaching" with
      | inl e => (s, Some e)
      | inr agents =>
          match items agents with
          | inr l => (QAAuditorState.set_agents_needing_coaching l s, None)
          | inl e => (s, Some e)
          end
      end
  end.

(** The body of the [try]: the state it leaves, and the exception that
    ended it, if one did. (The summary of the evaluations that the stage
    writes before the [try] only feeds the crew's call, and writing it
    raises nothing.) *)
Definition pattern_body (env : Env) (s : QAAuditorState.t)
  : QAAuditorState.t * option exn :=
  match pattern_crew env with
  | Raises message => (s, Some (Raised message))
  | Returns pydantic raw =>
      match parsed_of env dump_patterns pydantic raw with
      | inl e => (s, Some e)
      | inr parsed =>
          if truthy parsed then
            match read_insights parsed s with
            | inl e => (s, Some e)
            | inr insights =>
                read_agents parsed
                  (QAAuditorState.set_pattern_insights insights s)
            end
          else (s, None)
      end
  end.

(** The test of the fallback: [ev.overall_score < 70 or
    ev.compliance_severity in (CRITICAL, MAJOR)]. *)
Definition needs_coaching (ev : QAEvaluation.t) : bool :=
  negb (Qle_bool 70 (QAEvaluation.overall_score ev))
  || Severity.eqb (QAEvaluation.compliance_severity ev) CRITICAL
  || Severity.eqb (QAEvaluation.compliance_severity ev) MAJOR.

(** The handler's [list(agents_below)]. *)
Definition fallback_agents (env : Env) (evals : list QAEvaluation.t)
  : list value :=
  map VStr
    (list_of_set env (map QAEvaluation.agent_id (filter needs_coaching evals))).

Definition detect_patterns (env : Env) (s : QAAuditorState.t)
  : QAAuditorState.t :=
  match QAAuditorState.qa_evaluations s with
  | [] => append_error "No QA evaluations available for pattern analysis" s
  | _ :: _ =>
      match pattern_body env s with
      | (s', None) => s'
      | (s', Some e) =>
          let s'' :=
            append_error ("Pattern analysis failed: " ++ str_exn env e) s' in
          QAAuditorState.set_agents_needing_coaching
            (fallback_agents env (QAAuditorState.qa_evaluations s'')) s''
      end
  end.

(** ** Stage 6: [generate_coaching_plans] *)

(** [agent_names.get(agent_id, agent_id)]: the dict maps an agent id to
    the name on the last transcript of that agent; a key that is not a
    string is in no case in it. *)
Definition agent_name_of (transcripts : list InteractionTranscript.t)
    (agent_id : value) : value :=
  match agent_id with
  | VStr a =>
      match find (fun t => String.eqb (InteractionTranscript.agent_id t) a)
                 (rev transcripts) with
      | Some t => VStr (InteractionTranscript.agent_name t)
      | None => agent_id
      end
  | _ => agent_id
  end.

(** [CoachingPlan(...)] on its arguments: pydantic validates them. *)
Definition new_CoachingPlan
    (agent_id agent_name overall_performance key_strengths
     priority_improvements specific_examples suggested_training
     follow_up_timeline : value) : result CoachingPlan.t :=
  match Field.str agent_id, Field.str agent_name,
        Field.str overall_performance, Field.str_list key_strengths,
        Field.str_list priority_improvements,
        Field.str_list specific_examples, Field.str_list suggested_training,
        Field.str follow_up_timeline with
  | Some a, Some n, Some o, Some k, Some p, Some e, Some t, Some f =>
      inr (CoachingPlan.mk a n o k p e t f)
  | _, _, _, _, _, _, _, _ =>
      inl (ValidationError
             [ ("agent_id", agent_id);
               ("agent_name", agent_name);
               ("overall_performance", overall_performance);
               ("key_strengths", key_strengths);
               ("priority_improvements", priority_improvements);
               ("specific_examples", specific_examples);
               ("suggested_training", suggested_training);
               ("follow_up_timeline", follow_up_timeline) ])
  end.

(** The body of the [try] for one agent. *)
Definition plan_agent (env : Env) (k : nat) (agent_id agent_name : value)
  : result CoachingPlan.t :=
  match coaching_crew env k agent_id with
  | Raises message => inl (Raised message)
  | Returns pydantic raw =>
      parsed <- parsed_of env dump_coaching pydantic raw ;;
      if truthy parsed then
        a <- get parsed "agent_id" agent_id ;;
        n <- get parsed "agent_name" agent_name ;;
        o <- get parsed "overall_performance" (VStr "below") ;;
        ks <- get parsed "key_strengths" (VList []) ;;
        p <- get parsed "priority_improvements" (VList []) ;;
        e <- get parsed "specific_examples" (VList []) ;;
        t <- get parsed "suggested_training" (VList []) ;;
        f <- get parsed "follow_up_timeline" (VStr "2 weeks") ;;
        new_CoachingPlan a n o ks p e t f
      else
        inl (Raised ("Could not parse coaching output: "
                     ++ Regex.take 200 raw))
  end.

(** One turn of the loop, for an agent id that can be a dict key. (The
    texts about the agent's evaluations and patterns that the turn
    writes before the [try] only feed the crew's call, and writing them
    raises nothing.) *)
Definition coaching_step (env : Env) (s : QAAuditorState.t) (k : nat)
    (agent_id : value) : QAAuditorState.t :=
  let agent_name :=
    agent_name_of (QAAuditorState.raw_transcripts s) agent_id in
  match plan_agent env k agent_id agent_name with
  | inr plan =>
      QAAuditorState.set_coaching_plans
        (QAAuditorState.coaching_plans s ++ [plan]) s
  | inl e =>
      append_error
        ("Failed coaching plan for " ++ str (repr env) agent_id
         ++ ": " ++ str_exn env e) s
  end.

(** The loop. The lookup of the agent's name stands outside the [try]:
    an agent id that cannot be hashed ends the stage with a
    [TypeError]. *)
Fixpoint coaching_loop (env : Env) (k : nat) (agents : list value)
    (s : QAAuditorState.t) : QAAuditorState.t * option exn :=
  match agents with
  | [] => (s, None)
  | agent_id :: rest =>
      if hashable agent_id
      then coaching_loop env (S k) rest (coaching_step env s k agent_id)
      else (s, Some (TypeError agent_id))
  end.

Definition generate_coaching_plans (env : Env) (s : QAAuditorState.t)
  : QAAuditorState.t * option exn :=
  match QAAuditorState.agents_needing_coaching s with
  | [] => (s, None)
  | _ :: _ => coaching_loop env 0 (QAAuditorState.agents_needing_coaching s) s
  end.

(** ** Stage 7: [compile_final_report] *)

(** The summary is a text made of the state and of [now], what
    [datetime.now()] shows when the stage reads it; the detailed report
    is a text made of the state once the summary is stored. *)

Definition compile_final_report (env : Env) (now : string)
    (s : QAAuditorState.t) : QAAuditorState.t :=
  let s1 :=
    QAAuditorState.set_executive_summary (summary_text env now s) s in
  let s2 := QAAuditorState.set_detailed_qa_report (detail_text env s1) s1 in
  QAAuditorState.set_processing_status "complete" s2.

(** ** [kickoff]: the stages in the order of their listeners *)

(** A run ends after the last stage, or with the exception that left a
    stage: the stages listening to that one are not run. *)
Inductive run_result : Type :=
| Completed (s : QAAuditorState.t)
| Aborted (s : QAAuditorState.t) (e : exn).

Definition state_of (r : run_result) : QAAuditorState.t :=
  match r with
  | Completed s | Aborted s _ => s
  end.

Definition kickoff (env : Env) (initial_state : option QAAuditorState.t)
    (state : QAAuditorState.t) : run_result :=
  let s1 := ingest_and_risk_score env initial_state state in
  let s2 := deep_qa_analysis env s1 in
  let (s3, label) := route_by_compliance s2 in
  let s4 :=
    if String.eqb label "compliance_escalation"
    then handle_compliance_escalation env (escalation_clock env) s3
    else s3 in
  let s5 := detect_patterns env s4 in
  match generate_coaching_plans env s5 with
  | (s6, None) => Completed (compile_final_report env (report_clock env) s6)
  | (s6, Some e) => Aborted s6 e
  end.

End Flow.


(* ================================================================== *)
(** * Properties of the scorecard calculator *)
(* ================================================================== *)

Section ScorecardProperties.

Import Scorecard.
Open Scope string_scope.

Lemma band_of_thresholds (o : float) :
  (ge o 90 = true -> band_of o = "exceeds_expectations")
  /\ (ge o 90 = false -> ge o 75 = true -> band_of o = "meets_expectations")
  /\ (ge o 90 = false -> ge o 75 = false -> ge o 60 = true ->
      band_of o = "needs_improvement")
  /\ (ge o 90 = false -> ge o 75 = false -> ge o 60 = false ->
      band_of o = "critical").
Proof.
  unfold band_of.
  repeat split; intros; repeat match goal with H : ge _ _ = _ |- _ => rewrite H; clear H end;
    reflexivity.
Qed.

Lemma run_band (c e r p : float) (profile : string) :
  performance_band (_run c e r p profile)
  = band_of (overall_score (_run c e r p profile)).
Proof. reflexivity. Qed.

(** C1, as the code has it. For every input the band follows the
    thresholds on the overall score: at least 90 gives
    exceeds_expectations, else at least 75 gives meets_expectations, else
    at least 60 gives needs_improvement, and anything else is critical.
    The call (90,90,90,90,standard) has overall score 90.0 and band
    exceeds_expectations; the call (50,50,50,50,standard) has overall
    score 50.0 and, 50 being below 60, band critical. *)
Theorem scorecard_band_thresholds :
  forall (c e r p : float) (profile : string),
    let card := _run c e r p profile in
    let o := overall_score card in
    ((ge o 90 = true -> performance_band card = "exceeds_expectations")
     /\ (ge o 90 = false -> ge o 75 = true ->
         performance_band card = "meets_expectations")
     /\ (ge o 90 = false -> ge o 75 = false -> ge o 60 = true ->
         performance_band card = "needs_improvement")
     /\ (ge o 90 = false -> ge o 75 = false -> ge o 60 = false ->
         performance_band card = "critical"))
    /\ (overall_score (_run 90 90 90 90 "standard") = 90%float
        /\ performance_band (_run 90 90 90 90 "standard")
           = "exceeds_expectations")
    /\ (overall_score (_run 50 50 50 50 "standard") = 50%float
        /\ performance_band (_run 50 50 50 50 "standard") = "critical").
Proof.
  intros c e r p profile card o. split.
  - subst card o. rewrite run_band. apply band_of_thresholds.
  - repeat split; vm_compute; reflexivity.
Qed.

(** C1, as stated, fails on its second example: the call
    (50,50,50,50,standard) has overall score 50.0, and its band is not
    needs_improvement. *)
Lemma scorecard_fifty_is_not_needs_improvement :
  overall_score (_run 50 50 50 50 "standard") = 50%float
  /\ performance_band (_run 50 50 50 50 "standard") <> "needs_improvement".
Proof.
  split.
  - vm_compute; reflexivity.
  - vm_compute. discriminate.
Qed.

End ScorecardProperties.

(* ================================================================== *)
(** * Properties of the compliance pattern matcher *)
(* ================================================================== *)

Section ComplianceMatcherProperties.

Import PyStr ComplianceMatcher.
Open Scope string_scope.

(** The phrases of one named requirement. *)
Definition phrases_of (reqs : list (string * list string)) (name : string)
  : list string :=
  dict_get_default reqs name [].

(** The recording-disclosure phrases, the identity-verification phrases
    and the forbidden phrases of the set [general]. *)
Definition general_disclosure : list string :=
  phrases_of (must_contain general) "call_recording_disclosure".

Definition general_identity : list string :=
  phrases_of (must_contain general) "identity_verification".

Definition general_forbidden : list string :=
  flat_map snd (must_not_contain general).

(** A must_contain requirement passes when any of its phrases occurs; a
    must_not_contain requirement passes when none does. *)
Definition passes_must_contain (text_lower : string)
    (req : string * list string) : bool :=
  any_in (snd req) text_lower.

Definition passes_must_not_contain (text_lower : string)
    (req : string * list string) : bool :=
  negb (any_in (snd req) text_lower).

Definition count_passing (text_lower : string) (reqs : requirement_set) : nat :=
  List.length (filter (passes_must_contain text_lower) (must_contain reqs))
  + List.length
      (filter (passes_must_not_contain text_lower) (must_not_contain reqs)).

Definition count_checks (reqs : requirement_set) : nat :=
  List.length (must_contain reqs) + List.length (must_not_contain reqs).

(** A non-negative rational rounded to [ndigits] decimals, ties to even. *)
Definition Q_round (q : Q) (ndigits : nat) : Q :=
  let p := (10 ^ Z.of_nat ndigits)%Z in
  Qmake (PyFloat.div_half_even (Qnum q * p) (Zpos (Qden q))) (Z.to_pos p).

(** [100 * passed / total] as a rational. *)
Definition percentage (passed total : nat) : Q :=
  (100 * inject_Z (Z.of_nat passed) / inject_Z (Z.of_nat total))%Q.

Lemma no_match_iff_none (phrases : list string) (text : string) :
  (List.length (matching phrases text) =? 0)%nat = negb (any_in phrases text).
Proof.
  unfold matching, any_in.
  induction phrases as [|p ps IH]; simpl; [reflexivity|].
  destruct (contains p text); simpl; [reflexivity | exact IH].
Qed.

Lemma must_contain_loop (low : string) (l : list (string * list string)) :
  forall t,
    total (fold_left (check_must_contain low) l t)
    = (total t + List.length l)%nat
    /\ passed (fold_left (check_must_contain low) l t)
       = (passed t + List.length (filter (passes_must_contain low) l))%nat.
Proof.
  induction l as [|[name ph] l IH]; intros t.
  - simpl. split; lia.
  - cbn [fold_left filter].
    destruct (IH (check_must_contain low t (name, ph))) as [Ht Hp].
    rewrite Ht, Hp.
    change (passes_must_contain low (name, ph)) with (any_in ph low).
    unfold check_must_contain. cbn [total passed].
    destruct (any_in ph low); cbn [List.length]; split; lia.
Qed.

Lemma must_not_contain_loop (low : string) (l : list (string * list string)) :
  forall t,
    total (fold_left (check_must_not_contain low) l t)
    = (total t + List.length l)%nat
    /\ passed (fold_left (check_must_not_contain low) l t)
       = (passed t + List.length (filter (passes_must_not_contain low) l))%nat.
Proof.
  induction l as [|[name ph] l IH]; intros t.
  - simpl. split; lia.
  - cbn [fold_left filter].
    destruct (IH (check_must_not_contain low t (name, ph))) as [Ht Hp].
    rewrite Ht, Hp.
    change (passes_must_not_contain low (name, ph))
      with (negb (any_in ph low)).
    unfold check_must_not_contain. cbn [total passed].
    rewrite no_match_iff_none.
    destruct (any_in ph low); cbn [negb List.length]; split; lia.
Qed.

(** What [run_checks] counts: one check per requirement, and one pass per
    requirement that passes. *)
Lemma run_checks_counts (reqs : requirement_set) (key text : string) :
  total_checks (run_checks reqs key text) = count_checks reqs
  /\ passed_checks (run_checks reqs key text)
     = count_passing (lower text) reqs
  /\ compliance_rate (run_checks reqs key text)
     = rate (count_passing (lower text) reqs) (count_checks reqs).
Proof.
  unfold run_checks, count_checks, count_passing. simpl.
  destruct (must_contain_loop (lower text) (must_contain reqs) (Tally [] 0 0))
    as [Ht1 Hp1].
  destruct (must_not_contain_loop (lower text) (must_not_contain reqs)
              (fold_left (check_must_contain (lower text)) (must_contain reqs)
                 (Tally [] 0 0))) as [Ht2 Hp2].
  rewrite Ht2, Hp2, Ht1, Hp1. simpl. auto.
Qed.

Lemma count_passing_le (low : string) (reqs : requirement_set) :
  (count_passing low reqs <= count_checks reqs)%nat.
Proof.
  unfold count_passing, count_checks.
  pose proof (filter_length_le (passes_must_contain low) (must_contain reqs)).
  pose proof (filter_length_le (passes_must_not_contain low)
                (must_not_contain reqs)).
  lia.
Qed.

(** Every shipped requirement set has four checks, so the rate is one of
    0, 25, 50, 75, 100: the float is exactly the rational percentage. *)
Lemma rate_of_four_exact (k : nat) :
  (k <= 4)%nat ->
  (PyFloat.to_Q (rate k 4) == Q_round (percentage k 4) 1)%Q
  /\ (PyFloat.to_Q (rate k 4) == percentage k 4)%Q.
Proof.
  intros Hk.
  do 5 (destruct k as [|k]; [split; vm_compute; reflexivity|]).
  lia.
Qed.

Lemma lookup_requirement_set (key : string) :
  let reqs := dict_get_default REQUIREMENT_SETS key general in
  reqs = general \/ reqs = pci_dss \/ reqs = collections \/ reqs = sales.
Proof.
  unfold dict_get_default, REQUIREMENT_SETS. cbn [dict_get].
  destruct (String.eqb "general" key); [now left|].
  destruct (String.eqb "pci_dss" key); [now right; left|].
  destruct (String.eqb "collections" key); [now right; right; left|].
  destruct (String.eqb "sales" key); [now right; right; right | now left].
Qed.

Lemma shipped_sets_have_four_checks (key : string) :
  count_checks (dict_get_default REQUIREMENT_SETS key general) = 4%nat.
Proof.
  destruct (lookup_requirement_set key) as [H|[H|[H|H]]]; rewrite H;
    reflexivity.
Qed.

Lemma general_passing (low : string) :
  count_passing low general
  = ((if any_in general_disclosure low then 1 else 0)
     + (if any_in general_identity low then 1 else 0)
     + List.length
         (filter (passes_must_not_contain low) (must_not_contain general)))%nat.
Proof.
  unfold count_passing.
  change (must_contain general)
    with [ ("call_recording_disclosure", general_disclosure);
           ("identity_verification", general_identity) ].
  cbn [filter]. unfold passes_must_contain. cbn [snd].
  destruct (any_in general_disclosure low), (any_in general_identity low);
    cbn [List.length]; lia.
Qed.

Lemma any_in_app (l1 l2 : list string) (text : string) :
  any_in (l1 ++ l2) text = any_in l1 text || any_in l2 text.
Proof. unfold any_in. apply existsb_app. Qed.

Lemma general_clean (low : string) :
  any_in general_forbidden low = false ->
  List.length
    (filter (passes_must_not_contain low) (must_not_contain general)) = 2%nat.
Proof.
  intros H. unfold general_forbidden, any_in in H. simpl in H.
  repeat (apply orb_false_iff in H; destruct H as [? H]).
  unfold passes_must_not_contain, any_in. simpl.
  repeat match goal with
         | E : contains _ _ = false |- _ => rewrite E; clear E
         end.
  reflexivity.
Qed.

(** C2, as the code has it. With the requirement set general: a
    transcript with a recording-disclosure phrase, an identity-verification
    phrase and no forbidden phrase has rate 100.0; one with none of the
    three has rate 50.0. For every transcript and every requirement-set
    key, the report counts one check per requirement and one pass per
    passing requirement, its rate is
    [round((passed / total) * 100, 1)], or 100.0 when there is no check,
    and the rate read as a rational is 100 * passed / total_checks rounded
    to one decimal. *)
Theorem compliance_rate_formula :
  forall text : string,
    let low := lower text in
    (any_in general_disclosure low = true ->
     any_in general_identity low = true ->
     any_in general_forbidden low = false ->
     compliance_rate (_run text "general") = 100%float)
    /\ (any_in general_disclosure low = false ->
        any_in general_identity low = false ->
        any_in general_forbidden low = false ->
        compliance_rate (_run text "general") = 50%float)
    /\ (forall (reqs : requirement_set) (key : string),
          let r := run_checks reqs key text in
          total_checks r = count_checks reqs
          /\ passed_checks r = count_passing low reqs
          /\ compliance_rate r
             = if (total_checks r =? 0)%nat then 100%float
               else PyFloat.round
                      (of_nat (passed_checks r) / of_nat (total_checks r) * 100)
                      1)
    /\ (forall key : string,
          let r := _run text key in
          (PyFloat.to_Q (compliance_rate r)
           == Q_round (percentage (passed_checks r) (total_checks r)) 1)%Q).
Proof.
  intros text low. split; [|split; [|split]].
  - intros Hd Hi Hf.
    change (_run text "general") with (run_checks general "general" text).
    destruct (run_checks_counts general "general" text) as (_ & _ & ->).
    fold low. rewrite general_passing, Hd, Hi, (general_clean _ Hf).
    vm_compute; reflexivity.
  - intros Hd Hi Hf.
    change (_run text "general") with (run_checks general "general" text).
    destruct (run_checks_counts general "general" text) as (_ & _ & ->).
    fold low. rewrite general_passing, Hd, Hi, (general_clean _ Hf).
    vm_compute; reflexivity.
  - intros reqs key r. subst r.
    destruct (run_checks_counts reqs key text) as (Ht & Hp & Hr).
    rewrite Hr, Ht, Hp. fold low. repeat split.
    unfold rate. destruct (count_checks reqs); reflexivity.
  - intros key r. subst r. unfold _run.
    destruct (run_checks_counts (dict_get_default REQUIREMENT_SETS key general)
                key text) as (-> & -> & ->).
    rewrite shipped_sets_have_four_checks.
    apply rate_of_four_exact.
    rewrite <- (shipped_sets_have_four_checks key).
    apply count_passing_le.
Qed.

(** The hypotheses of [compliance_rate_formula] hold of concrete
    transcripts. *)
Lemma compliance_rate_formula_witness :
  compliance_rate
    (_run "This call is recorded. Can you confirm your name?" "general")
  = 100%float
  /\ compliance_rate (_run "Hello, how can I help you today?" "general")
     = 50%float.
Proof.
  split.
  - apply (proj1 (compliance_rate_formula
                    "This call is recorded. Can you confirm your name?"));
      vm_compute; reflexivity.
  - apply (proj1 (proj2 (compliance_rate_formula
                           "Hello, how can I help you today?")));
      vm_compute; reflexivity.
Defined.

(** C2, as stated, fails: a transcript with a recording-disclosure phrase
    and no forbidden phrase, and a transcript with neither, both with rate
    75.0 (the identity-verification requirement decides). *)
Lemma compliance_rate_needs_identity_check :
  (any_in general_disclosure (lower "This call is recorded.") = true
   /\ any_in general_forbidden (lower "This call is recorded.") = false
   /\ compliance_rate (_run "This call is recorded." "general") = 75%float
   /\ compliance_rate (_run "This call is recorded." "general") <> 100%float)
  /\ (any_in general_disclosure (lower "Please verify your identity.") = false
      /\ any_in general_forbidden (lower "Please verify your identity.") = false
      /\ compliance_rate (_run "Please verify your identity." "general")
         = 75%float
      /\ compliance_rate (_run "Please verify your identity." "general")
         <> 50%float).
Proof.
  repeat split; try (vm_compute; reflexivity).
  - intros H. apply (f_equal (fun x => PrimFloat.eqb x 100)) in H.
    vm_compute in H. discriminate.
  - intros H. apply (f_equal (fun x => PrimFloat.eqb x 50)) in H.
    vm_compute in H. discriminate.
Qed.

End ComplianceMatcherProperties.

(* ================================================================== *)
(** * Properties of the red-flag scanner *)
(* ================================================================== *)

Section RedFlagScannerProperties.

Import PyStr RedFlagScanner.
Open Scope string_scope.

(** Every substring whose presence raises a flag. *)
Definition trigger_phrases : list string :=
  flat_map snd scanned_compliance_patterns
  ++ flat_map snd complaint_patterns
  ++ flat_map snd process_patterns.

Definition has_severity (sev : string) (fl : list flag) : bool :=
  existsb (fun f => String.eqb (severity f) sev) fl.

(** The weight of the most severe flag of a non-empty list. *)
Definition max_severity_weight (fl : list flag) : float :=
  if has_severity "critical" fl then 1.0%float
  else if has_severity "high" fl then 0.7%float
  else 0.4%float.

Definition known_severity (f : flag) : Prop :=
  severity f = "critical" \/ severity f = "high" \/ severity f = "medium".

Lemma scan_table_severity (type_ sev low : string)
    (table : list (string * list string)) :
  Forall (fun f => severity f = sev) (scan_table type_ sev low table).
Proof.
  unfold scan_table. apply Forall_flat_map, Forall_forall.
  intros [cat pats] _. unfold scan_category.
  apply Forall_map, Forall_forall. reflexivity.
Qed.

Lemma compute_flags_known (text channel : string) :
  Forall known_severity (compute_flags text channel).
Proof.
  unfold compute_flags.
  apply Forall_app; split; [|apply Forall_app; split; [|apply Forall_app; split]].
  - eapply Forall_impl; [|apply scan_table_severity].
    intros f Hf; left; exact Hf.
  - destruct (_ && _); constructor; [left; reflexivity | constructor].
  - eapply Forall_impl; [|apply scan_table_severity].
    intros f Hf; right; left; exact Hf.
  - eapply Forall_impl; [|apply scan_table_severity].
    intros f Hf; right; right; exact Hf.
Qed.

Lemma has_severity_cons (sev : string) (f : flag) (fl : list flag) :
  has_severity sev (f :: fl)
  = String.eqb (severity f) sev || has_severity sev fl.
Proof. reflexivity. Qed.

Lemma severity_weight_known (f : flag) :
  known_severity f ->
  (severity f = "critical" /\ severity_weight f = 1.0%float)
  \/ (severity f = "high" /\ severity_weight f = 0.7%float)
  \/ (severity f = "medium" /\ severity_weight f = 0.4%float).
Proof.
  unfold severity_weight.
  intros [E|[E|E]]; rewrite E; [left | right; left | right; right];
    split; reflexivity.
Qed.

(** The running maximum of [py_max], started from a weight [w] of the
    dict and fed the weights of [fl]. *)
Lemma py_max_known (fl : list flag) :
  Forall known_severity fl ->
  forall w : float,
    w = 1.0%float \/ w = 0.7%float \/ w = 0.4%float ->
    py_max w (map severity_weight fl)
    = if (w =? 1.0)%float || has_severity "critical" fl then 1.0%float
      else if (w =? 0.7)%float || has_severity "high" fl then 0.7%float
      else 0.4%float.
Proof.
  unfold py_max.
  induction 1 as [|f fl Hf _ IH]; intros w Hw.
  - destruct Hw as [->|[->| ->]]; vm_compute; reflexivity.
  - cbn [map fold_left]. rewrite !has_severity_cons.
    destruct (severity_weight_known _ Hf) as [[E W]|[[E W]|[E W]]];
      rewrite W, E; destruct Hw as [->|[->| ->]];
      (rewrite IH by (vm_compute; auto));
      destruct (has_severity "critical" fl), (has_severity "high" fl);
      vm_compute; reflexivity.
Qed.

Lemma max_of_flags (f : flag) (fl : list flag) :
  Forall known_severity (f :: fl) ->
  py_max (severity_weight f) (map severity_weight fl)
  = max_severity_weight (f :: fl).
Proof.
  intros H. inversion H as [|? ? Hf Hfl]; subst.
  unfold max_severity_weight. rewrite !has_severity_cons.
  destruct (severity_weight_known _ Hf) as [[E W]|[[E W]|[E W]]];
    rewrite W, E;
    (rewrite (py_max_known _ Hfl) by (vm_compute; auto));
    destruct (has_severity "critical" fl), (has_severity "high" fl);
    vm_compute; reflexivity.
Qed.

Lemma no_trigger_no_matches (low : string)
    (table : list (string * list string)) (type_ sev : string) :
  any_in (flat_map snd table) low = false ->
  scan_table type_ sev low table = [].
Proof.
  unfold scan_table, any_in.
  induction table as [|[cat pats] table IH]; intros H; [reflexivity|].
  cbn [flat_map snd] in *. rewrite existsb_app in H.
  apply orb_false_iff in H. destruct H as [H1 H2].
  rewrite (IH H2), app_nil_r. unfold scan_category, matching.
  replace (filter (fun p => contains p low) pats) with (@nil string);
    [reflexivity|].
  clear - H1. induction pats as [|p pats IHp]; [reflexivity|].
  cbn [existsb filter] in *. apply orb_false_iff in H1.
  destruct H1 as [-> H1]. auto.
Qed.

Lemma quiet_text_flags (text channel : string) :
  any_in disclosure_phrases (lower text) = false ->
  any_in trigger_phrases (lower text) = false ->
  compute_flags text channel
  = if String.eqb channel "voice" || String.eqb channel "chat"
    then [missing_disclosure_flag] else [].
Proof.
  intros Hd Ht. unfold trigger_phrases, any_in in Ht.
  rewrite !existsb_app in Ht.
  apply orb_false_iff in Ht. destruct Ht as [H1 Ht].
  apply orb_false_iff in Ht. destruct Ht as [H2 H3].
  unfold compute_flags. rewrite Hd.
  rewrite !no_trigger_no_matches by assumption.
  cbn [negb andb app]. rewrite app_nil_r. reflexivity.
Qed.

Lemma scan_table_length (type_ sev low : string)
    (table : list (string * list string)) :
  (List.length (scan_table type_ sev low table)
   <= List.length (flat_map snd table))%nat.
Proof.
  unfold scan_table.
  induction table as [|[cat pats] table IH]; cbn [flat_map snd].
  - apply Nat.le_refl.
  - rewrite !List.length_app. apply Nat.add_le_mono; [|exact IH].
    unfold scan_category, matching. rewrite length_map.
    apply filter_length_le.
Qed.

(** The scanner knows 45 patterns, and the missing disclosure. *)
Lemma compute_flags_length (text channel : string) :
  (List.length (compute_flags text channel) <= 46)%nat.
Proof.
  unfold compute_flags. rewrite !List.length_app.
  pose proof (scan_table_length "compliance" "critical" (lower text)
                scanned_compliance_patterns) as H1.
  pose proof (scan_table_length "complaint" "high" (lower text)
                complaint_patterns) as H2.
  pose proof (scan_table_length "process" "medium" (lower text)
                process_patterns) as H3.
  change (List.length (flat_map snd scanned_compliance_patterns))
    with 10%nat in H1.
  change (List.length (flat_map snd complaint_patterns)) with 22%nat in H2.
  change (List.length (flat_map snd process_patterns)) with 13%nat in H3.
  assert (H4 : (List.length
                  (if negb (any_in disclosure_phrases (lower text))
                      && (String.eqb channel "voice"
                          || String.eqb channel "chat")
                   then [missing_disclosure_flag] else []) <= 1)%nat).
  { destruct (_ && _); cbn; lia. }
  lia.
Qed.

(** ** The score in exact arithmetic *)

(** The weight of a flag in hundredths: critical = 1.0, high = 0.7,
    medium = 0.4. *)
Definition flag_cents (f : flag) : Z :=
  if String.eqb (severity f) "critical" then 100
  else if String.eqb (severity f) "high" then 70
  else if String.eqb (severity f) "medium" then 40
  else 0.

(** The weight of the most severe flag of a non-empty list, in
    hundredths. *)
Definition weight_cents (fl : list flag) : Z :=
  if has_severity "critical" fl then 100
  else if has_severity "high" fl then 70
  else 40.

(** [min(1.0, weight + 0.05 * (count - 1))] in hundredths, computed in
    the integers: no rounding is left to do. *)
Definition score_cents (fl : list flag) : Z :=
  Z.min 100 (weight_cents fl + 5 * (Z.of_nat (List.length fl) - 1)).

(** The same score as a rational number. *)
Definition exact_score (fl : list flag) : Q :=
  Qmin 1
    ((weight_cents fl # 100)
     + (5 # 100) * (inject_Z (Z.of_nat (List.length fl)) - 1)).

(** The binary64 number nearest to [k / 100], the one a decimal literal
    with two decimals denotes: both integers are binary64 numbers and
    their quotient is rounded once. *)
Definition hundredths (k : Z) : float :=
  (PrimFloat.of_uint63 (Uint63.of_Z k) / 100)%float.

(** What the tool computes in binary64, for each of the three weights
    and each possible number of flags, is the binary64 number nearest
    to the exact score: the errors of the sum and of the product are
    taken back by [round], and the cap is 1.0. *)
Lemma rounded_critical (n : nat) :
  (1 <= n <= 46)%nat ->
  PyFloat.round
    (py_min 1.0 (1.0 + PyFloat.of_Z (Z.of_nat n - 1) * 0.05)%float) 2
  = hundredths (Z.min 100 (100 + 5 * (Z.of_nat n - 1))).
Proof.
  intros H.
  do 47 (destruct n as [|n]; [try lia; vm_compute; reflexivity|]).
  lia.
Qed.

Lemma rounded_high (n : nat) :
  (1 <= n <= 46)%nat ->
  PyFloat.round
    (py_min 1.0 (0.7 + PyFloat.of_Z (Z.of_nat n - 1) * 0.05)%float) 2
  = hundredths (Z.min 100 (70 + 5 * (Z.of_nat n - 1))).
Proof.
  intros H.
  do 47 (destruct n as [|n]; [try lia; vm_compute; reflexivity|]).
  lia.
Qed.

Lemma rounded_medium (n : nat) :
  (1 <= n <= 46)%nat ->
  PyFloat.round
    (py_min 1.0 (0.4 + PyFloat.of_Z (Z.of_nat n - 1) * 0.05)%float) 2
  = hundredths (Z.min 100 (40 + 5 * (Z.of_nat n - 1))).
Proof.
  intros H.
  do 47 (destruct n as [|n]; [try lia; vm_compute; reflexivity|]).
  lia.
Qed.

Lemma has_severity_false (sev : string) (fl : list flag) (f : flag) :
  has_severity sev fl = false -> In f fl -> String.eqb (severity f) sev = false.
Proof.
  intros H Hin. destruct (String.eqb (severity f) sev) eqn:E; [|reflexivity].
  assert (Ht : has_severity sev fl = true).
  { apply existsb_exists. exists f. split; assumption. }
  congruence.
Qed.

(** [weight_cents] is the largest weight among the flags. *)
Lemma weight_cents_is_max (fl : list flag) :
  Forall known_severity fl ->
  fl <> [] ->
  (forall f, In f fl -> (flag_cents f <= weight_cents fl)%Z)
  /\ (exists f, In f fl /\ flag_cents f = weight_cents fl).
Proof.
  intros Hk Hne. unfold weight_cents.
  destruct (has_severity "critical" fl) eqn:Hc.
  - split.
    + intros f _. unfold flag_cents.
      repeat match goal with |- context [String.eqb ?a ?b] =>
               destruct (String.eqb a b) end; lia.
    + apply existsb_exists in Hc. destruct Hc as (f & Hin & E).
      exists f. split; [exact Hin|]. unfold flag_cents. now rewrite E.
  - destruct (has_severity "high" fl) eqn:Hh.
    + split.
      * intros f Hin. unfold flag_cents.
        rewrite (has_severity_false _ _ _ Hc Hin).
        repeat match goal with |- context [String.eqb ?a ?b] =>
                 destruct (String.eqb a b) end; lia.
      * apply existsb_exists in Hh. destruct Hh as (f & Hin & E).
        exists f. split; [exact Hin|]. unfold flag_cents.
        now rewrite (has_severity_false _ _ _ Hc Hin), E.
    + assert (Hall : forall f, In f fl -> flag_cents f = 40%Z).
      { intros f Hin. unfold flag_cents.
        rewrite (has_severity_false _ _ _ Hc Hin),
                (has_severity_false _ _ _ Hh Hin).
        destruct (proj1 (Forall_forall _ _) Hk f Hin) as [E|[E|E]];
          rewrite E; try reflexivity.
        - pose proof (has_severity_false _ _ _ Hc Hin) as F.
          rewrite E in F. discriminate.
        - pose proof (has_severity_false _ _ _ Hh Hin) as F.
          rewrite E in F. discriminate. }
      split.
      * intros f Hin. rewrite (Hall f Hin). lia.
      * destruct fl as [|f rest]; [congruence|].
        exists f. split; [now left | apply Hall; now left].
Qed.

Lemma score_cents_exact (fl : list flag) :
  (score_cents fl # 100 == exact_score fl)%Q.
Proof.
  unfold score_cents, exact_score.
  set (w := weight_cents fl). set (n := Z.of_nat (List.length fl)).
  assert (E : ((w # 100) + (5 # 100) * (inject_Z n - 1)
               == (w + 5 * (n - 1)) # 100)%Q).
  { unfold Qeq, Qplus, Qmult, Qminus, Qopp, inject_Z.
    cbn -[Z.mul Z.add Z.sub Z.opp]. lia. }
  rewrite E. destruct (Z.min_spec 100 (w + 5 * (n - 1))) as [[L ->]|[L ->]].
  - rewrite Q.min_l; [reflexivity|]. unfold Qle.
    cbn -[Z.mul Z.add Z.sub]. lia.
  - rewrite Q.min_r; [reflexivity|]. unfold Qle.
    cbn -[Z.mul Z.add Z.sub]. lia.
Qed.

(** Three remarks on a channel that needs no disclosure: one flag of
    severity high and two of severity medium. *)
Definition three_remarks : string :=
  "This is unacceptable, I have been on hold for an hour with the same "
  ++ "issue.".

(** A complaint on a call without a recording disclosure: one flag of
    severity critical and one of severity high. *)
Definition undisclosed_complaint : string :=
  "Hello, I want to file a complaint.".

(** C7. For every text and channel the reported risk score is 0.1 when no
    flag is raised and otherwise the binary64 number nearest to
    [min(1.0, max_severity_weight + 0.05 * (flag_count - 1))] taken in
    exact arithmetic, a number of hundredths, with weight 1.0 when
    some flag is critical, else 0.7 when some flag is high, else 0.4: the
    score is capped at 1.0 and has two decimals; that weight is the
    largest of the flags' weights. A voice transcript with
    no disclosure phrase and no trigger substring raises exactly the
    missing_disclosure flag (severity critical) and has risk score 1.0;
    the same text on channel email raises no flag and has risk score
    0.1. *)
Theorem red_flag_risk_score :
  forall text channel : string,
    let r := _run text channel in
    flags_found r = List.length (flags r)
    /\ (flags r = [] -> risk_score r = 0.1%float)
    /\ (flags r <> [] ->
        risk_score r = hundredths (score_cents (flags r))
        /\ (score_cents (flags r) # 100 == exact_score (flags r))%Q
        /\ (40 <= score_cents (flags r) <= 100)%Z
        /\ (forall f, In f (flags r) ->
              (flag_cents f <= weight_cents (flags r))%Z)
        /\ (exists f, In f (flags r)
                      /\ flag_cents f = weight_cents (flags r)))
    /\ (any_in disclosure_phrases (lower text) = false ->
        any_in trigger_phrases (lower text) = false ->
        (flags (_run text "voice") = [missing_disclosure_flag]
         /\ category missing_disclosure_flag = "missing_disclosure"
         /\ severity missing_disclosure_flag = "critical"
         /\ flags_found (_run text "voice") = 1%nat
         /\ risk_score (_run text "voice") = 1.0%float)
        /\ (flags (_run text "email") = []
            /\ flags_found (_run text "email") = 0%nat
            /\ risk_score (_run text "email") = 0.1%float)).
Proof.
  intros text channel r. subst r. unfold _run. cbn [flags_found flags risk_score].
  split; [reflexivity|]. split; [|split].
  - intros ->. vm_compute; reflexivity.
  - intros Hne. split; [|split; [apply score_cents_exact|split]];
      [| |exact (weight_cents_is_max _ (compute_flags_known text channel)
                   Hne)].
    + unfold raw_risk_score.
      pose proof (compute_flags_known text channel) as Hk.
      pose proof (compute_flags_length text channel) as Hlen.
      destruct (compute_flags text channel) as [|f fl]; [congruence|].
      cbn [map]. rewrite (max_of_flags _ _ Hk).
      unfold max_severity_weight, score_cents, weight_cents.
      destruct (has_severity "critical" (f :: fl));
        [apply rounded_critical
        |destruct (has_severity "high" (f :: fl));
         [apply rounded_high | apply rounded_medium]];
        cbn [List.length] in *; lia.
    + unfold score_cents, weight_cents.
      destruct (compute_flags text channel) as [|f fl]; [congruence|].
      cbn [List.length].
      destruct (has_severity "critical" (f :: fl));
        [|destruct (has_severity "high" (f :: fl))]; lia.
  - intros Hd Ht.
    rewrite !(quiet_text_flags text _ Hd Ht). cbn [String.eqb Ascii.eqb orb].
    repeat split; vm_compute; reflexivity.
Qed.

(** The hypotheses of [red_flag_risk_score] hold of concrete
    transcripts. A quiet greeting has score 1.0 on a call and 0.1 in an
    e-mail. Three remarks, one of them of severity high, add up to
    0.7999999999999999 in binary64 and are reported as 0.8. A critical
    flag with a second flag would add up to 1.05 and is reported as
    1.0. *)
Lemma red_flag_risk_score_witness :
  ((flags (_run "Hello, thanks for calling. How can I help?" "voice")
    = [missing_disclosure_flag]
    /\ category missing_disclosure_flag = "missing_disclosure"
    /\ severity missing_disclosure_flag = "critical"
    /\ flags_found (_run "Hello, thanks for calling. How can I help?" "voice")
       = 1%nat
    /\ risk_score (_run "Hello, thanks for calling. How can I help?" "voice")
       = 1.0%float)
   /\ (flags (_run "Hello, thanks for calling. How can I help?" "email") = []
       /\ flags_found
            (_run "Hello, thanks for calling. How can I help?" "email") = 0%nat
       /\ risk_score
            (_run "Hello, thanks for calling. How can I help?" "email")
          = 0.1%float))
  /\ (flags_found (_run three_remarks "email") = 3%nat
      /\ raw_risk_score (flags (_run three_remarks "email"))
         = 0.7999999999999999%float
      /\ score_cents (flags (_run three_remarks "email")) = 80%Z
      /\ risk_score (_run three_remarks "email") = 0.8%float)
  /\ (flags_found (_run undisclosed_complaint "voice") = 2%nat
      /\ (1.0 + PyFloat.of_Z (2 - 1) * 0.05)%float = 1.05%float
      /\ score_cents (flags (_run undisclosed_complaint "voice")) = 100%Z
      /\ risk_score (_run undisclosed_complaint "voice") = 1.0%float).
Proof.
  split; [|split].
  - apply (proj2 (proj2 (proj2
             (red_flag_risk_score
                "Hello, thanks for calling. How can I help?" "voice"))));
      vm_compute; reflexivity.
  - split; [vm_compute; reflexivity|]. split; [vm_compute; reflexivity|].
    split; [vm_compute; reflexivity|].
    refine (eq_trans
              (proj1 (proj1 (proj2 (proj2
                 (red_flag_risk_score three_remarks "email"))) _)) _);
      [vm_compute; discriminate | vm_compute; reflexivity].
  - split; [vm_compute; reflexivity|]. split; [vm_compute; reflexivity|].
    split; [vm_compute; reflexivity|].
    refine (eq_trans
              (proj1 (proj1 (proj2 (proj2
                 (red_flag_risk_score undisclosed_complaint "voice"))) _)) _);
      [vm_compute; discriminate | vm_compute; reflexivity].
Defined.

End RedFlagScannerProperties.

(* ================================================================== *)
(** * Properties of the result parser *)
(* ================================================================== *)

Section ParserProperties.

Import PyStr Regex Parser.
Open Scope string_scope.

(** Every character of [s] is whitespace. *)
Fixpoint all_space (s : string) : bool :=
  match s with
  | String c s' => is_space c && all_space s'
  | EmptyString => true
  end.

(** No character of [s] is a backtick. *)
Fixpoint no_backtick (s : string) : bool :=
  match s with
  | String c s' => negb (Ascii.eqb "`" c) && no_backtick s'
  | EmptyString => true
  end.

(** [s] is not empty and its first (last) character is not whitespace. *)
Definition starts_nonspace (s : string) : bool :=
  match s with
  | String c _ => negb (is_space c)
  | EmptyString => false
  end.

Fixpoint ends_nonspace (s : string) : bool :=
  match s with
  | String c EmptyString => negb (is_space c)
  | String _ s' => ends_nonspace s'
  | EmptyString => false
  end.

(** [block] holds no closing fence: three backticks occur neither inside
    it nor across its end. *)
Definition fence_free (block : string) : bool :=
  negb (contains fence (block ++ "``")).

(** What decoding the text a pattern extracts from [raw] gives; where
    the pattern does not match there is nothing to decode. *)
Definition attempt (loads : string -> decoded) (pattern : list item)
    (raw : string) : option decoded :=
  option_map loads (search pattern raw).

Lemma starts_with_app (p s : string) : starts_with p (p ++ s) = true.
Proof.
  induction p as [|c p IH]; simpl; [reflexivity|].
  rewrite Ascii.eqb_refl. exact IH.
Qed.

Lemma drop_app (p s : string) : drop (String.length p) (p ++ s) = s.
Proof. induction p as [|c p IH]; simpl; [destruct s; reflexivity | exact IH]. Qed.

Lemma length_app (a b : string) :
  String.length (a ++ b) = (String.length a + String.length b)%nat.
Proof. induction a as [|c a IH]; simpl; [reflexivity | now rewrite IH]. Qed.

Lemma take_app (a b : string) :
  take (String.length (a ++ b) - String.length b) (a ++ b) = a.
Proof.
  rewrite length_app.
  replace (String.length a + String.length b - String.length b)%nat
    with (String.length a) by lia.
  induction a as [|c a IH]; simpl; [destruct b; reflexivity | now rewrite IH].
Qed.

Lemma space_is_not_backtick (c : ascii) :
  is_space c = true -> Ascii.eqb "`" c = false.
Proof.
  destruct c as [[] [] [] [] [] [] [] []]; vm_compute; congruence.
Qed.

(** A closing fence cannot start inside a fence-free block. *)
Lemma no_fence_inside (b ws post : string) :
  b <> "" ->
  starts_with fence (b ++ "``") = false ->
  all_space ws = true ->
  starts_with fence (b ++ ws ++ fence ++ post) = false.
Proof.
  unfold fence. intros Hb H Hws.
  assert (Hw : starts_with "`" ws = false).
  { destruct ws as [|w ws']; [reflexivity|]. cbn [all_space starts_with] in *.
    apply andb_true_iff in Hws. destruct Hws as [Hw _].
    now rewrite (space_is_not_backtick _ Hw). }
  destruct b as [|c1 [|c2 [|c3 b3]]]; [congruence| | |];
    cbn [append starts_with] in H |- *.
  - destruct (Ascii.eqb "`" c1); [|reflexivity]. cbn [andb].
    destruct ws as [|w ws']; [discriminate|]. cbn [append starts_with] in *.
    destruct (Ascii.eqb "`" w); [discriminate | reflexivity].
  - destruct (Ascii.eqb "`" c1); [|reflexivity].
    destruct (Ascii.eqb "`" c2); [|reflexivity]. cbn [andb].
    destruct ws as [|w ws']; [discriminate|]. cbn [append starts_with] in *.
    destruct (Ascii.eqb "`" w); [discriminate | reflexivity].
  - exact H.
Qed.

Section Matching.

Variables (k : string -> option string) (ws post : string).
Hypothesis Hws : all_space ws = true.

(** Inside the block the tail [\s*```] of the first two patterns does
    not match. *)
Lemma closing_fence_not_inside (b : string) :
  ends_nonspace b = true ->
  contains fence (b ++ "``") = false ->
  greedy_spaces
    (fun s => if starts_with fence s then k (drop 3 s) else None)
    (b ++ ws ++ fence ++ post) = None.
Proof.
  induction b as [|c b IH]; intros Hend Hfree; [discriminate|].
  assert (Hhere : starts_with fence (String c b ++ ws ++ fence ++ post) = false).
  { apply no_fence_inside; [discriminate| |exact Hws].
    simpl in Hfree. now apply orb_false_iff in Hfree. }
  change (String c b ++ ws ++ fence ++ post)
    with (String c (b ++ ws ++ fence ++ post)) in *.
  cbn [greedy_spaces]. rewrite Hhere.
  destruct (is_space c) eqn:Hc; [|reflexivity].
  rewrite IH; [reflexivity| |].
  - destruct b; [simpl in Hend; rewrite Hc in Hend; discriminate | exact Hend].
  - change (String c b ++ "``") with (String c (b ++ "``")) in Hfree.
    cbn [contains] in Hfree. now apply orb_false_iff in Hfree.
Qed.

(** At the end of the block it does. *)
Lemma closing_fence_after_spaces (g : string) :
  k post = Some g ->
  greedy_spaces
    (fun s => if starts_with fence s then k (drop 3 s) else None)
    (ws ++ fence ++ post) = Some g.
Proof.
  intros Hk. revert Hws. induction ws as [|c w IH]; intros Hall.
  - simpl. exact Hk.
  - simpl in Hall. apply andb_true_iff in Hall. destruct Hall as [Hc Hall].
    change (String c w ++ fence ++ post) with (String c (w ++ fence ++ post)).
    cbn [greedy_spaces]. rewrite Hc, (IH Hall). reflexivity.
Qed.

End Matching.

Lemma lazy_any_here (k : string -> option string) (s g : string) :
  k s = Some g -> lazy_any k s = Some g.
Proof. intros H. destruct s; simpl; rewrite H; reflexivity. Qed.

Lemma search_here (pattern : list item) (s g : string) :
  match_here pattern s s "" = Some g -> search pattern s = Some g.
Proof. intros H. destruct s; simpl; rewrite H; reflexivity. Qed.

Lemma greedy_spaces_skip (k : string -> option string) (ws s g : string) :
  all_space ws = true ->
  starts_nonspace s = true ->
  k s = Some g ->
  greedy_spaces k (ws ++ s) = Some g.
Proof.
  intros Hws Hs Hk. induction ws as [|c w IH].
  - destruct s as [|c s]; [discriminate|]. simpl in Hs |- *.
    apply negb_true_iff in Hs. rewrite Hs. exact Hk.
  - simpl in Hws. apply andb_true_iff in Hws. destruct Hws as [Hc Hw].
    change (String c w ++ s) with (String c (w ++ s)).
    cbn [greedy_spaces]. rewrite Hc, (IH Hw). reflexivity.
Qed.

(** The lazy group of the first two patterns grows over the whole block
    and stops at the whitespace before the closing fence. *)
Lemma lazy_group_is_block (opened g0 ws post : string) :
  all_space ws = true ->
  forall b : string,
    b = "" \/ (ends_nonspace b = true /\ contains fence (b ++ "``") = false) ->
    lazy_any
      (fun s => match_here [GroupClose; Spaces; Lit fence] s opened g0)
      (b ++ ws ++ fence ++ post)
    = Some (take (String.length opened - String.length (ws ++ fence ++ post))
                 opened).
Proof.
  intros Hws b. induction b as [|c b IH]; intros Hb.
  - apply lazy_any_here. cbn [match_here append].
    apply (closing_fence_after_spaces (fun _ => Some _) ws post Hws).
    reflexivity.
  - destruct Hb as [Hb|[Hend Hfree]]; [discriminate|].
    change (String c b ++ ws ++ fence ++ post)
      with (String c (b ++ ws ++ fence ++ post)).
    cbn [lazy_any].
    change (String c (b ++ ws ++ fence ++ post))
      with (String c b ++ ws ++ fence ++ post).
    cbn [match_here].
    rewrite (closing_fence_not_inside (fun _ => Some _) ws post Hws
               (String c b) Hend Hfree).
    apply IH. destruct b as [|c' b']; [now left | right]. split.
    + exact Hend.
    + change (String c (String c' b') ++ "``")
        with (String c (String c' b' ++ "``")) in Hfree.
      cbn [contains] in Hfree. now apply orb_false_iff in Hfree.
Qed.

(** The first pattern, tried where the tagged fence opens, extracts the
    block. *)
Lemma tagged_fence_extracts_block (ws1 block ws2 post : string) :
  all_space ws1 = true ->
  all_space ws2 = true ->
  starts_nonspace block = true ->
  ends_nonspace block = true ->
  fence_free block = true ->
  forall o g : string,
    match_here (nth 0 patterns [])
      (json_fence ++ ws1 ++ block ++ ws2 ++ fence ++ post) o g
    = Some block.
Proof.
  intros H1 H2 Hs He Hf o g. unfold fence_free in Hf.
  apply negb_true_iff in Hf.
  cbn [nth patterns match_here]. rewrite starts_with_app, drop_app.
  apply greedy_spaces_skip; [exact H1| |].
  - destruct block; [discriminate | exact Hs].
  - transitivity
      (Some (take (String.length (block ++ ws2 ++ fence ++ post)
                   - String.length (ws2 ++ fence ++ post))
                  (block ++ ws2 ++ fence ++ post))).
    + exact (lazy_group_is_block (block ++ ws2 ++ fence ++ post) g ws2 post
               H2 block (or_intror (conj He Hf))).
    + now rewrite take_app.
Qed.

(** Prose without a backtick before the fence is skipped by the search. *)
Lemma search_skips_prose (pattern : list item) (l pre s g : string) :
  no_backtick pre = true ->
  match_here (Lit (String "`" l) :: pattern) s s "" = Some g ->
  search (Lit (String "`" l) :: pattern) (pre ++ s) = Some g.
Proof.
  intros Hpre Hm. induction pre as [|c pre IH].
  - now apply search_here.
  - cbn [no_backtick] in Hpre. apply andb_true_iff in Hpre.
    destruct Hpre as [Hc Hpre]. apply negb_true_iff in Hc.
    change (String c pre ++ s) with (String c (pre ++ s)).
    cbn [search match_here starts_with]. rewrite Hc. cbn [andb].
    now apply IH.
Qed.

Lemma parse_attempts (loads : string -> decoded) (raw : string) :
  _parse_json_safe loads raw
  = match loads raw with
    | Decoded v => Returned v
    | OtherError message => Threw message
    | JSONDecodeError =>
        match attempt loads (nth 0 patterns []) raw with
        | Some (Decoded v) => Returned v
        | Some (OtherError message) => Threw message
        | Some JSONDecodeError | None =>
            match attempt loads (nth 1 patterns []) raw with
            | Some (Decoded v) => Returned v
            | Some (OtherError message) => Threw message
            | Some JSONDecodeError | None =>
                match attempt loads (nth 2 patterns []) raw with
                | Some (Decoded v) => Returned v
                | Some (OtherError message) => Threw message
                | Some JSONDecodeError | None => Returned VNone
                end
            end
        end
    end.
Proof.
  unfold _parse_json_safe, attempt. destruct (loads raw); try reflexivity.
  cbn [try_patterns patterns nth].
  repeat match goal with
         | |- context [search ?p raw] =>
             destruct (search p raw); cbn [option_map]
         | |- context [loads ?g] => destruct (loads g)
         end; reflexivity.
Qed.

(** The parser decodes the whole text, then the content of a fence
    tagged json, then the content of any fence, then the greedy
    brace-delimited substring. The first that decodes is returned; one
    that fails with [JSONDecodeError], or a pattern that does not match,
    passes on to the next, and when nothing is left [None] is returned;
    any other exception of the decoder is caught nowhere and leaves the
    function, so that the later strategies are not tried. A block that
    decodes, has no whitespace at either end and no three backticks
    inside or across its end, set in a tagged fence after prose without
    a backtick, in a text that fails to decode as a whole with
    [JSONDecodeError], parses to what the bare block parses to. *)
Theorem parse_json_safe_strategies :
  forall (loads : string -> decoded) (raw : string),
    _parse_json_safe loads raw
    = match loads raw with
      | Decoded v => Returned v
      | OtherError message => Threw message
      | JSONDecodeError =>
          match attempt loads (nth 0 patterns []) raw with
          | Some (Decoded v) => Returned v
          | Some (OtherError message) => Threw message
          | Some JSONDecodeError | None =>
              match attempt loads (nth 1 patterns []) raw with
              | Some (Decoded v) => Returned v
              | Some (OtherError message) => Threw message
              | Some JSONDecodeError | None =>
                  match attempt loads (nth 2 patterns []) raw with
                  | Some (Decoded v) => Returned v
                  | Some (OtherError message) => Threw message
                  | Some JSONDecodeError | None => Returned VNone
                  end
              end
          end
      end
    /\ (forall message : string,
          loads raw = OtherError message ->
          _parse_json_safe loads raw = Threw message)
    /\ (forall (group message : string),
          loads raw = JSONDecodeError ->
          search (nth 0 patterns []) raw = Some group ->
          loads group = OtherError message ->
          _parse_json_safe loads raw = Threw message)
    /\ (forall (pre ws1 block ws2 post : string) (v : value),
          raw = pre ++ json_fence ++ ws1 ++ block ++ ws2 ++ fence ++ post ->
          loads raw = JSONDecodeError ->
          no_backtick pre = true ->
          all_space ws1 = true ->
          all_space ws2 = true ->
          starts_nonspace block = true ->
          ends_nonspace block = true ->
          fence_free block = true ->
          loads block = Decoded v ->
          _parse_json_safe loads raw = Returned v
          /\ _parse_json_safe loads block = Returned v).
Proof.
  intros loads raw. split; [apply parse_attempts|]. split; [|split].
  - intros message H0. unfold _parse_json_safe. rewrite H0. reflexivity.
  - intros group message H0 H1 H2. rewrite parse_attempts, H0.
    unfold attempt at 1. rewrite H1. cbn [option_map]. rewrite H2.
    reflexivity.
  - intros pre ws1 block ws2 post v -> Hraw Hpre H1 H2 Hs He Hf Hv. split.
    + assert (Hfound :
        search (nth 0 patterns [])
          (pre ++ json_fence ++ ws1 ++ block ++ ws2 ++ fence ++ post)
        = Some block).
      { exact (search_skips_prose _ "``json" pre _ block Hpre
                 (tagged_fence_extracts_block ws1 block ws2 post
                    H1 H2 Hs He Hf _ _)). }
      rewrite parse_attempts, Hraw. unfold attempt at 1.
      rewrite Hfound. cbn [option_map]. rewrite Hv. reflexivity.
    + unfold _parse_json_safe. rewrite Hv. reflexivity.
Qed.

Definition dq : string := String JsonLite.quote "".

Definition nl : string := String (ascii_of_nat 10) "".

(** [{"risk_score": 0.5}] inside a tagged fence inside prose. *)
Definition fenced_block : string :=
  "{" ++ dq ++ "risk_score" ++ dq ++ ": 0.5}".

Definition fenced_prose : string := "Here is the result:" ++ nl.

(** The hypotheses of [parse_json_safe_strategies] hold of a concrete
    text, with the decoder of the examples. *)
Lemma parse_json_safe_strategies_witness :
  _parse_json_safe JsonLite.loads
    (fenced_prose ++ json_fence ++ nl ++ fenced_block ++ nl ++ fence
       ++ nl ++ "Done.")
  = Returned (VDict [("risk_score", VFloat (1 # 2))])
  /\ _parse_json_safe JsonLite.loads fenced_block
     = Returned (VDict [("risk_score", VFloat (1 # 2))]).
Proof.
  assert (Hv : JsonLite.loads fenced_block
               = Decoded (VDict [("risk_score", VFloat (1 # 2))])).
  { vm_compute. reflexivity. }
  refine (proj2 (proj2 (proj2
            (parse_json_safe_strategies JsonLite.loads _)))
            fenced_prose nl fenced_block nl (nl ++ "Done.") _
            eq_refl _ _ _ _ _ _ _ Hv);
    vm_compute; reflexivity.
Defined.

(** [{"note": "use ``` fences"}], a block with three backticks inside a
    string, in a tagged fence after prose with a brace. *)
Definition block_with_fence : string :=
  "{" ++ dq ++ "note" ++ dq ++ ": " ++ dq ++ "use ``` fences" ++ dq ++ "}".

Definition prose_with_brace : string :=
  "Scores are on the {0-100} scale:" ++ nl.

(** A fenced block is not always found: the bare block decodes to a
    record, and the same block in a tagged fence inside prose parses to
    [None]: the lazy group of the first two patterns stops at the
    backticks inside the block, and the greedy braces start in the
    prose. *)
Lemma fenced_block_with_inner_fence_is_lost :
  _parse_json_safe JsonLite.loads block_with_fence
  = Returned (VDict [("note", VStr "use ``` fences")])
  /\ _parse_json_safe JsonLite.loads
       (prose_with_brace ++ json_fence ++ nl ++ block_with_fence ++ nl
          ++ fence)
     = Returned VNone.
Proof. split; vm_compute; reflexivity. Qed.

End ParserProperties.

(* ================================================================== *)
(** * Properties of stage 1: risk scoring *)
(* ================================================================== *)

Section RiskScoringProperties.

Import Py Flow.
Open Scope string_scope.

(** An environment for the examples: the decoder of the examples, crews
    that are out of reach, a set listed in the order of first
    occurrence, and empty report texts. *)
Definition offline : Env :=
  mkEnv JsonLite.loads (fun _ => None) (fun _ => "") (fun _ => "library error")
    (fun _ => 0) (nodup string_dec) (fun l => Permutation_refl _)
    (fun _ _ => Raises "connection refused")
    (fun _ _ => Raises "connection refused")
    (Raises "connection refused")
    (fun _ _ => Raises "connection refused")
    "2026-02-01 10:00:00" "2026-02-01 10:00:05"
    (fun _ _ _ _ _ => "") (fun _ _ => "") (fun _ => "").

(** A transcript for the examples. *)
Definition call_1 : InteractionTranscript.t :=
  InteractionTranscript.mk "INT-1" "A-1" "Ann" "voice" "2026-02-01T10:00:00"
    None "Hello, how can I help?" "" "".

Lemma crew_raise_fails_scoring (env : Env) (k : nat)
    (t : InteractionTranscript.t) (message : string) :
  risk_crew env k t = Raises message ->
  score_transcript env k t = inl (Raised message).
Proof. intros H. unfold score_transcript. rewrite H. reflexivity. Qed.

Lemma unparsable_fails_scoring (env : Env) (k : nat)
    (t : InteractionTranscript.t) (raw : string) (v : value) :
  risk_crew env k t = Returns None raw ->
  Parser._parse_json_safe (json_loads env) raw = Parser.Returned v ->
  truthy v = false ->
  score_transcript env k t
  = inl (Raised ("Could not parse risk score output: " ++ Regex.take 200 raw)).
Proof.
  intros H E Hp. unfold score_transcript. rewrite H.
  cbn [parsed_of]. rewrite E. cbn [bind]. rewrite Hp. reflexivity.
Qed.

Lemma parser_exception_fails_scoring (env : Env) (k : nat)
    (t : InteractionTranscript.t) (raw message : string) :
  risk_crew env k t = Returns None raw ->
  Parser._parse_json_safe (json_loads env) raw = Parser.Threw message ->
  score_transcript env k t = inl (Raised message).
Proof.
  intros H E. unfold score_transcript. rewrite H.
  cbn [parsed_of]. rewrite E. reflexivity.
Qed.

(** Stage 1 does not drop a transcript whose scoring fails. The scoring
    fails with the crew's exception when the call raises, and it fails
    again when the crew returns no typed record and a text from which
    the parser returns no non-empty value: with the flow's own error
    when the text parses to nothing, with the decoder's exception when
    that leaves the parser; and on every failure the turn of the loop
    appends the default score (0.5, error_during_scoring, medium) under
    the transcript's id, appends one error message naming the transcript
    and the exception, adds one to transcripts_failed and leaves
    transcripts_processed as it was. *)
Theorem risk_scoring_failure_keeps_transcript :
  forall (env : Env) (s : QAAuditorState.t) (k : nat)
         (t : InteractionTranscript.t),
    (forall message, risk_crew env k t = Raises message ->
       score_transcript env k t = inl (Raised message))
    /\ (forall raw, risk_crew env k t = Returns None raw ->
          (forall v,
             Parser._parse_json_safe (json_loads env) raw = Parser.Returned v ->
             truthy v = false) ->
          exists message, score_transcript env k t = inl (Raised message))
    /\ (forall e, score_transcript env k t = inl e ->
          let s' := risk_step env s k t in
          QAAuditorState.risk_scores s'
          = (QAAuditorState.risk_scores s
             ++ [RiskScore.mk (InteractionTranscript.interaction_id t) (1 # 2)
                   ["error_during_scoring"] "medium"])%list
          /\ QAAuditorState.errors s'
             = (QAAuditorState.errors s
                ++ [("Failed to risk-score "
                     ++ InteractionTranscript.interaction_id t
                     ++ ": " ++ str_exn env e)%string])%list
          /\ QAAuditorState.transcripts_failed s'
             = (QAAuditorState.transcripts_failed s + 1)%Z
          /\ QAAuditorState.transcripts_processed s'
             = QAAuditorState.transcripts_processed s).
Proof.
  intros env s k t. split; [|split].
  - intros message H. exact (crew_raise_fails_scoring env k t message H).
  - intros raw H Hp.
    destruct (Parser._parse_json_safe (json_loads env) raw) as [v|message]
      eqn:E; eexists.
    + exact (unparsable_fails_scoring env k t raw v H E (Hp v eq_refl)).
    + exact (parser_exception_fails_scoring env k t raw message H E).
  - intros e He s'. subst s'. unfold risk_step. rewrite He.
    repeat split; reflexivity.
Qed.

(** The failure case at a concrete call: the crew is out of reach. *)
Lemma risk_scoring_failure_keeps_transcript_witness :
  QAAuditorState.risk_scores
    (risk_step offline QAAuditorState.default 0 call_1)
  = [RiskScore.mk "INT-1" (1 # 2) ["error_during_scoring"] "medium"]
  /\ QAAuditorState.errors
       (risk_step offline QAAuditorState.default 0 call_1)
     = ["Failed to risk-score INT-1: connection refused"].
Proof.
  destruct (proj2 (proj2 (risk_scoring_failure_keeps_transcript
                            offline QAAuditorState.default 0 call_1))
              (Raised "connection refused") eq_refl) as (H1 & H2 & _).
  split; [exact H1 | exact H2].
Defined.

(** What a turn of the loop appends for a transcript: the score the
    [try] built, or the default one. *)
Definition produced_score (env : Env) (k : nat)
    (t : InteractionTranscript.t) : RiskScore.t :=
  match score_transcript env k t with
  | inr r => r
  | inl _ => default_risk_score t
  end.

Fixpoint produced_scores (env : Env) (k : nat)
    (l : list InteractionTranscript.t) : list RiskScore.t :=
  match l with
  | [] => []
  | t :: rest => produced_score env k t :: produced_scores env (S k) rest
  end.

(** The state stage 1 starts from: the seed, when there is one. *)
Definition seeded (initial_state : option QAAuditorState.t)
    (state : QAAuditorState.t) : QAAuditorState.t :=
  match initial_state with
  | Some initial => initial
  | None => state
  end.

Lemma produced_scores_length (env : Env) (l : list InteractionTranscript.t) :
  forall k, List.length (produced_scores env k l) = List.length l.
Proof.
  induction l as [|t rest IH]; intros k; cbn [produced_scores List.length].
  - reflexivity.
  - now rewrite IH.
Qed.

Lemma risk_step_scores (env : Env) (s : QAAuditorState.t) (k : nat)
    (t : InteractionTranscript.t) :
  QAAuditorState.risk_scores (risk_step env s k t)
  = (QAAuditorState.risk_scores s ++ [produced_score env k t])%list.
Proof.
  unfold risk_step, produced_score.
  destruct (score_transcript env k t); reflexivity.
Qed.

Lemma risk_step_counters (env : Env) (s : QAAuditorState.t) (k : nat)
    (t : InteractionTranscript.t) :
  (QAAuditorState.transcripts_processed (risk_step env s k t)
   + QAAuditorState.transcripts_failed (risk_step env s k t)
   = QAAuditorState.transcripts_processed s
     + QAAuditorState.transcripts_failed s + 1)%Z
  /\ (Z.of_nat (List.length (QAAuditorState.errors (risk_step env s k t)))
      - QAAuditorState.transcripts_failed (risk_step env s k t)
      = Z.of_nat (List.length (QAAuditorState.errors s))
        - QAAuditorState.transcripts_failed s)%Z.
Proof.
  unfold risk_step. destruct (score_transcript env k t); cbn.
  - rewrite List.length_app. cbn. lia.
  - lia.
Qed.

Lemma risk_step_inputs (env : Env) (s : QAAuditorState.t) (k : nat)
    (t : InteractionTranscript.t) :
  QAAuditorState.raw_transcripts (risk_step env s k t)
  = QAAuditorState.raw_transcripts s.
Proof. unfold risk_step. destruct (score_transcript env k t); reflexivity. Qed.

Lemma risk_loop_scores (env : Env) (l : list InteractionTranscript.t) :
  forall k s,
    QAAuditorState.risk_scores (risk_loop env k l s)
    = (QAAuditorState.risk_scores s ++ produced_scores env k l)%list.
Proof.
  induction l as [|t rest IH]; intros k s; cbn [risk_loop produced_scores].
  - now rewrite app_nil_r.
  - rewrite IH, risk_step_scores, <- app_assoc. reflexivity.
Qed.

Lemma risk_loop_counters (env : Env) (l : list InteractionTranscript.t) :
  forall k s,
    (QAAuditorState.transcripts_processed (risk_loop env k l s)
     + QAAuditorState.transcripts_failed (risk_loop env k l s)
     = QAAuditorState.transcripts_processed s
       + QAAuditorState.transcripts_failed s + Z.of_nat (List.length l))%Z
    /\ (Z.of_nat (List.length (QAAuditorState.errors (risk_loop env k l s)))
        - QAAuditorState.transcripts_failed (risk_loop env k l s)
        = Z.of_nat (List.length (QAAuditorState.errors s))
          - QAAuditorState.transcripts_failed s)%Z.
Proof.
  induction l as [|t rest IH]; intros k s; cbn [risk_loop List.length].
  - split; lia.
  - destruct (IH (S k) (risk_step env s k t)) as [H1 H2].
    destruct (risk_step_counters env s k t) as [H3 H4].
    split; lia.
Qed.

Lemma risk_loop_inputs (env : Env) (l : list InteractionTranscript.t) :
  forall k s,
    QAAuditorState.raw_transcripts (risk_loop env k l s)
    = QAAuditorState.raw_transcripts s.
Proof.
  induction l as [|t rest IH]; intros k s; cbn [risk_loop].
  - reflexivity.
  - now rewrite IH, risk_step_inputs.
Qed.

Lemma insert_by_risk_perm (r : RiskScore.t) (l : list RiskScore.t) :
  Permutation (insert_by_risk r l) (r :: l).
Proof.
  induction l as [|x rest IH]; cbn [insert_by_risk].
  - apply Permutation_refl.
  - destruct (Qle_bool _ _).
    + eapply perm_trans; [apply perm_skip, IH | apply perm_swap].
    + apply Permutation_refl.
Qed.

Lemma sort_fold_perm (l : list RiskScore.t) :
  forall acc,
    Permutation (fold_left (fun sorted r => insert_by_risk r sorted) l acc)
                (acc ++ l).
Proof.
  induction l as [|r rest IH]; intros acc; cbn [fold_left].
  - rewrite app_nil_r. apply Permutation_refl.
  - eapply perm_trans; [apply IH|].
    eapply perm_trans;
      [apply Permutation_app_tail, insert_by_risk_perm|].
    cbn. apply Permutation_middle.
Qed.

Lemma sort_by_risk_perm (l : list RiskScore.t) :
  Permutation (sort_by_risk l) l.
Proof. exact (sort_fold_perm l []). Qed.

(** [a] stands before [b] in a list sorted by falling score. *)
Definition not_below (a b : RiskScore.t) : Prop :=
  RiskScore.risk_score b <= RiskScore.risk_score a.

(** The entries of [l] whose score is [v], in their order in [l]. *)
Definition with_score (v : Q) (l : list RiskScore.t) : list RiskScore.t :=
  filter (fun r => Qeq_bool (RiskScore.risk_score r) v) l.

Lemma filter_none {A : Type} (p : A -> bool) (l : list A) :
  (forall y, In y l -> p y = false) -> filter p l = [].
Proof.
  induction l as [|x rest IH]; intros H; cbn [filter]; [reflexivity|].
  rewrite (H x (or_introl eq_refl)). apply IH.
  intros y Hy. apply H. now right.
Qed.

Lemma insert_by_risk_sorted (r : RiskScore.t) (l : list RiskScore.t) :
  StronglySorted not_below l -> StronglySorted not_below (insert_by_risk r l).
Proof.
  induction 1 as [|x rest Hrest IH Hx]; cbn [insert_by_risk].
  - constructor; constructor.
  - destruct (Qle_bool (RiskScore.risk_score r) (RiskScore.risk_score x))
      eqn:Hle.
    + constructor; [exact IH|].
      apply (Permutation_Forall (Permutation_sym (insert_by_risk_perm r rest))).
      constructor; [|exact Hx].
      now apply Qle_bool_iff.
    + assert (Hlt : RiskScore.risk_score x < RiskScore.risk_score r).
      { apply Qnot_le_lt. intros H. apply Qle_bool_iff in H. congruence. }
      constructor; [constructor; assumption|].
      constructor; [now apply Qlt_le_weak|].
      eapply Forall_impl; [|exact Hx].
      intros y Hy. unfold not_below in *.
      eapply Qle_trans; [exact Hy | now apply Qlt_le_weak].
Qed.

Lemma insert_by_risk_stable (v : Q) (r : RiskScore.t) (l : list RiskScore.t) :
  StronglySorted not_below l ->
  with_score v (insert_by_risk r l) = with_score v (l ++ [r]).
Proof.
  induction 1 as [|x rest Hrest IH Hx]; cbn [insert_by_risk].
  - reflexivity.
  - destruct (Qle_bool (RiskScore.risk_score r) (RiskScore.risk_score x))
      eqn:Hle.
    + change ((x :: rest) ++ [r])%list with (x :: (rest ++ [r]))%list.
      unfold with_score in *. cbn [filter]. now rewrite IH.
    + assert (Hlt : RiskScore.risk_score x < RiskScore.risk_score r).
      { apply Qnot_le_lt. intros H. apply Qle_bool_iff in H. congruence. }
      unfold with_score. rewrite filter_app. cbn [filter].
      destruct (Qeq_bool (RiskScore.risk_score r) v) eqn:Hr;
        [|now rewrite app_nil_r].
      apply Qeq_bool_iff in Hr.
      assert (Hnone :
        filter (fun r0 => Qeq_bool (RiskScore.risk_score r0) v) (x :: rest)
        = []).
      { apply filter_none. intros y Hy.
        apply not_true_iff_false. intros Hyv.
        apply Qeq_bool_iff in Hyv.
        assert (Hyx : RiskScore.risk_score y <= RiskScore.risk_score x).
        { destruct Hy as [<-|Hy]; [apply Qle_refl|].
          rewrite Forall_forall in Hx. exact (Hx y Hy). }
        rewrite Hyv, <- Hr in Hyx.
        exact (Qlt_not_le _ _ Hlt Hyx). }
      cbn [filter] in Hnone. rewrite Hnone. reflexivity.
Qed.

Lemma sort_fold_sorted (v : Q) (l : list RiskScore.t) :
  forall acc,
    StronglySorted not_below acc ->
    StronglySorted not_below
      (fold_left (fun sorted r => insert_by_risk r sorted) l acc)
    /\ with_score v (fold_left (fun sorted r => insert_by_risk r sorted) l acc)
       = with_score v (acc ++ l).
Proof.
  induction l as [|r rest IH]; intros acc Hacc; cbn [fold_left].
  - rewrite app_nil_r. now split.
  - destruct (IH (insert_by_risk r acc) (insert_by_risk_sorted r acc Hacc))
      as [H1 H2].
    split; [exact H1|].
    rewrite H2. unfold with_score in *. rewrite !filter_app.
    change (filter (fun r0 => Qeq_bool (RiskScore.risk_score r0) v)
              (insert_by_risk r acc))
      with (with_score v (insert_by_risk r acc)).
    rewrite (insert_by_risk_stable v r acc Hacc).
    unfold with_score. rewrite filter_app.
    cbn [filter]. destruct (Qeq_bool (RiskScore.risk_score r) v);
      now rewrite <- app_assoc.
Qed.

Lemma sort_by_risk_sorted (l : list RiskScore.t) :
  StronglySorted not_below (sort_by_risk l).
Proof.
  exact (proj1 (sort_fold_sorted 0 l [] (SSorted_nil _))).
Qed.

Lemma sort_by_risk_stable (v : Q) (l : list RiskScore.t) :
  with_score v (sort_by_risk l) = with_score v l.
Proof.
  exact (proj2 (sort_fold_sorted v l [] (SSorted_nil _))).
Qed.

Lemma ingest_nonempty (env : Env) (initial_state : option QAAuditorState.t)
    (state : QAAuditorState.t) :
  QAAuditorState.raw_transcripts (seeded initial_state state) <> [] ->
  ingest_and_risk_score env initial_state state
  = QAAuditorState.set_risk_scores
      (sort_by_risk
         (QAAuditorState.risk_scores
            (risk_loop env 0
               (QAAuditorState.raw_transcripts (seeded initial_state state))
               (seeded initial_state state))))
      (risk_loop env 0
         (QAAuditorState.raw_transcripts (seeded initial_state state))
         (seeded initial_state state)).
Proof.
  unfold ingest_and_risk_score.
  change (match initial_state with
          | Some initial => initial
          | None => state
          end) with (seeded initial_state state).
  destruct (QAAuditorState.raw_transcripts (seeded initial_state state));
    [congruence | reflexivity].
Qed.

Lemma ingest_empty (env : Env) (initial_state : option QAAuditorState.t)
    (state : QAAuditorState.t) :
  QAAuditorState.raw_transcripts (seeded initial_state state) = [] ->
  ingest_and_risk_score env initial_state state
  = QAAuditorState.set_processing_status "failed_no_input"
      (append_error "No transcripts provided for analysis"
         (seeded initial_state state)).
Proof.
  unfold ingest_and_risk_score.
  change (match initial_state with
          | Some initial => initial
          | None => state
          end) with (seeded initial_state state).
  intros ->. reflexivity.
Qed.

(** Stage 1 accounts for every transcript. Whatever the crews do, the
    stage leaves the transcripts as they were, appends exactly one
    RiskScore per transcript, and raises transcripts_processed and
    transcripts_failed by one per transcript in total; when there is a
    transcript, every failure comes with exactly one new error message.
    From a start without scores and with both counters at zero, the
    scores are as many as the transcripts and processed + failed is
    their number. *)
Theorem stage1_accounts_for_every_transcript :
  forall (env : Env) (initial_state : option QAAuditorState.t)
         (state : QAAuditorState.t),
    let s := seeded initial_state state in
    let s' := ingest_and_risk_score env initial_state state in
    let n := List.length (QAAuditorState.raw_transcripts s) in
    QAAuditorState.raw_transcripts s' = QAAuditorState.raw_transcripts s
    /\ List.length (QAAuditorState.risk_scores s')
       = (List.length (QAAuditorState.risk_scores s) + n)%nat
    /\ (QAAuditorState.transcripts_processed s'
        + QAAuditorState.transcripts_failed s'
        = QAAuditorState.transcripts_processed s
          + QAAuditorState.transcripts_failed s + Z.of_nat n)%Z
    /\ (QAAuditorState.raw_transcripts s <> [] ->
        (Z.of_nat (List.length (QAAuditorState.errors s'))
         = Z.of_nat (List.length (QAAuditorState.errors s))
           + (QAAuditorState.transcripts_failed s'
              - QAAuditorState.transcripts_failed s))%Z)
    /\ (QAAuditorState.risk_scores s = [] ->
        QAAuditorState.transcripts_processed s = 0%Z ->
        QAAuditorState.transcripts_failed s = 0%Z ->
        List.length (QAAuditorState.risk_scores s') = n
        /\ (QAAuditorState.transcripts_processed s'
            + QAAuditorState.transcripts_failed s' = Z.of_nat n)%Z).
Proof.
  intros env initial_state state s s' n.
  assert (Hmain :
    QAAuditorState.raw_transcripts s' = QAAuditorState.raw_transcripts s
    /\ List.length (QAAuditorState.risk_scores s')
       = (List.length (QAAuditorState.risk_scores s) + n)%nat
    /\ (QAAuditorState.transcripts_processed s'
        + QAAuditorState.transcripts_failed s'
        = QAAuditorState.transcripts_processed s
          + QAAuditorState.transcripts_failed s + Z.of_nat n)%Z
    /\ (QAAuditorState.raw_transcripts s <> [] ->
        (Z.of_nat (List.length (QAAuditorState.errors s'))
         = Z.of_nat (List.length (QAAuditorState.errors s))
           + (QAAuditorState.transcripts_failed s'
              - QAAuditorState.transcripts_failed s))%Z)).
  { subst s' n.
    destruct (QAAuditorState.raw_transcripts s) as [|t rest] eqn:Hin.
    - unfold s in *. rewrite (ingest_empty env initial_state state Hin).
      cbn. rewrite Hin. repeat split; try lia. congruence.
    - assert (Hne : QAAuditorState.raw_transcripts
                      (seeded initial_state state) <> []).
      { unfold s in Hin. rewrite Hin. discriminate. }
      rewrite (ingest_nonempty env initial_state state Hne).
      fold s. rewrite Hin.
      destruct (risk_loop_counters env (t :: rest) 0 s) as [H1 H2].
      cbn [QAAuditorState.set_risk_scores QAAuditorState.raw_transcripts
           QAAuditorState.risk_scores QAAuditorState.transcripts_processed
           QAAuditorState.transcripts_failed QAAuditorState.errors].
      repeat split.
      + now rewrite risk_loop_inputs.
      + rewrite (Permutation_length (sort_by_risk_perm _)).
        rewrite risk_loop_scores, List.length_app, produced_scores_length.
        reflexivity.
      + exact H1.
      + intros _. lia. }
  destruct Hmain as (H1 & H2 & H3 & H4).
  split; [exact H1|]. split; [exact H2|]. split; [exact H3|].
  split; [exact H4|]. intros Hs Hp Hf.
  split; [rewrite H2, Hs; reflexivity | rewrite H3, Hp, Hf; lia].
Qed.

(** Stage 1 leaves the risk scores sorted. When there is a transcript,
    the list the stage leaves holds the scores it started with followed
    by the ones it produced, one per transcript in the order of the
    transcripts, rearranged so that the scores never rise; and for each
    score value the entries with that value stand in the order in which
    they were produced (the sort is stable). *)
Theorem stage1_sorts_by_falling_risk :
  forall (env : Env) (initial_state : option QAAuditorState.t)
         (state : QAAuditorState.t),
    let s := seeded initial_state state in
    let s' := ingest_and_risk_score env initial_state state in
    let produced :=
      (QAAuditorState.risk_scores s
       ++ produced_scores env 0 (QAAuditorState.raw_transcripts s))%list in
    QAAuditorState.raw_transcripts s <> [] ->
    StronglySorted not_below (QAAuditorState.risk_scores s')
    /\ Permutation (QAAuditorState.risk_scores s') produced
    /\ (forall v : Q,
          with_score v (QAAuditorState.risk_scores s')
          = with_score v produced).
Proof.
  intros env initial_state state s s' produced Hne.
  subst s' produced. rewrite (ingest_nonempty env initial_state state Hne).
  fold s.
  cbn [QAAuditorState.set_risk_scores QAAuditorState.risk_scores].
  rewrite risk_loop_scores.
  split; [apply sort_by_risk_sorted|].
  split; [apply sort_by_risk_perm | intros v; apply sort_by_risk_stable].
Qed.

(** Three calls, and crews that score them 0.2, 0.9 and 0.2. *)
Definition call_2 : InteractionTranscript.t :=
  InteractionTranscript.mk "INT-2" "A-2" "Bob" "chat" "2026-02-01T11:00:00"
    None "I want to speak to a manager." "" "".

Definition call_3 : InteractionTranscript.t :=
  InteractionTranscript.mk "INT-3" "A-1" "Ann" "email" "2026-02-01T12:00:00"
    None "Thank you for your help." "" "".

Definition three_calls : QAAuditorState.t :=
  QAAuditorState.mk [call_1; call_2; call_3] "Support" "February 2026" []
    [] [] [] [] false [] [] [] "" "" "" [] "pending" 0%Z 0%Z.

Definition scripted_risk (k : nat) (t : InteractionTranscript.t)
  : outcome RiskScoreOutput.t :=
  Returns
    (Some (RiskScoreOutput.mk (InteractionTranscript.interaction_id t)
             (match k with
              | 1%nat => 9 # 10
              | _ => 2 # 10
              end)
             ["escalation_request"]
             (match k with
              | 1%nat => "high"
              | _ => "low"
              end)))
    "".

Definition scripted : Env :=
  mkEnv JsonLite.loads (fun _ => None) (fun _ => "") (fun _ => "library error")
    (fun _ => 0) (nodup string_dec) (fun l => Permutation_refl _)
    scripted_risk
    (fun _ _ => Raises "connection refused")
    (Raises "connection refused")
    (fun _ _ => Raises "connection refused")
    "2026-02-01 10:00:00" "2026-02-01 10:00:05"
    (fun _ _ _ _ _ => "") (fun _ _ => "") (fun _ => "").

(** With these crews the second call comes first, and the two calls
    scored 0.2 keep their order. *)
Lemma stage1_sorts_by_falling_risk_witness :
  StronglySorted not_below
    (QAAuditorState.risk_scores
       (ingest_and_risk_score scripted (Some three_calls)
          QAAuditorState.default))
  /\ map RiskScore.interaction_id
       (QAAuditorState.risk_scores
          (ingest_and_risk_score scripted (Some three_calls)
             QAAuditorState.default))
     = ["INT-2"; "INT-1"; "INT-3"].
Proof.
  split.
  - refine (proj1 (stage1_sorts_by_falling_risk scripted (Some three_calls)
                     QAAuditorState.default _)).
    discriminate.
  - vm_compute. reflexivity.
Defined.

(** A score of the flow lies between 0 and 1. *)
Definition in_unit_interval (r : RiskScore.t) : Prop :=
  0 <= RiskScore.risk_score r /\ RiskScore.risk_score r <= 1.

Lemma bounded_in_range (lo hi : Q) (x : float_value) (q : Q) :
  Field.bounded lo hi x = Some q -> lo <= q /\ q <= hi.
Proof.
  destruct x as [q'|]; cbn [Field.bounded]; [|discriminate].
  destruct (Qle_bool lo q') eqn:H1; [|discriminate].
  destruct (Qle_bool q' hi) eqn:H2; [|discriminate].
  intros [= <-]. split; now apply Qle_bool_iff.
Qed.

Lemma new_RiskScore_in_range (i : value) (x : float_value) (f p : value)
    (r : RiskScore.t) :
  new_RiskScore i x f p = inr r -> in_unit_interval r.
Proof.
  unfold new_RiskScore.
  destruct (Field.str i); [|discriminate].
  destruct (Field.bounded 0 1 x) as [q|] eqn:Hq; [|discriminate].
  destruct (Field.str_list f); [|discriminate].
  destruct (Field.str p); [|discriminate].
  intros [= <-]. exact (bounded_in_range 0 1 x q Hq).
Qed.

Lemma bind_inr {A B : Type} (r : result A) (k : A -> result B) (b : B) :
  bind r k = inr b -> exists a, r = inr a /\ k a = inr b.
Proof. destruct r as [e|a]; cbn; [discriminate|]. intros H. now exists a. Qed.

Lemma score_transcript_in_range (env : Env) (k : nat)
    (t : InteractionTranscript.t) (r : RiskScore.t) :
  score_transcript env k t = inr r -> in_unit_interval r.
Proof.
  unfold score_transcript.
  destruct (risk_crew env k t) as [m|pydantic raw]; [discriminate|].
  destruct (parsed_of env dump_risk pydantic raw) as [e|parsed];
    [discriminate|].
  cbn [bind]. destruct (truthy parsed); [|discriminate].
  intros H.
  repeat match type of H with
         | bind _ _ = inr _ =>
             apply bind_inr in H; destruct H as (? & _ & H)
         end.
  exact (new_RiskScore_in_range _ _ _ _ r H).
Qed.

Lemma produced_score_in_range (env : Env) (k : nat)
    (t : InteractionTranscript.t) :
  in_unit_interval (produced_score env k t).
Proof.
  unfold produced_score.
  destruct (score_transcript env k t) as [e|r] eqn:H.
  - split; cbn; discriminate.
  - exact (score_transcript_in_range env k t r H).
Qed.

Lemma produced_scores_in_range (env : Env)
    (l : list InteractionTranscript.t) :
  forall k, Forall in_unit_interval (produced_scores env k l).
Proof.
  induction l as [|t rest IH]; intros k; cbn [produced_scores];
    constructor; [apply produced_score_in_range | apply IH].
Qed.

(** Stage 1 only stores risk scores between 0 and 1: if the scores the
    stage starts with lie in that range, so do all the scores it leaves,
    whatever the crews return (a score outside the range is refused by
    the model and replaced by the default 0.5). *)
Theorem stage1_scores_in_unit_interval :
  forall (env : Env) (initial_state : option QAAuditorState.t)
         (state : QAAuditorState.t),
    Forall in_unit_interval
      (QAAuditorState.risk_scores (seeded initial_state state)) ->
    Forall in_unit_interval
      (QAAuditorState.risk_scores
         (ingest_and_risk_score env initial_state state)).
Proof.
  intros env initial_state state Hs.
  destruct (QAAuditorState.raw_transcripts (seeded initial_state state))
    as [|t rest] eqn:Hin.
  - rewrite (ingest_empty env initial_state state Hin). exact Hs.
  - assert (Hne : QAAuditorState.raw_transcripts
                    (seeded initial_state state) <> []).
    { rewrite Hin. discriminate. }
    rewrite (ingest_nonempty env initial_state state Hne).
    cbn [QAAuditorState.set_risk_scores QAAuditorState.risk_scores].
    apply (Permutation_Forall (Permutation_sym (sort_by_risk_perm _))).
    rewrite risk_loop_scores. apply Forall_app. split; [exact Hs|].
    apply produced_scores_in_range.
Qed.

(** A crew that answers 7.5 for every call, as text. *)
Definition overshooting : Env :=
  mkEnv JsonLite.loads (fun _ => None) (fun _ => "") (fun _ => "library error")
    (fun _ => 0) (nodup string_dec) (fun l => Permutation_refl _)
    (fun _ _ => Returns None ("{" ++ dq ++ "risk_score" ++ dq ++ ": 7.5}"))
    (fun _ _ => Raises "connection refused")
    (Raises "connection refused")
    (fun _ _ => Raises "connection refused")
    "2026-02-01 10:00:00" "2026-02-01 10:00:05"
    (fun _ _ _ _ _ => "") (fun _ _ => "") (fun _ => "").

Lemma stage1_scores_in_unit_interval_witness :
  Forall in_unit_interval
    (QAAuditorState.risk_scores
       (ingest_and_risk_score overshooting (Some three_calls)
          QAAuditorState.default))
  /\ map RiskScore.risk_score
       (QAAuditorState.risk_scores
          (ingest_and_risk_score overshooting (Some three_calls)
             QAAuditorState.default))
     = [1 # 2; 1 # 2; 1 # 2].
Proof.
  split.
  - apply (stage1_scores_in_unit_interval overshooting (Some three_calls)
             QAAuditorState.default).
    constructor.
  - vm_compute. reflexivity.
Defined.

Lemma strs_dump (l : list string) : Field.strs (map VStr l) = Some l.
Proof.
  induction l as [|x rest IH]; cbn [map Field.strs Field.str];
    [reflexivity | now rewrite IH].
Qed.

(** A typed record of the risk crew is taken over as it is. When the
    crew returns a typed record whose score lies between 0 and 1, the
    turn of the loop stores the record's four fields, whatever the raw
    text says, and counts the transcript as processed. *)
Theorem typed_risk_score_is_stored :
  forall (env : Env) (s : QAAuditorState.t) (k : nat)
         (t : InteractionTranscript.t) (o : RiskScoreOutput.t) (raw : string),
    risk_crew env k t = Returns (Some o) raw ->
    0 <= RiskScoreOutput.risk_score o ->
    RiskScoreOutput.risk_score o <= 1 ->
    let s' := risk_step env s k t in
    QAAuditorState.risk_scores s'
    = (QAAuditorState.risk_scores s
       ++ [RiskScore.mk (RiskScoreOutput.interaction_id o)
             (RiskScoreOutput.risk_score o)
             (RiskScoreOutput.risk_factors o)
             (RiskScoreOutput.priority_for_review o)])%list
    /\ QAAuditorState.transcripts_processed s'
       = (QAAuditorState.transcripts_processed s + 1)%Z
    /\ QAAuditorState.transcripts_failed s'
       = QAAuditorState.transcripts_failed s
    /\ QAAuditorState.errors s' = QAAuditorState.errors s.
Proof.
  intros env s k t o raw Hcrew Hlo Hhi s'.
  assert (Hscore :
    score_transcript env k t
    = inr (RiskScore.mk (RiskScoreOutput.interaction_id o)
             (RiskScoreOutput.risk_score o)
             (RiskScoreOutput.risk_factors o)
             (RiskScoreOutput.priority_for_review o))).
  { unfold score_transcript. rewrite Hcrew.
    cbn [parsed_of]. unfold dump_risk.
    cbn [truthy List.length Nat.eqb negb].
    unfold get, bind, new_RiskScore, dump_strs.
    cbn [dict_get_default dict_get String.eqb Ascii.eqb Bool.eqb andb
         to_float Field.str Field.str_list Field.bounded].
    rewrite strs_dump.
    apply Qle_bool_iff in Hlo. apply Qle_bool_iff in Hhi.
    rewrite Hlo, Hhi. reflexivity. }
  subst s'. unfold risk_step. rewrite Hscore. repeat split; reflexivity.
Qed.

Lemma typed_risk_score_is_stored_witness :
  QAAuditorState.risk_scores (risk_step scripted three_calls 1 call_2)
  = [RiskScore.mk "INT-2" (9 # 10) ["escalation_request"] "high"].
Proof.
  refine (proj1 (typed_risk_score_is_stored scripted three_calls 1 call_2
                   _ "" eq_refl _ _)); cbn; discriminate.
Defined.

End RiskScoringProperties.

(* ================================================================== *)
(** * Properties of stage 2: deep QA analysis *)
(* ================================================================== *)

Section DeepQAProperties.

Import Py Flow.
Open Scope string_scope.

Definition has_id (interaction_id : string) (t : InteractionTranscript.t)
  : bool :=
  String.eqb (InteractionTranscript.interaction_id t) interaction_id.

Lemma find_last (A : Type) (p : A -> bool) (l1 l2 : list A) (x : A) :
  p x = true -> (forall y, In y l2 -> p y = false) ->
  find p (rev (l1 ++ x :: l2)) = Some x.
Proof.
  intros Hx Hl2. rewrite rev_app_distr. cbn [rev].
  rewrite <- app_assoc. cbn [app].
  induction (rev l2) as [|y rest IH] eqn:Hrev in Hl2 |- *.
  - cbn. now rewrite Hx.
  - cbn [app find].
    assert (Hy : p y = false).
    { apply Hl2. apply in_rev. rewrite Hrev. now left. }
    rewrite Hy.
    clear IH.
    assert (Hrest : forall z, In z rest -> p z = false).
    { intros z Hz. apply Hl2. apply in_rev. rewrite Hrev. now right. }
    clear Hrev Hy. induction rest as [|z rest IH]; cbn [app find].
    + now rewrite Hx.
    + rewrite (Hrest z (or_introl eq_refl)). apply IH.
      intros w Hw. apply Hrest. now right.
Qed.

(** The lookup of a transcript by id finds a transcript of the list
    with that id, and of several the last one; it finds none exactly when
    no transcript has the id. *)
Theorem transcript_lookup_keeps_last :
  forall (transcripts : list InteractionTranscript.t) (id : string),
    (forall t, transcript_map_get transcripts id = Some t ->
       In t transcripts /\ InteractionTranscript.interaction_id t = id)
    /\ (transcript_map_get transcripts id = None <->
        forall t, In t transcripts ->
          InteractionTranscript.interaction_id t <> id)
    /\ (forall before after t,
          transcripts = (before ++ t :: after)%list ->
          InteractionTranscript.interaction_id t = id ->
          (forall t', In t' after ->
             InteractionTranscript.interaction_id t' <> id) ->
          transcript_map_get transcripts id = Some t).
Proof.
  intros transcripts id. unfold transcript_map_get. split; [|split].
  - intros t H. apply find_some in H. destruct H as [Hin Heq].
    split; [now apply in_rev | now apply String.eqb_eq].
  - split.
    + intros H t Hin Heq.
      assert (Hf := find_none _ _ H t (proj1 (in_rev _ _) Hin)).
      cbn in Hf. apply String.eqb_neq in Hf. contradiction.
    + intros H.
      destruct (find _ (rev transcripts)) as [t|] eqn:Hf; [|reflexivity].
      apply find_some in Hf. destruct Hf as [Hin Heq].
      apply String.eqb_eq in Heq. apply in_rev in Hin.
      now destruct (H t Hin).
  - intros before after t -> Hid Hafter.
    apply (find_last _ (has_id id) before after t).
    + now apply String.eqb_eq.
    + intros y Hy. apply String.eqb_neq. now apply Hafter.
Qed.

(** The four ways a turn of the loop of stage 2 can go. A risk score
    whose id no transcript has adds one error message and no evaluation.
    With a transcript, priority low adds the default pass (85, 75, 80,
    80, overall 80, severity none) without any call to the crew; any
    other priority adds the crew's evaluation when the analysis
    succeeds, and on any exception one error message and the default
    failed evaluation (all scores 50, issue evaluation_failed, severity
    none) under the risk score's id and the transcript's agent. *)
Theorem qa_turn_cases :
  forall (env : Env) (s : QAAuditorState.t) (k : nat) (risk : RiskScore.t),
    let found :=
      transcript_map_get (QAAuditorState.raw_transcripts s)
        (RiskScore.interaction_id risk) in
    let s' := qa_step env s k risk in
    (found = None ->
       QAAuditorState.qa_evaluations s' = QAAuditorState.qa_evaluations s
       /\ QAAuditorState.errors s'
          = (QAAuditorState.errors s
             ++ [("Transcript " ++ RiskScore.interaction_id risk
                  ++ " not found for QA analysis")%string])%list)
    /\ (forall t, found = Some t ->
          RiskScore.priority_for_review risk = "low" ->
          QAAuditorState.qa_evaluations s'
          = (QAAuditorState.qa_evaluations s
             ++ [QAEvaluation.mk (RiskScore.interaction_id risk)
                   (InteractionTranscript.agent_id t) 85 75 80 80 80 []
                   [("Low risk " ++ em_dash
                     ++ " passed automated screening")%string] [] NONE])%list
          /\ QAAuditorState.errors s' = QAAuditorState.errors s)
    /\ (forall t ev, found = Some t ->
          RiskScore.priority_for_review risk <> "low" ->
          analyse_transcript env k t = inr ev ->
          QAAuditorState.qa_evaluations s'
          = (QAAuditorState.qa_evaluations s ++ [ev])%list
          /\ QAAuditorState.errors s' = QAAuditorState.errors s)
    /\ (forall t e, found = Some t ->
          RiskScore.priority_for_review risk <> "low" ->
          analyse_transcript env k t = inl e ->
          QAAuditorState.qa_evaluations s'
          = (QAAuditorState.qa_evaluations s
             ++ [QAEvaluation.mk (RiskScore.interaction_id risk)
                   (InteractionTranscript.agent_id t) 50 50 50 50 50
                   ["evaluation_failed"] []
                   [("Unable to evaluate " ++ em_dash
                     ++ " review manually")%string] NONE])%list
          /\ QAAuditorState.errors s'
             = (QAAuditorState.errors s
                ++ [("Failed QA analysis for "
                     ++ RiskScore.interaction_id risk ++ ": "
                     ++ str_exn env e)%string])%list).
Proof.
  intros env s k risk found s'. subst found s'. unfold qa_step.
  split; [|split; [|split]].
  - intros ->. split; reflexivity.
  - intros t -> Hlow. apply String.eqb_eq in Hlow. rewrite Hlow.
    split; reflexivity.
  - intros t ev -> Hlow Hev. apply String.eqb_neq in Hlow.
    rewrite Hlow, Hev. split; reflexivity.
  - intros t e -> Hlow He. apply String.eqb_neq in Hlow.
    rewrite Hlow, He. split; reflexivity.
Qed.

(** Whether some transcript has the id of the risk score. *)
Definition has_transcript (transcripts : list InteractionTranscript.t)
    (risk : RiskScore.t) : bool :=
  existsb (has_id (RiskScore.interaction_id risk)) transcripts.

Lemma lookup_found (transcripts : list InteractionTranscript.t)
    (risk : RiskScore.t) :
  has_transcript transcripts risk
  = match transcript_map_get transcripts (RiskScore.interaction_id risk) with
    | Some _ => true
    | None => false
    end.
Proof.
  unfold has_transcript, transcript_map_get.
  destruct (find _ (rev transcripts)) as [t|] eqn:Hf.
  - apply find_some in Hf. destruct Hf as [Hin Heq].
    apply existsb_exists. exists t. split; [now apply in_rev | exact Heq].
  - apply not_true_iff_false. intros H. apply existsb_exists in H.
    destruct H as (t & Hin & Heq).
    assert (Hn := find_none _ _ Hf t (proj1 (in_rev _ _) Hin)).
    unfold has_id in Heq. cbn in Hn. congruence.
Qed.

Lemma qa_step_frame (env : Env) (s : QAAuditorState.t) (k : nat)
    (risk : RiskScore.t) :
  QAAuditorState.raw_transcripts (qa_step env s k risk)
  = QAAuditorState.raw_transcripts s
  /\ QAAuditorState.risk_scores (qa_step env s k risk)
     = QAAuditorState.risk_scores s.
Proof.
  unfold qa_step.
  destruct (transcript_map_get _ _); [|split; reflexivity].
  destruct (String.eqb _ _); [split; reflexivity|].
  destruct (analyse_transcript _ _ _); split; reflexivity.
Qed.


Lemma qa_loop_frame (env : Env) (risks : list RiskScore.t) :
  forall k s,
    QAAuditorState.raw_transcripts (qa_loop env k risks s)
    = QAAuditorState.raw_transcripts s
    /\ QAAuditorState.risk_scores (qa_loop env k risks s)
       = QAAuditorState.risk_scores s.
Proof.
  induction risks as [|risk rest IH]; intros k s; cbn [qa_loop].
  - split; reflexivity.
  - destruct (IH (S k) (qa_step env s k risk)) as [H1 H2].
    destruct (qa_step_frame env s k risk) as [H3 H4].
    split; congruence.
Qed.



Lemma deep_qa_evaluations (env : Env) (s : QAAuditorState.t) :
  QAAuditorState.risk_scores s <> [] ->
  QAAuditorState.qa_evaluations (deep_qa_analysis env s)
  = QAAuditorState.qa_evaluations
      (qa_loop env 0 (QAAuditorState.risk_scores s) s)
  /\ QAAuditorState.errors (deep_qa_analysis env s)
     = QAAuditorState.errors (qa_loop env 0 (QAAuditorState.risk_scores s) s)
  /\ QAAuditorState.raw_transcripts (deep_qa_analysis env s)
     = QAAuditorState.raw_transcripts s
  /\ QAAuditorState.risk_scores (deep_qa_analysis env s)
     = QAAuditorState.risk_scores s.
Proof.
  intros Hne. unfold deep_qa_analysis.
  destruct (QAAuditorState.risk_scores s) as [|r rest] eqn:Hr; [congruence|].
  destruct (qa_loop_frame env (r :: rest) 0 s) as [H1 H2].
  set (s' := qa_loop env 0 (r :: rest) s) in *.
  destruct (QAAuditorState.qa_evaluations s') eqn:He;
    cbn [QAAuditorState.set_average_scores QAAuditorState.qa_evaluations
         QAAuditorState.errors QAAuditorState.raw_transcripts
         QAAuditorState.risk_scores];
    repeat split; congruence.
Qed.


(** The five scores of an evaluation lie between 0 and 100. *)
Definition in_percent (q : Q) : Prop := 0 <= q /\ q <= 100.

Definition scores_in_percent (ev : QAEvaluation.t) : Prop :=
  in_percent (QAEvaluation.compliance_score ev)
  /\ in_percent (QAEvaluation.empathy_score ev)
  /\ in_percent (QAEvaluation.resolution_score ev)
  /\ in_percent (QAEvaluation.process_adherence_score ev)
  /\ in_percent (QAEvaluation.overall_score ev).

Lemma new_QAEvaluation_in_range (i a : value) (c e r p o : float_value)
    (ci st im : value) (sev : ComplianceSeverity) (ev : QAEvaluation.t) :
  new_QAEvaluation i a c e r p o ci st im sev = inr ev ->
  scores_in_percent ev.
Proof.
  unfold new_QAEvaluation.
  destruct (Field.str i); [|discriminate].
  destruct (Field.str a); [|discriminate].
  destruct (Field.bounded 0 100 c) as [qc|] eqn:Hc; [|discriminate].
  destruct (Field.bounded 0 100 e) as [qe|] eqn:He; [|discriminate].
  destruct (Field.bounded 0 100 r) as [qr|] eqn:Hr; [|discriminate].
  destruct (Field.bounded 0 100 p) as [qp|] eqn:Hp; [|discriminate].
  destruct (Field.bounded 0 100 o) as [qo|] eqn:Ho; [|discriminate].
  destruct (Field.str_list ci); [|discriminate].
  destruct (Field.str_list st); [|discriminate].
  destruct (Field.str_list im); [|discriminate].
  intros [= <-]. unfold scores_in_percent, in_percent. cbn.
  pose proof (bounded_in_range 0 100 c qc Hc).
  pose proof (bounded_in_range 0 100 e qe He).
  pose proof (bounded_in_range 0 100 r qr Hr).
  pose proof (bounded_in_range 0 100 p qp Hp).
  pose proof (bounded_in_range 0 100 o qo Ho).
  tauto.
Qed.

Lemma analyse_transcript_in_range (env : Env) (k : nat)
    (t : InteractionTranscript.t) (ev : QAEvaluation.t) :
  analyse_transcript env k t = inr ev -> scores_in_percent ev.
Proof.
  unfold analyse_transcript.
  destruct (qa_crew env k t) as [m|pydantic raw]; [discriminate|].
  destruct (parsed_of env dump_qa pydantic raw) as [e|parsed];
    [discriminate|].
  cbn [bind]. destruct (negb (truthy parsed)); [discriminate|].
  intros H.
  repeat match type of H with
         | bind _ _ = inr _ =>
             apply bind_inr in H; destruct H as (? & _ & H)
         end.
  exact (new_QAEvaluation_in_range _ _ _ _ _ _ _ _ _ _ _ ev H).
Qed.

Lemma qa_step_in_range (env : Env) (s : QAAuditorState.t) (k : nat)
    (risk : RiskScore.t) :
  Forall scores_in_percent (QAAuditorState.qa_evaluations s) ->
  Forall scores_in_percent
    (QAAuditorState.qa_evaluations (qa_step env s k risk)).
Proof.
  intros Hs. unfold qa_step.
  destruct (transcript_map_get _ _) as [t|]; [|exact Hs].
  assert (Hpass : scores_in_percent (default_pass risk t)).
  { unfold scores_in_percent, in_percent. cbn. repeat split; discriminate. }
  assert (Hfail : scores_in_percent (default_failed risk t)).
  { unfold scores_in_percent, in_percent. cbn. repeat split; discriminate. }
  destruct (String.eqb _ _).
  - cbn. apply Forall_app. split; [exact Hs|]. constructor; [exact Hpass|].
    constructor.
  - destruct (analyse_transcript env k t) as [e|ev] eqn:Hev; cbn;
      apply Forall_app; (split; [exact Hs|]);
      (constructor; [|constructor]).
    + exact Hfail.
    + exact (analyse_transcript_in_range env k t ev Hev).
Qed.

Lemma qa_loop_in_range (env : Env) (risks : list RiskScore.t) :
  forall k s,
    Forall scores_in_percent (QAAuditorState.qa_evaluations s) ->
    Forall scores_in_percent
      (QAAuditorState.qa_evaluations (qa_loop env k risks s)).
Proof.
  induction risks as [|risk rest IH]; intros k s Hs; cbn [qa_loop].
  - exact Hs.
  - apply IH. now apply qa_step_in_range.
Qed.

(** Stage 2 only stores scores between 0 and 100: if the five scores of
    every evaluation it starts with lie in that range, so do those of
    every evaluation it leaves, whatever the crews return. *)
Theorem stage2_scores_in_percent :
  forall (env : Env) (s : QAAuditorState.t),
    Forall scores_in_percent (QAAuditorState.qa_evaluations s) ->
    Forall scores_in_percent
      (QAAuditorState.qa_evaluations (deep_qa_analysis env s)).
Proof.
  intros env s Hs.
  destruct (QAAuditorState.risk_scores s) as [|r rest] eqn:Hr.
  - unfold deep_qa_analysis. rewrite Hr. exact Hs.
  - assert (Hne : QAAuditorState.risk_scores s <> []) by congruence.
    rewrite (proj1 (deep_qa_evaluations env s Hne)).
    now apply qa_loop_in_range.
Qed.

(** One call scored high, and a QA crew that answers an overall score of
    150 as text. *)
Definition scored_call : QAAuditorState.t :=
  QAAuditorState.mk [call_1] "Support" "February 2026" []
    [RiskScore.mk "INT-1" (9 # 10) ["escalation_request"] "high"]
    [] [] [] false [] [] [] "" "" "" [] "pending" 1%Z 0%Z.

Definition qa_overshooting : Env :=
  mkEnv JsonLite.loads (fun _ => None) (fun _ => "") (fun _ => "library error")
    (fun _ => 0) (nodup string_dec) (fun l => Permutation_refl _)
    (fun _ _ => Raises "connection refused")
    (fun _ _ => Returns None ("{" ++ dq ++ "overall_score" ++ dq ++ ": 150}"))
    (Raises "connection refused")
    (fun _ _ => Raises "connection refused")
    "2026-02-01 10:00:00" "2026-02-01 10:00:05"
    (fun _ _ _ _ _ => "") (fun _ _ => "") (fun _ => "").

Lemma stage2_scores_in_percent_witness :
  Forall scores_in_percent
    (QAAuditorState.qa_evaluations
       (deep_qa_analysis qa_overshooting scored_call))
  /\ map QAEvaluation.overall_score
       (QAAuditorState.qa_evaluations
          (deep_qa_analysis qa_overshooting scored_call))
     = [50].
Proof.
  split.
  - apply (stage2_scores_in_percent qa_overshooting scored_call).
    constructor.
  - vm_compute. reflexivity.
Defined.

(** What stage 2 adds for risk scores of priority low. *)
Definition passes_for (transcripts : list InteractionTranscript.t)
    (risks : list RiskScore.t) : list QAEvaluation.t :=
  flat_map
    (fun risk =>
       match transcript_map_get transcripts (RiskScore.interaction_id risk) with
       | Some t => [default_pass risk t]
       | None => []
       end) risks.

Definition not_found_for (transcripts : list InteractionTranscript.t)
    (risks : list RiskScore.t) : list string :=
  flat_map
    (fun risk =>
       match transcript_map_get transcripts (RiskScore.interaction_id risk) with
       | Some _ => []
       | None =>
           ["Transcript " ++ RiskScore.interaction_id risk
            ++ " not found for QA analysis"]
       end) risks.

Lemma qa_loop_low (env : Env) (risks : list RiskScore.t) :
  forall k s,
    (forall r, In r risks -> RiskScore.priority_for_review r = "low") ->
    QAAuditorState.qa_evaluations (qa_loop env k risks s)
    = (QAAuditorState.qa_evaluations s
       ++ passes_for (QAAuditorState.raw_transcripts s) risks)%list
    /\ QAAuditorState.errors (qa_loop env k risks s)
       = (QAAuditorState.errors s
          ++ not_found_for (QAAuditorState.raw_transcripts s) risks)%list.
Proof.
  induction risks as [|risk rest IH]; intros k s Hlow;
    cbn [qa_loop passes_for not_found_for flat_map].
  - now rewrite !app_nil_r.
  - destruct (IH (S k) (qa_step env s k risk)) as [H1 H2].
    { intros r Hr. apply Hlow. now right. }
    rewrite H1, H2, (proj1 (qa_step_frame env s k risk)).
    unfold qa_step, passes_for, not_found_for.
    rewrite (proj2 (String.eqb_eq _ _) (Hlow risk (or_introl eq_refl))).
    destruct (transcript_map_get _ _); cbn; rewrite <- ?app_assoc;
      split; reflexivity.
Qed.

(** Risk scores of priority low cost no call to the QA crew. When every
    risk score has priority low, stage 2 appends the default pass for
    each one that has a transcript and the not-found message for each
    one that has none, in the order of the risk scores, and the result
    is the same under any two environments. *)
Theorem low_priority_needs_no_crew :
  forall (env env' : Env) (s : QAAuditorState.t),
    QAAuditorState.risk_scores s <> [] ->
    (forall r, In r (QAAuditorState.risk_scores s) ->
       RiskScore.priority_for_review r = "low") ->
    QAAuditorState.qa_evaluations (deep_qa_analysis env s)
    = (QAAuditorState.qa_evaluations s
       ++ passes_for (QAAuditorState.raw_transcripts s)
            (QAAuditorState.risk_scores s))%list
    /\ QAAuditorState.errors (deep_qa_analysis env s)
       = (QAAuditorState.errors s
          ++ not_found_for (QAAuditorState.raw_transcripts s)
               (QAAuditorState.risk_scores s))%list
    /\ QAAuditorState.qa_evaluations (deep_qa_analysis env s)
       = QAAuditorState.qa_evaluations (deep_qa_analysis env' s)
    /\ QAAuditorState.errors (deep_qa_analysis env s)
       = QAAuditorState.errors (deep_qa_analysis env' s).
Proof.
  intros env env' s Hne Hlow.
  destruct (deep_qa_evaluations env s Hne) as (H1 & H2 & _).
  destruct (deep_qa_evaluations env' s Hne) as (H1' & H2' & _).
  destruct (qa_loop_low env (QAAuditorState.risk_scores s) 0 s Hlow)
    as [H3 H4].
  destruct (qa_loop_low env' (QAAuditorState.risk_scores s) 0 s Hlow)
    as [H3' H4'].
  repeat split; congruence.
Qed.

(** Two risk scores of priority low, the second for a call that is not
    among the transcripts. *)
Definition low_risks : QAAuditorState.t :=
  QAAuditorState.mk [call_1] "Support" "February 2026" []
    [RiskScore.mk "INT-1" (2 # 10) [] "low";
     RiskScore.mk "INT-9" (1 # 10) [] "low"]
    [] [] [] false [] [] [] "" "" "" [] "pending" 2%Z 0%Z.

Lemma low_priority_needs_no_crew_witness :
  map QAEvaluation.overall_score
    (QAAuditorState.qa_evaluations (deep_qa_analysis offline low_risks))
  = [80]
  /\ QAAuditorState.errors (deep_qa_analysis offline low_risks)
     = ["Transcript INT-9 not found for QA analysis"].
Proof.
  assert (Hne : QAAuditorState.risk_scores low_risks <> [])
    by discriminate.
  assert (Hlow : forall r, In r (QAAuditorState.risk_scores low_risks) ->
                   RiskScore.priority_for_review r = "low").
  { intros r [<-|[<-|[]]]; reflexivity. }
  destruct (low_priority_needs_no_crew offline scripted low_risks Hne Hlow)
    as (H1 & H2 & _).
  split; [rewrite H1 | rewrite H2]; reflexivity.
Defined.

End DeepQAProperties.

(* ================================================================== *)
(** * Properties of the router and of the escalation report *)
(* ================================================================== *)

Section RouterProperties.

Import Py Flow.
Open Scope string_scope.

Lemma filter_nil_iff {A : Type} (p : A -> bool) (l : list A) :
  filter p l = [] <-> forall x, In x l -> p x = false.
Proof.
  split.
  - intros H x Hx. apply not_true_iff_false. intros Hp.
    assert (Hin : In x (filter p l)) by (apply filter_In; now split).
    rewrite H in Hin. destruct Hin.
  - apply filter_none.
Qed.

Lemma is_critical_iff (e : QAEvaluation.t) :
  is_critical e = true <-> QAEvaluation.compliance_severity e = CRITICAL.
Proof.
  unfold is_critical.
  destruct (QAEvaluation.compliance_severity e); cbn; split;
    congruence.
Qed.

(** The router flags critical evaluations and changes nothing else. It
    answers compliance_escalation exactly when some evaluation has
    severity critical, and standard_analysis otherwise. In the first
    case it sets has_critical_violations and replaces
    critical_violations by one record per critical evaluation, in their
    order, with its interaction id, agent id and issues; in the second
    it leaves the state as it is, so a flag or a list that was set
    before stays. No other field changes. From a state whose two fields
    are at their defaults, the flag is set exactly when a critical
    evaluation exists and the list is as long as the critical
    evaluations are many. *)
Theorem router_flags_critical_evaluations :
  forall s : QAAuditorState.t,
    let s' := fst (route_by_compliance s) in
    let label := snd (route_by_compliance s) in
    let critical := filter is_critical (QAAuditorState.qa_evaluations s) in
    (label = "compliance_escalation" <->
       exists e, In e (QAAuditorState.qa_evaluations s)
                 /\ QAEvaluation.compliance_severity e = CRITICAL)
    /\ (label <> "compliance_escalation" -> label = "standard_analysis")
    /\ (label = "compliance_escalation" ->
        QAAuditorState.has_critical_violations s' = true
        /\ QAAuditorState.critical_violations s'
           = map violation_of critical)
    /\ (label = "standard_analysis" -> s' = s)
    /\ s' = QAAuditorState.set_critical_violations
              (QAAuditorState.critical_violations s')
              (QAAuditorState.set_has_critical_violations
                 (QAAuditorState.has_critical_violations s') s)
    /\ (QAAuditorState.has_critical_violations s = false ->
        QAAuditorState.critical_violations s = [] ->
        (QAAuditorState.has_critical_violations s' = true <->
           exists e, In e (QAAuditorState.qa_evaluations s)
                     /\ QAEvaluation.compliance_severity e = CRITICAL)
        /\ List.length (QAAuditorState.critical_violations s')
           = List.length critical).
Proof.
  intros s s' label critical. subst s' label. unfold route_by_compliance.
  fold critical.
  assert (Hex : critical <> [] <->
                exists e, In e (QAAuditorState.qa_evaluations s)
                          /\ QAEvaluation.compliance_severity e = CRITICAL).
  { split.
    - intros Hne. destruct critical as [|e rest] eqn:Hc; [congruence|].
      exists e.
      assert (Hin : In e critical) by (rewrite Hc; now left).
      apply filter_In in Hin. destruct Hin as [Hin Hcrit].
      split; [exact Hin | now apply is_critical_iff].
    - intros (e & Hin & Hsev) Hnil.
      apply (proj1 (filter_nil_iff _ _)) with (x := e) in Hnil;
        [|exact Hin].
      apply is_critical_iff in Hsev. congruence. }
  destruct critical as [|e rest] eqn:Hc; cbn [fst snd].
  - split; [split; [discriminate | intros H; apply Hex in H; congruence]|].
    split; [reflexivity|]. split; [discriminate|]. split; [reflexivity|].
    split; [destruct s; reflexivity|].
    intros Hflag Hlist. rewrite Hflag, Hlist.
    split; [|reflexivity].
    split; [discriminate | intros H; apply Hex in H; congruence].
  - assert (Hyes : exists e0, In e0 (QAAuditorState.qa_evaluations s)
                     /\ QAEvaluation.compliance_severity e0 = CRITICAL).
    { apply Hex. discriminate. }
    split; [split; [intros _; exact Hyes | reflexivity]|].
    split; [congruence|]. split; [intros _; split; reflexivity|].
    split; [discriminate|]. split; [reflexivity|].
    intros _ _. cbn. split; [split; [intros _; exact Hyes | reflexivity]|].
    now rewrite length_map.
Qed.

End RouterProperties.

(* ================================================================== *)
(** * Properties of stage 5: pattern detection *)
(* ================================================================== *)

Section PatternProperties.

Import Py Flow.
Open Scope string_scope.



Lemma read_agents_frame (parsed : value) (s : QAAuditorState.t) :
  let s' := fst (read_agents parsed s) in
  QAAuditorState.qa_evaluations s' = QAAuditorState.qa_evaluations s
  /\ QAAuditorState.errors s' = QAAuditorState.errors s
  /\ QAAuditorState.campaign_name s' = QAAuditorState.campaign_name s
  /\ QAAuditorState.evaluation_period s' = QAAuditorState.evaluation_period s
  /\ QAAuditorState.critical_violations s'
     = QAAuditorState.critical_violations s
  /\ QAAuditorState.processing_status s'
     = QAAuditorState.processing_status s
  /\ QAAuditorState.raw_transcripts s' = QAAuditorState.raw_transcripts s.
Proof.
  unfold read_agents.
  destruct (contains _ parsed) as [e|[|]]; try (repeat split; reflexivity).
  destruct (getitem parsed _) as [e|agents];
    try (repeat split; reflexivity).
  destruct (items agents); repeat split; reflexivity.
Qed.

Lemma pattern_body_frame (env : Env) (s : QAAuditorState.t) :
  let s' := fst (pattern_body env s) in
  QAAuditorState.qa_evaluations s' = QAAuditorState.qa_evaluations s
  /\ QAAuditorState.errors s' = QAAuditorState.errors s
  /\ QAAuditorState.campaign_name s' = QAAuditorState.campaign_name s
  /\ QAAuditorState.evaluation_period s' = QAAuditorState.evaluation_period s
  /\ QAAuditorState.critical_violations s'
     = QAAuditorState.critical_violations s
  /\ QAAuditorState.processing_status s'
     = QAAuditorState.processing_status s
  /\ QAAuditorState.raw_transcripts s' = QAAuditorState.raw_transcripts s.
Proof.
  unfold pattern_body.
  destruct (pattern_crew env) as [m|pydantic raw];
    [repeat split; reflexivity|].
  destruct (parsed_of env dump_patterns pydantic raw) as [e|parsed];
    [repeat split; reflexivity|].
  destruct (truthy parsed); [|repeat split; reflexivity].
  destruct (read_insights parsed s) as [e|insights];
    [repeat split; reflexivity|].
  exact (read_agents_frame _ (QAAuditorState.set_pattern_insights insights s)).
Qed.

Lemma detect_patterns_frame (env : Env) (s : QAAuditorState.t) :
  let s' := detect_patterns env s in
  QAAuditorState.qa_evaluations s' = QAAuditorState.qa_evaluations s
  /\ QAAuditorState.campaign_name s' = QAAuditorState.campaign_name s
  /\ QAAuditorState.evaluation_period s' = QAAuditorState.evaluation_period s
  /\ QAAuditorState.critical_violations s'
     = QAAuditorState.critical_violations s
  /\ QAAuditorState.processing_status s'
     = QAAuditorState.processing_status s
  /\ QAAuditorState.raw_transcripts s' = QAAuditorState.raw_transcripts s.
Proof.
  unfold detect_patterns.
  destruct (QAAuditorState.qa_evaluations s) eqn:He;
    [cbn; rewrite He; repeat split; reflexivity|].
  rewrite <- He.
  destruct (pattern_body_frame env s) as (H1 & H2 & H3 & H4 & H5 & H6 & H7).
  destruct (pattern_body env s) as [s' [e|]]; cbn in *;
    repeat split; assumption.
Qed.



Lemma list_of_set_In (env : Env) (l : list string) (a : string) :
  In a (list_of_set env l) <-> In a l.
Proof.
  split; intros H.
  - apply (nodup_In string_dec).
    exact (Permutation_in a (list_of_set_spec env l) H).
  - apply (Permutation_in a (Permutation_sym (list_of_set_spec env l))).
    now apply nodup_In.
Qed.

Lemma list_of_set_NoDup (env : Env) (l : list string) :
  NoDup (list_of_set env l).
Proof.
  apply (Permutation_NoDup (Permutation_sym (list_of_set_spec env l))).
  apply NoDup_nodup.
Qed.

Lemma NoDup_VStr (l : list string) : NoDup l -> NoDup (map VStr l).
Proof.
  induction 1 as [|x rest Hx Hrest IH]; cbn [map]; constructor.
  - intros Hin. apply in_map_iff in Hin. destruct Hin as (y & [= ->] & Hy).
    contradiction.
  - exact IH.
Qed.

Lemma needs_coaching_iff (ev : QAEvaluation.t) :
  needs_coaching ev = true <->
  (QAEvaluation.overall_score ev < 70
   \/ QAEvaluation.compliance_severity ev = CRITICAL
   \/ QAEvaluation.compliance_severity ev = MAJOR).
Proof.
  unfold needs_coaching. rewrite !orb_true_iff, negb_true_iff.
  split.
  - intros [[Hlt|Hc]|Hm].
    + left. apply Qnot_le_lt. intros H. apply Qle_bool_iff in H. congruence.
    + right. left. destruct (QAEvaluation.compliance_severity ev);
        cbn in Hc; congruence.
    + right. right. destruct (QAEvaluation.compliance_severity ev);
        cbn in Hm; congruence.
  - intros [Hlt|[Hc|Hm]].
    + left. left. apply not_true_iff_false. intros H.
      apply Qle_bool_iff in H. exact (Qlt_not_le _ _ Hlt H).
    + left. right. now rewrite Hc.
    + right. now rewrite Hm.
Qed.

(** When the pattern analysis raises, the fallback decides who is
    coached. The analysis raises when the crew call does, and also when
    the answer is refused on the way into the state. Then the stage
    appends one error message with the exception's text and replaces
    agents_needing_coaching: the new list holds, once each and as
    strings, exactly the agent ids that have an evaluation with an
    overall score below 70 or with severity critical or major; the
    evaluations stay as they were. *)
Theorem pattern_failure_falls_back :
  forall (env : Env) (s s1 : QAAuditorState.t) (e : exn),
    QAAuditorState.qa_evaluations s <> [] ->
    pattern_body env s = (s1, Some e) ->
    let s' := detect_patterns env s in
    QAAuditorState.errors s'
    = (QAAuditorState.errors s
       ++ [("Pattern analysis failed: " ++ str_exn env e)%string])%list
    /\ (forall v, In v (QAAuditorState.agents_needing_coaching s') <->
          exists ev, In ev (QAAuditorState.qa_evaluations s)
                     /\ v = VStr (QAEvaluation.agent_id ev)
                     /\ (QAEvaluation.overall_score ev < 70
                         \/ QAEvaluation.compliance_severity ev = CRITICAL
                         \/ QAEvaluation.compliance_severity ev = MAJOR))
    /\ NoDup (QAAuditorState.agents_needing_coaching s')
    /\ QAAuditorState.qa_evaluations s' = QAAuditorState.qa_evaluations s.
Proof.
  intros env s s1 e Hne Hbody s'. subst s'.
  destruct (pattern_body_frame env s) as (H1 & H2 & _).
  unfold detect_patterns.
  destruct (QAAuditorState.qa_evaluations s) as [|ev0 rest] eqn:He;
    [congruence|].
  rewrite Hbody in *. cbn [fst] in H1, H2.
  cbn [append_error QAAuditorState.set_agents_needing_coaching
       QAAuditorState.set_errors QAAuditorState.errors
       QAAuditorState.agents_needing_coaching QAAuditorState.qa_evaluations].
  rewrite H1, H2.
  split; [reflexivity|]. split; [|split; [|reflexivity]].
  - intros v. unfold fallback_agents. rewrite in_map_iff. split.
    + intros (a & <- & Ha). apply list_of_set_In in Ha.
      apply in_map_iff in Ha. destruct Ha as (ev & <- & Hev).
      apply filter_In in Hev. destruct Hev as [Hin Hneed].
      exists ev. split; [exact Hin|]. split; [reflexivity|].
      now apply needs_coaching_iff.
    + intros (ev & Hin & -> & Hneed).
      exists (QAEvaluation.agent_id ev). split; [reflexivity|].
      apply list_of_set_In. apply in_map. apply filter_In.
      split; [exact Hin | now apply needs_coaching_iff].
  - unfold fallback_agents. apply NoDup_VStr, list_of_set_NoDup.
Qed.

(** Evaluations of three calls: one weak, one with a major issue, one
    fine; the first two are of the same agent. *)
Definition evaluated_calls : QAAuditorState.t :=
  QAAuditorState.mk [call_1; call_2; call_3] "Support" "February 2026" []
    [] [ QAEvaluation.mk "INT-1" "A-1" 60 60 60 60 60 [] [] [] NONE;
         QAEvaluation.mk "INT-3" "A-1" 90 90 90 90 90 ["late disclosure"]
           [] [] MAJOR;
         QAEvaluation.mk "INT-2" "A-2" 90 90 90 90 90 [] [] [] NONE ]
    [] [] false [] [] [] "" "" "" [] "pending" 3%Z 0%Z.

Lemma pattern_failure_falls_back_witness :
  QAAuditorState.errors (detect_patterns offline evaluated_calls)
  = ["Pattern analysis failed: connection refused"]
  /\ QAAuditorState.agents_needing_coaching
       (detect_patterns offline evaluated_calls)
     = [VStr "A-1"].
Proof.
  split.
  - refine (proj1 (pattern_failure_falls_back offline evaluated_calls
                     evaluated_calls (Raised "connection refused") _ eq_refl)).
    discriminate.
  - vm_compute. reflexivity.
Defined.

(** An answer that parses to nothing passes without a trace. When the
    pattern crew returns no typed record and a text that parses to
    nothing, the stage changes nothing: no insight, no agent to coach,
    no error message, and no fallback. *)
Theorem unparsable_patterns_leave_no_trace :
  forall (env : Env) (s : QAAuditorState.t) (raw : string) (v : value),
    QAAuditorState.qa_evaluations s <> [] ->
    pattern_crew env = Returns None raw ->
    Parser._parse_json_safe (json_loads env) raw = Parser.Returned v ->
    truthy v = false ->
    detect_patterns env s = s.
Proof.
  intros env s raw v Hne Hcrew Hparse Hv. unfold detect_patterns.
  destruct (QAAuditorState.qa_evaluations s); [congruence|].
  unfold pattern_body. rewrite Hcrew. cbn [parsed_of]. rewrite Hparse, Hv.
  reflexivity.
Qed.

Definition rambling : Env :=
  mkEnv JsonLite.loads (fun _ => None) (fun _ => "") (fun _ => "library error")
    (fun _ => 0) (nodup string_dec) (fun l => Permutation_refl _)
    (fun _ _ => Raises "connection refused")
    (fun _ _ => Raises "connection refused")
    (Returns None "I could not find any pattern.")
    (fun _ _ => Raises "connection refused")
    "2026-02-01 10:00:00" "2026-02-01 10:00:05"
    (fun _ _ _ _ _ => "") (fun _ _ => "") (fun _ => "").

Lemma unparsable_patterns_leave_no_trace_witness :
  detect_patterns rambling evaluated_calls = evaluated_calls.
Proof.
  refine (unparsable_patterns_leave_no_trace rambling evaluated_calls
            "I could not find any pattern." VNone _ eq_refl _ eq_refl).
  - discriminate.
  - vm_compute. reflexivity.
Defined.

Lemma insight_round_trip (p : PatternInsight.t) :
  new_PatternInsight (dump_insight p) = inr p.
Proof.
  destruct p as [pt de aa fr ev ra]. unfold new_PatternInsight, dump_insight.
  cbn [PatternInsight.pattern_type PatternInsight.description
       PatternInsight.affected_agents PatternInsight.frequency
       PatternInsight.evidence_interaction_ids
       PatternInsight.recommended_action
       dict_get dict_get_default String.eqb Ascii.eqb Bool.eqb andb
       Field.str Field.str_list].
  unfold dump_strs. cbn [Field.str_list]. rewrite !strs_dump. reflexivity.
Qed.

Lemma insights_round_trip (l : list PatternInsight.t) :
  new_PatternInsights (map dump_insight l) = inr l.
Proof.
  induction l as [|p rest IH]; cbn [map new_PatternInsights];
    [reflexivity|].
  rewrite insight_round_trip. cbn [bind]. rewrite IH. reflexivity.
Qed.

(** A typed record of the pattern crew is stored as it is: its insights
    become pattern_insights (dumping a record to a dict and building the
    insight again gives the same insight), its agent ids become
    agents_needing_coaching, nothing else changes and no error is
    recorded. *)
Theorem typed_patterns_are_stored :
  forall (env : Env) (s : QAAuditorState.t) (o : PatternInsightsOutput.t)
         (raw : string),
    QAAuditorState.qa_evaluations s <> [] ->
    pattern_crew env = Returns (Some o) raw ->
    detect_patterns env s
    = QAAuditorState.set_agents_needing_coaching
        (map VStr (PatternInsightsOutput.agents_needing_coaching o))
        (QAAuditorState.set_pattern_insights
           (PatternInsightsOutput.insights o) s).
Proof.
  intros env s o raw Hne Hcrew. unfold detect_patterns.
  destruct (QAAuditorState.qa_evaluations s); [congruence|].
  unfold pattern_body. rewrite Hcrew. cbn [parsed_of]. unfold dump_patterns.
  cbn [truthy List.length Nat.eqb negb].
  unfold read_insights.
  cbn [contains getitem bind dict_get String.eqb Ascii.eqb Bool.eqb andb
       items].
  rewrite insights_round_trip.
  unfold read_agents, dump_strs.
  cbn [contains getitem bind dict_get String.eqb Ascii.eqb Bool.eqb andb
       items].
  reflexivity.
Qed.

Definition typed_patterns : Env :=
  mkEnv JsonLite.loads (fun _ => None) (fun _ => "") (fun _ => "library error")
    (fun _ => 0) (nodup string_dec) (fun l => Permutation_refl _)
    (fun _ _ => Raises "connection refused")
    (fun _ _ => Raises "connection refused")
    (Returns
       (Some (PatternInsightsOutput.mk
                [PatternInsight.mk "training_gap" "Late disclosure" ["A-1"]
                   "2 of 3" ["INT-3"] "Refresher on the opening script"]
                ["A-1"]))
       "")
    (fun _ _ => Raises "connection refused")
    "2026-02-01 10:00:00" "2026-02-01 10:00:05"
    (fun _ _ _ _ _ => "") (fun _ _ => "") (fun _ => "").

Lemma typed_patterns_are_stored_witness :
  QAAuditorState.agents_needing_coaching
    (detect_patterns typed_patterns evaluated_calls)
  = [VStr "A-1"]
  /\ map PatternInsight.pattern_type
       (QAAuditorState.pattern_insights
          (detect_patterns typed_patterns evaluated_calls))
     = ["training_gap"].
Proof.
  rewrite (typed_patterns_are_stored typed_patterns evaluated_calls _ ""
             ltac:(discriminate) eq_refl).
  split; reflexivity.
Defined.

End PatternProperties.

(* ================================================================== *)
(** * Properties of stage 6: coaching plans *)
(* ================================================================== *)

Section CoachingProperties.

Import Py Flow.
Open Scope string_scope.

(** The plans and the error messages of a state, counted together. *)
Definition plans_and_errors (s : QAAuditorState.t) : nat :=
  (List.length (QAAuditorState.coaching_plans s)
   + List.length (QAAuditorState.errors s))%nat.

Lemma coaching_step_count (env : Env) (s : QAAuditorState.t) (k : nat)
    (agent_id : value) :
  plans_and_errors (coaching_step env s k agent_id)
  = S (plans_and_errors s).
Proof.
  unfold coaching_step, plans_and_errors.
  destruct (plan_agent _ _ _ _); cbn; rewrite List.length_app; cbn; lia.
Qed.

Lemma coaching_step_frame (env : Env) (s : QAAuditorState.t) (k : nat)
    (agent_id : value) :
  let s' := coaching_step env s k agent_id in
  QAAuditorState.processing_status s' = QAAuditorState.processing_status s
  /\ QAAuditorState.raw_transcripts s' = QAAuditorState.raw_transcripts s
  /\ QAAuditorState.agents_needing_coaching s'
     = QAAuditorState.agents_needing_coaching s.
Proof.
  unfold coaching_step.
  destruct (plan_agent _ _ _ _); repeat split; reflexivity.
Qed.

Lemma coaching_loop_frame (env : Env) (agents : list value) :
  forall k s,
    let s' := fst (coaching_loop env k agents s) in
    QAAuditorState.processing_status s' = QAAuditorState.processing_status s
    /\ QAAuditorState.raw_transcripts s' = QAAuditorState.raw_transcripts s
    /\ QAAuditorState.agents_needing_coaching s'
       = QAAuditorState.agents_needing_coaching s.
Proof.
  induction agents as [|a rest IH]; intros k s; cbn [coaching_loop].
  - repeat split; reflexivity.
  - destruct (hashable a); [|repeat split; reflexivity].
    destruct (IH (S k) (coaching_step env s k a)) as (H1 & H2 & H3).
    destruct (coaching_step_frame env s k a) as (H4 & H5 & H6).
    cbn zeta. repeat split; congruence.
Qed.

Lemma coaching_loop_hashable (env : Env) (agents : list value) :
  forall k s,
    forallb hashable agents = true ->
    snd (coaching_loop env k agents s) = None
    /\ plans_and_errors (fst (coaching_loop env k agents s))
       = (plans_and_errors s + List.length agents)%nat.
Proof.
  induction agents as [|a rest IH]; intros k s Hall;
    cbn [coaching_loop List.length].
  - split; [reflexivity | cbn; lia].
  - cbn [forallb] in Hall. apply andb_true_iff in Hall.
    destruct Hall as [Ha Hrest]. rewrite Ha.
    destruct (IH (S k) (coaching_step env s k a) Hrest) as [H1 H2].
    split; [exact H1|]. rewrite H2, coaching_step_count. lia.
Qed.

Lemma coaching_loop_abort (env : Env) (before : list value) (a : value)
    (after : list value) :
  forall k s,
    forallb hashable before = true ->
    hashable a = false ->
    snd (coaching_loop env k (before ++ a :: after) s) = Some (TypeError a)
    /\ plans_and_errors (fst (coaching_loop env k (before ++ a :: after) s))
       = (plans_and_errors s + List.length before)%nat.
Proof.
  induction before as [|b rest IH]; intros k s Hall Ha;
    cbn [app coaching_loop List.length].
  - rewrite Ha. split; [reflexivity | cbn; lia].
  - cbn [forallb] in Hall. apply andb_true_iff in Hall.
    destruct Hall as [Hb Hrest]. rewrite Hb.
    destruct (IH (S k) (coaching_step env s k b) Hrest Ha) as [H1 H2].
    split; [exact H1|]. rewrite H2, coaching_step_count. lia.
Qed.

Lemma generate_completes (env : Env) (s : QAAuditorState.t) :
  forallb hashable (QAAuditorState.agents_needing_coaching s) = true ->
  snd (generate_coaching_plans env s) = None
  /\ plans_and_errors (fst (generate_coaching_plans env s))
     = (plans_and_errors s
        + List.length (QAAuditorState.agents_needing_coaching s))%nat.
Proof.
  intros Hall. unfold generate_coaching_plans.
  destruct (QAAuditorState.agents_needing_coaching s) as [|a rest] eqn:Ha.
  - cbn. split; [reflexivity | lia].
  - exact (coaching_loop_hashable env (a :: rest) 0 s Hall).
Qed.

(** Stage 6 accounts for every agent it is given. When every entry of
    agents_needing_coaching can be a dict key (a string, a number, a
    truth value or None), the stage ends without an exception, and for
    each entry it has added either one coaching plan or one error
    message; the entries themselves stay. *)
Theorem coaching_accounts_for_every_agent :
  forall (env : Env) (s : QAAuditorState.t),
    forallb hashable (QAAuditorState.agents_needing_coaching s) = true ->
    let s' := fst (generate_coaching_plans env s) in
    snd (generate_coaching_plans env s) = None
    /\ plans_and_errors s'
       = (plans_and_errors s
          + List.length (QAAuditorState.agents_needing_coaching s))%nat
    /\ QAAuditorState.agents_needing_coaching s'
       = QAAuditorState.agents_needing_coaching s.
Proof.
  intros env s Hall s'. subst s'.
  destruct (generate_completes env s Hall) as [H1 H2].
  split; [exact H1|]. split; [exact H2|].
  unfold generate_coaching_plans.
  destruct (QAAuditorState.agents_needing_coaching s) as [|a rest] eqn:Ha.
  - exact Ha.
  - destruct (coaching_loop_frame env (a :: rest) 0 s) as (_ & _ & H3).
    cbn zeta in H3. congruence.
Qed.

(** The fallback of stage 5 named one agent; the coaching crew is out of
    reach. *)
Lemma coaching_accounts_for_every_agent_witness :
  QAAuditorState.errors
    (fst (generate_coaching_plans offline
            (detect_patterns offline evaluated_calls)))
  = ["Pattern analysis failed: connection refused";
     "Failed coaching plan for A-1: connection refused"]
  /\ snd (generate_coaching_plans offline
            (detect_patterns offline evaluated_calls))
     = None.
Proof.
  split.
  - vm_compute. reflexivity.
  - refine (proj1 (coaching_accounts_for_every_agent offline
                     (detect_patterns offline evaluated_calls) _)).
    vm_compute. reflexivity.
Defined.

(** An agent id that cannot be a dict key ends stage 6. The stage looks
    the agent's name up outside its [try]: at the first entry of
    agents_needing_coaching that is a list or a dict the stage raises a
    TypeError, after it has dealt with the entries before that one (a
    plan or an error message each) and before it looks at the ones after
    it. *)
Theorem unhashable_agent_ends_coaching :
  forall (env : Env) (s : QAAuditorState.t) (before : list value)
         (a : value) (after : list value),
    QAAuditorState.agents_needing_coaching s = (before ++ a :: after)%list ->
    forallb hashable before = true ->
    hashable a = false ->
    snd (generate_coaching_plans env s) = Some (TypeError a)
    /\ plans_and_errors (fst (generate_coaching_plans env s))
       = (plans_and_errors s + List.length before)%nat.
Proof.
  intros env s before a after Hagents Hall Ha.
  unfold generate_coaching_plans. rewrite Hagents.
  destruct (before ++ a :: after)%list eqn:Hl.
  - destruct before; discriminate.
  - rewrite <- Hl. exact (coaching_loop_abort env before a after 0 s Hall Ha).
Qed.

(** Two agents to coach, the second given as a list. *)
Definition nested_agent : QAAuditorState.t :=
  QAAuditorState.set_agents_needing_coaching
    [VStr "A-2"; VList [VStr "A-1"]; VStr "A-1"] evaluated_calls.

Lemma unhashable_agent_ends_coaching_witness :
  snd (generate_coaching_plans offline nested_agent)
  = Some (TypeError (VList [VStr "A-1"]))
  /\ QAAuditorState.errors (fst (generate_coaching_plans offline nested_agent))
     = ["Failed coaching plan for A-2: connection refused"].
Proof.
  split.
  - exact (proj1 (unhashable_agent_ends_coaching offline nested_agent
                    [VStr "A-2"] (VList [VStr "A-1"]) [VStr "A-1"]
                    eq_refl eq_refl eq_refl)).
  - vm_compute. reflexivity.
Defined.

End CoachingProperties.

(* ================================================================== *)
(** * Properties of a whole run *)
(* ================================================================== *)

Section RunProperties.

Import Py Flow.
Open Scope string_scope.

Lemma qa_loop_status (env : Env) (risks : list RiskScore.t) :
  forall k s,
    QAAuditorState.processing_status (qa_loop env k risks s)
    = QAAuditorState.processing_status s.
Proof.
  induction risks as [|risk rest IH]; intros k s; cbn [qa_loop];
    [reflexivity|].
  rewrite IH. unfold qa_step.
  destruct (transcript_map_get _ _); [|reflexivity].
  destruct (String.eqb _ _); [reflexivity|].
  destruct (analyse_transcript _ _ _); reflexivity.
Qed.

Lemma deep_qa_status (env : Env) (s : QAAuditorState.t) :
  QAAuditorState.processing_status (deep_qa_analysis env s)
  = QAAuditorState.processing_status s.
Proof.
  unfold deep_qa_analysis.
  destruct (QAAuditorState.risk_scores s) as [|r rest]; [reflexivity|].
  set (L := qa_loop env 0 (r :: rest) s).
  assert (HL : QAAuditorState.processing_status L
               = QAAuditorState.processing_status s)
    by apply qa_loop_status.
  destruct (QAAuditorState.qa_evaluations L); exact HL.
Qed.

Lemma route_status (s : QAAuditorState.t) :
  QAAuditorState.processing_status (fst (route_by_compliance s))
  = QAAuditorState.processing_status s.
Proof.
  unfold route_by_compliance.
  destruct (filter is_critical _); reflexivity.
Qed.

Lemma risk_loop_status (env : Env) (l : list InteractionTranscript.t) :
  forall k s,
    QAAuditorState.processing_status (risk_loop env k l s)
    = QAAuditorState.processing_status s.
Proof.
  induction l as [|t rest IH]; intros k s; cbn [risk_loop]; [reflexivity|].
  rewrite IH. unfold risk_step.
  destruct (score_transcript _ _ _); reflexivity.
Qed.

Lemma ingest_status (env : Env) (initial_state : option QAAuditorState.t)
    (state : QAAuditorState.t) :
  QAAuditorState.processing_status
    (ingest_and_risk_score env initial_state state)
  = match QAAuditorState.raw_transcripts (seeded initial_state state) with
    | [] => "failed_no_input"
    | _ :: _ =>
        QAAuditorState.processing_status (seeded initial_state state)
    end.
Proof.
  destruct (QAAuditorState.raw_transcripts (seeded initial_state state))
    as [|t rest] eqn:Hin.
  - rewrite (ingest_empty env initial_state state Hin). reflexivity.
  - assert (Hne : QAAuditorState.raw_transcripts
                    (seeded initial_state state) <> []).
    { rewrite Hin. discriminate. }
    rewrite (ingest_nonempty env initial_state state Hne).
    cbn [QAAuditorState.set_risk_scores QAAuditorState.processing_status].
    apply risk_loop_status.
Qed.

Lemma coaching_loop_exception (env : Env) (agents : list value) :
  forall k s e,
    snd (coaching_loop env k agents s) = Some e ->
    exists a, In a agents /\ hashable a = false /\ e = TypeError a.
Proof.
  induction agents as [|a rest IH]; intros k s e; cbn [coaching_loop].
  - discriminate.
  - destruct (hashable a) eqn:Ha.
    + intros H. destruct (IH _ _ _ H) as (b & Hin & Hb & He).
      exists b. split; [now right | now split].
    + cbn. intros [= <-]. exists a. split; [now left | now split].
Qed.

(** The state in which a run reaches stage 6. *)
Definition before_coaching (env : Env)
    (initial_state : option QAAuditorState.t) (state : QAAuditorState.t)
  : QAAuditorState.t :=
  let s2 := deep_qa_analysis env (ingest_and_risk_score env initial_state state) in
  let s3 := fst (route_by_compliance s2) in
  let s4 :=
    if String.eqb (snd (route_by_compliance s2)) "compliance_escalation"
    then handle_compliance_escalation env (escalation_clock env) s3
    else s3 in
  detect_patterns env s4.

Lemma kickoff_stages (env : Env) (initial_state : option QAAuditorState.t)
    (state : QAAuditorState.t) :
  kickoff env initial_state state
  = match generate_coaching_plans env
            (before_coaching env initial_state state) with
    | (s6, None) => Completed (compile_final_report env (report_clock env) s6)
    | (s6, Some e) => Aborted s6 e
    end.
Proof.
  unfold kickoff, before_coaching.
  destruct (route_by_compliance _) as [s3 label]. reflexivity.
Qed.

Lemma before_coaching_status (env : Env)
    (initial_state : option QAAuditorState.t) (state : QAAuditorState.t) :
  QAAuditorState.processing_status (before_coaching env initial_state state)
  = QAAuditorState.processing_status
      (ingest_and_risk_score env initial_state state).
Proof.
  unfold before_coaching. cbn zeta.
  rewrite (proj1 (proj2 (proj2 (proj2 (proj2
             (detect_patterns_frame env _)))))).
  destruct (String.eqb _ _);
    [unfold handle_compliance_escalation;
     cbn [QAAuditorState.set_compliance_escalation_report
          QAAuditorState.processing_status]|];
    now rewrite route_status, deep_qa_status.
Qed.

(** How a run ends. A run that gets through stage 6 ends with
    processing_status complete, whatever errors were recorded. A run
    ends early only in stage 6, with the TypeError of an agent id that is
    a list or a dict; then the report is never compiled and
    processing_status is what stage 1 left: failed_no_input when there
    was no transcript, else the status the run started with. The run
    gets through whenever every agent id of stage 5 can be a dict key. *)
Theorem run_ends_complete_or_in_coaching :
  forall (env : Env) (initial_state : option QAAuditorState.t)
         (state : QAAuditorState.t),
    (forall s', kickoff env initial_state state = Completed s' ->
       QAAuditorState.processing_status s' = "complete")
    /\ (forall s' e, kickoff env initial_state state = Aborted s' e ->
          (exists a,
             In a (QAAuditorState.agents_needing_coaching
                     (before_coaching env initial_state state))
             /\ hashable a = false /\ e = TypeError a)
          /\ QAAuditorState.processing_status s'
             = match QAAuditorState.raw_transcripts
                       (seeded initial_state state) with
               | [] => "failed_no_input"
               | _ :: _ =>
                   QAAuditorState.processing_status
                     (seeded initial_state state)
               end)
    /\ (forallb hashable
          (QAAuditorState.agents_needing_coaching
             (before_coaching env initial_state state)) = true ->
        exists s', kickoff env initial_state state = Completed s').
Proof.
  intros env initial_state state. rewrite kickoff_stages.
  set (s5 := before_coaching env initial_state state).
  split; [|split].
  - intros s'. destruct (generate_coaching_plans env s5) as [s6 [e|]];
      [discriminate|].
    intros [= <-]. reflexivity.
  - intros s' e.
    destruct (generate_coaching_plans env s5) as [s6 [e'|]] eqn:Hgen;
      [|discriminate].
    intros [= <- <-].
    unfold generate_coaching_plans in Hgen.
    destruct (QAAuditorState.agents_needing_coaching s5) as [|a rest] eqn:Ha;
      [discriminate|].
    split.
    + apply (coaching_loop_exception env (a :: rest) 0 s5 e').
      now rewrite Hgen.
    + pose proof (proj1 (coaching_loop_frame env (a :: rest) 0 s5)) as Hst.
      rewrite Hgen in Hst. cbn [fst] in Hst. rewrite Hst.
      unfold s5. rewrite before_coaching_status. apply ingest_status.
  - intros Hall.
    destruct (generate_completes env s5 Hall) as [Hnone _].
    destruct (generate_coaching_plans env s5) as [s6 [e|]]; cbn in Hnone;
      [discriminate|].
    now eexists.
Qed.

(** Crews out of reach but for the pattern crew, which names the agent
    to coach inside a list of its own: [{"agents_needing_coaching":
    [["A-1"]]}]. *)
Definition nesting : Env :=
  mkEnv JsonLite.loads (fun _ => None) (fun _ => "") (fun _ => "library error")
    (fun _ => 0) (nodup string_dec) (fun l => Permutation_refl _)
    (fun _ _ => Raises "connection refused")
    (fun _ _ => Raises "connection refused")
    (Returns None
       ("{" ++ dq ++ "agents_needing_coaching" ++ dq ++ ": [["
        ++ dq ++ "A-1" ++ dq ++ "]]}"))
    (fun _ _ => Raises "connection refused")
    "2026-02-01 10:00:00" "2026-02-01 10:00:05"
    (fun _ _ _ _ _ => "") (fun _ _ => "") (fun _ => "").

(** With that answer the run of three calls ends in stage 6, and its
    status is still pending. *)
Lemma run_ends_complete_or_in_coaching_witness :
  QAAuditorState.processing_status
    (state_of (kickoff nesting (Some three_calls) QAAuditorState.default))
  = "pending"
  /\ exists s',
       kickoff nesting (Some three_calls) QAAuditorState.default
       = Aborted s' (TypeError (VList [VStr "A-1"])).
Proof.
  assert (Hk : exists s',
             kickoff nesting (Some three_calls) QAAuditorState.default
             = Aborted s' (TypeError (VList [VStr "A-1"]))).
  { eexists. vm_compute. reflexivity. }
  destruct Hk as [s' Hk]. split; [|now exists s'].
  destruct (proj1 (proj2 (run_ends_complete_or_in_coaching nesting
                            (Some three_calls) QAAuditorState.default))
              s' _ Hk) as [_ Hst].
  rewrite Hk. cbn [state_of]. rewrite Hst. reflexivity.
Defined.

(** A run without transcripts still ends complete. From a start with no
    transcript, no score, no evaluation and no agent to coach, no crew
    is called and every stage runs: the run ends with processing_status
    complete (stage 7 overwrites the failed_no_input of stage 1), and
    with exactly three more error messages, one each from stages 1, 2
    and 5; it leaves no score, no evaluation and no new coaching plan. *)
Theorem run_without_transcripts_ends_complete :
  forall (env : Env) (initial_state : option QAAuditorState.t)
         (state : QAAuditorState.t),
    let s := seeded initial_state state in
    QAAuditorState.raw_transcripts s = [] ->
    QAAuditorState.risk_scores s = [] ->
    QAAuditorState.qa_evaluations s = [] ->
    QAAuditorState.agents_needing_coaching s = [] ->
    exists s',
      kickoff env initial_state state = Completed s'
      /\ QAAuditorState.processing_status s' = "complete"
      /\ QAAuditorState.errors s'
         = (QAAuditorState.errors s
            ++ ["No transcripts provided for analysis";
                "No risk scores available for QA analysis";
                "No QA evaluations available for pattern analysis"])%list
      /\ QAAuditorState.risk_scores s' = []
      /\ QAAuditorState.qa_evaluations s' = []
      /\ QAAuditorState.coaching_plans s' = QAAuditorState.coaching_plans s
      /\ QAAuditorState.has_critical_violations s'
         = QAAuditorState.has_critical_violations s.
Proof.
  intros env initial_state state s Hin Hrisk Heval Hagents.
  unfold kickoff. rewrite (ingest_empty env initial_state state Hin).
  fold s. destruct s as [rt cn ep cr rs qe pi av hc cv an cp ce es dr er ps tp tf].
  cbn in Hin, Hrisk, Heval, Hagents. subst rt rs qe an.
  cbn. eexists. split; [reflexivity|].
  cbn. rewrite <- !app_assoc. repeat split; reflexivity.
Qed.

Lemma run_without_transcripts_ends_complete_witness :
  exists s',
    kickoff offline None QAAuditorState.default = Completed s'
    /\ QAAuditorState.processing_status s' = "complete"
    /\ QAAuditorState.errors s'
       = ["No transcripts provided for analysis";
          "No risk scores available for QA analysis";
          "No QA evaluations available for pattern analysis"].
Proof.
  destruct (run_without_transcripts_ends_complete offline None
              QAAuditorState.default eq_refl eq_refl eq_refl eq_refl)
    as (s' & H1 & H2 & H3 & _).
  exists s'. split; [exact H1|]. split; [exact H2 | exact H3].
Defined.

End RunProperties.

(* ================================================================== *)
(** * More properties of the result parser *)
(* ================================================================== *)

Section ParserStrategies.

Import PyStr Regex Parser.
Open Scope string_scope.

(** The character [c] does not occur in [s]. *)
Fixpoint lacks (c : ascii) (s : string) : bool :=
  match s with
  | String c' s' => negb (Ascii.eqb c c') && lacks c s'
  | EmptyString => true
  end.

Definition open_brace : ascii := "{"%char.

Definition close_brace : ascii := "}"%char.

(** The third pattern behind its opening brace: the closing brace and
    the end of the group. *)
Definition closing (opened : string) (s : string) : option string :=
  match_here [Lit "}"; GroupClose] s opened "".

Lemma fence_needs_backtick (pattern : list item) (l raw : string) :
  no_backtick raw = true ->
  search (Lit (String "`" l) :: pattern) raw = None.
Proof.
  induction raw as [|c raw IH]; intros H.
  - reflexivity.
  - cbn [no_backtick] in H. apply andb_true_iff in H. destruct H as [Hc H].
    apply negb_true_iff in Hc.
    cbn [search match_here starts_with]. rewrite Hc. cbn [andb].
    now apply IH.
Qed.

Lemma braces_need_open (raw : string) :
  lacks open_brace raw = true ->
  search (nth 2 patterns []) raw = None.
Proof.
  cbn [nth patterns].
  induction raw as [|c raw IH]; intros H.
  - reflexivity.
  - cbn [lacks] in H. apply andb_true_iff in H. destruct H as [Hc H].
    apply negb_true_iff in Hc.
    cbn [search match_here starts_with].
    change (Ascii.eqb "{" c) with (Ascii.eqb open_brace c). rewrite Hc.
    cbn [andb]. now apply IH.
Qed.

Lemma closing_needs_brace (opened s : string) :
  lacks close_brace s = true -> greedy_any (closing opened) s = None.
Proof.
  induction s as [|c s IH]; intros H.
  - reflexivity.
  - cbn [lacks] in H. apply andb_true_iff in H. destruct H as [Hc H].
    apply negb_true_iff in Hc.
    cbn [greedy_any]. rewrite (IH H).
    unfold closing. cbn [match_here starts_with].
    change (Ascii.eqb "}" c) with (Ascii.eqb close_brace c). rewrite Hc.
    reflexivity.
Qed.

Lemma braces_need_close (raw : string) :
  lacks close_brace raw = true ->
  search (nth 2 patterns []) raw = None.
Proof.
  cbn [nth patterns].
  assert (Hhere : forall s opened,
            lacks close_brace s = true ->
            match_here [Lit "{"; AnyGreedy; Lit "}"; GroupClose] s opened ""
            = None).
  { intros s opened Hs. cbn [match_here].
    destruct (starts_with "{" s) eqn:Hst; [|reflexivity].
    destruct s as [|c s]; [discriminate|].
    cbn [String.length drop].
    cbn [lacks] in Hs. apply andb_true_iff in Hs.
    exact (closing_needs_brace opened s (proj2 Hs)). }
  induction raw as [|c raw IH]; intros H.
  - reflexivity.
  - cbn [search]. change (match_here
             [GroupOpen; Lit "{"; AnyGreedy; Lit "}"; GroupClose]
             (String c raw) (String c raw) "")
      with (match_here [Lit "{"; AnyGreedy; Lit "}"; GroupClose]
              (String c raw) (String c raw) "").
    rewrite (Hhere _ _ H).
    cbn [lacks] in H. apply andb_true_iff in H. now apply IH.
Qed.

(** Text without fences and without a pair of braces parses to nothing.
    When the text holds no backtick and lacks an opening or a closing
    brace, none of the three patterns matches: the parser returns what
    the whole text decodes to, returns [None] when decoding it fails
    with [JSONDecodeError], and lets any other exception of the decoder
    pass, whatever the decoder does on other texts. *)
Theorem plain_text_parses_to_none :
  forall (loads : string -> decoded) (raw : string),
    no_backtick raw = true ->
    lacks open_brace raw = true \/ lacks close_brace raw = true ->
    _parse_json_safe loads raw
    = match loads raw with
      | Decoded v => Returned v
      | JSONDecodeError => Returned VNone
      | OtherError message => Threw message
      end.
Proof.
  intros loads raw Htick Hbrace.
  unfold _parse_json_safe. destruct (loads raw); try reflexivity.
  unfold patterns. cbn [try_patterns].
  change json_fence with (String "`" "``json").
  change fence with (String "`" "``").
  rewrite !(fence_needs_backtick _ _ raw Htick).
  assert (H3 : search (nth 2 patterns []) raw = None).
  { destruct Hbrace; [now apply braces_need_open | now apply braces_need_close]. }
  cbn [nth patterns] in H3. rewrite H3. reflexivity.
Qed.

Lemma plain_text_parses_to_none_witness :
  _parse_json_safe JsonLite.loads "I could not score this call."
  = Returned VNone.
Proof.
  refine (eq_trans
            (plain_text_parses_to_none JsonLite.loads
               "I could not score this call." _ _) _).
  - vm_compute. reflexivity.
  - left. vm_compute. reflexivity.
  - vm_compute. reflexivity.
Defined.

Lemma closing_at_last_brace (opened mid post : string) :
  lacks close_brace post = true ->
  greedy_any (closing opened) (mid ++ "}" ++ post)
  = Some (take (String.length opened - String.length post) opened).
Proof.
  intros Hpost.
  assert (Hlast : greedy_any (closing opened) ("}" ++ post)
                  = Some (take (String.length opened - String.length post)
                               opened)).
  { change ("}" ++ post) with (String "}" post). cbn [greedy_any].
    rewrite (closing_needs_brace opened post Hpost).
    unfold closing. cbn [match_here starts_with String.length drop].
    rewrite Ascii.eqb_refl. destruct post; reflexivity. }
  induction mid as [|c mid IH].
  - exact Hlast.
  - change (String c mid ++ "}" ++ post)
      with (String c (mid ++ "}" ++ post)).
    cbn [greedy_any]. now rewrite IH.
Qed.

Lemma braces_found (pre mid post : string) :
  lacks open_brace pre = true ->
  lacks close_brace post = true ->
  search (nth 2 patterns []) (pre ++ "{" ++ mid ++ "}" ++ post)
  = Some ("{" ++ mid ++ "}").
Proof.
  intros Hpre Hpost. cbn [nth patterns].
  induction pre as [|c pre IH].
  - apply search_here.
    change ("" ++ "{" ++ mid ++ "}" ++ post)
      with (String "{" (mid ++ "}" ++ post)).
    cbn [match_here starts_with String.length drop].
    rewrite Ascii.eqb_refl. cbn [andb].
    transitivity
      (Some (take (String.length (String "{" (mid ++ "}" ++ post))
                   - String.length post)
                  (String "{" (mid ++ "}" ++ post)))).
    + exact (closing_at_last_brace (String "{" (mid ++ "}" ++ post))
               mid post Hpost).
    + f_equal.
      change (String "{" (mid ++ "}" ++ post))
        with ("{" ++ (mid ++ "}" ++ post)).
      replace ("{" ++ mid ++ "}" ++ post) with (("{" ++ mid ++ "}") ++ post).
      * apply take_app.
      * cbn [append]. f_equal. induction mid as [|d mid IHm];
          [reflexivity | cbn [append]; now rewrite IHm].
  - cbn [lacks] in Hpre. apply andb_true_iff in Hpre.
    destruct Hpre as [Hc Hpre]. apply negb_true_iff in Hc.
    change (String c pre ++ "{" ++ mid ++ "}" ++ post)
      with (String c (pre ++ "{" ++ mid ++ "}" ++ post)).
    cbn [search match_here starts_with].
    change (Ascii.eqb "{" c) with (Ascii.eqb open_brace c). rewrite Hc.
    cbn [andb]. now apply IH.
Qed.

(** The last strategy takes the text from the first opening brace to the
    last closing brace. In a text whose decoding as a whole fails with
    [JSONDecodeError] and that holds no backtick, with [pre] before its
    first opening brace and [post] behind its last closing brace, the
    parser decodes exactly the stretch between the two, braces
    included: it returns what the stretch decodes to, returns [None]
    when decoding it fails with [JSONDecodeError] (so two objects in one
    text are not found), and lets any other exception of the decoder
    pass. *)
Theorem braces_span_first_to_last :
  forall (loads : string -> decoded) (pre mid post : string),
    let raw := pre ++ "{" ++ mid ++ "}" ++ post in
    loads raw = JSONDecodeError ->
    no_backtick raw = true ->
    lacks open_brace pre = true ->
    lacks close_brace post = true ->
    _parse_json_safe loads raw
    = match loads ("{" ++ mid ++ "}") with
      | Decoded v => Returned v
      | JSONDecodeError => Returned VNone
      | OtherError message => Threw message
      end.
Proof.
  intros loads pre mid post raw Hraw Htick Hpre Hpost.
  unfold _parse_json_safe. rewrite Hraw. unfold patterns.
  cbn [try_patterns].
  change json_fence with (String "`" "``json").
  change fence with (String "`" "``").
  rewrite !(fence_needs_backtick _ _ raw Htick).
  pose proof (braces_found pre mid post Hpre Hpost) as H3.
  cbn [nth patterns] in H3. fold raw in H3. rewrite H3.
  destruct (loads ("{" ++ mid ++ "}")); reflexivity.
Qed.

(** The longest run of decimal digits in [s]. *)
Fixpoint digit_run (s : string) (run best : nat) : nat :=
  match s with
  | EmptyString => Nat.max run best
  | String c s' =>
      if (48 <=? nat_of_ascii c)%nat && (nat_of_ascii c <=? 57)%nat
      then digit_run s' (S run) best
      else digit_run s' 0 (Nat.max run best)
  end.

(** A decoder for the example: on a text that opens with a brace and
    holds a run of more than 4300 digits it raises the [ValueError] of
    the integer conversion, which is not a [JSONDecodeError]; on any
    other text it is the decoder of the examples. *)
Definition digit_limited (s : string) : decoded :=
  if starts_with "{" s && (4300 <? digit_run s 0 0)%nat
  then OtherError
         "Exceeds the limit (4300 digits) for integer string conversion"
  else JsonLite.loads s.

(** [n] times the character [c]. *)
Fixpoint repeated (c : ascii) (n : nat) : string :=
  match n with
  | O => ""
  | S n' => String c (repeated c n')
  end.

(** One object in prose is found; two objects in one text are not; and
    an exception of the decoder on the stretch between the braces
    leaves the parser. *)
Lemma braces_span_first_to_last_witness :
  _parse_json_safe JsonLite.loads
    ("Result: {" ++ dq ++ "risk_score" ++ dq ++ ": 0.5} (final)")
  = Returned (VDict [("risk_score", VFloat (1 # 2))])
  /\ _parse_json_safe JsonLite.loads
       ("First {" ++ dq ++ "a" ++ dq ++ ": 1} then {" ++ dq ++ "b" ++ dq
        ++ ": 2} done")
     = Returned VNone
  /\ _parse_json_safe digit_limited
       ("Result: {" ++ dq ++ "n" ++ dq ++ ": " ++ repeated "7" 4301
        ++ "} (final)")
     = Threw "Exceeds the limit (4300 digits) for integer string conversion".
Proof.
  split; [|split].
  - refine (eq_trans
              (braces_span_first_to_last JsonLite.loads "Result: "
                 (dq ++ "risk_score" ++ dq ++ ": 0.5") " (final)" _ _ _ _) _);
      vm_compute; reflexivity.
  - refine (eq_trans
              (braces_span_first_to_last JsonLite.loads "First "
                 (dq ++ "a" ++ dq ++ ": 1} then {" ++ dq ++ "b" ++ dq ++ ": 2")
                 " done" _ _ _ _) _);
      vm_compute; reflexivity.
  - refine (eq_trans
              (braces_span_first_to_last digit_limited "Result: "
                 (dq ++ "n" ++ dq ++ ": " ++ repeated "7" 4301) " (final)"
                 _ _ _ _) _);
      vm_compute; reflexivity.
Defined.

End ParserStrategies.

(* ================================================================== *)
(** * More properties of the red-flag scanner *)
(* ================================================================== *)

Section ScannerPriority.

Import PyStr RedFlagScanner.
Open Scope string_scope.

(** The unrounded score of [n] flags whose largest weight is [w]. *)
Definition score_of (w : float) (n : nat) : float :=
  py_min 1.0 (w + PyFloat.of_Z (Z.of_nat n - 1) * 0.05)%float.

(** [priority] as [_run] reads it off the unrounded score. *)
Definition priority_of (x : float) : string :=
  if (0.7 <=? x)%float then "high"
  else if (0.4 <=? x)%float then "medium"
  else "low".

Lemma critical_score (n : nat) :
  (1 <= n <= 46)%nat -> score_of 1.0 n = 1.0%float.
Proof.
  intros H.
  do 47 (destruct n as [|n]; [try lia; vm_compute; reflexivity|]).
  lia.
Qed.

Lemma high_score (n : nat) :
  (1 <= n <= 46)%nat -> priority_of (score_of 0.7 n) = "high".
Proof.
  intros H.
  do 47 (destruct n as [|n]; [try lia; vm_compute; reflexivity|]).
  lia.
Qed.

Lemma medium_score (n : nat) :
  (1 <= n <= 46)%nat ->
  priority_of (score_of 0.4 n) = if (n <=? 6)%nat then "medium" else "high".
Proof.
  intros H.
  do 47 (destruct n as [|n]; [try lia; vm_compute; reflexivity|]).
  lia.
Qed.

Lemma run_priority (text channel : string) :
  compute_flags text channel <> [] ->
  priority (_run text channel)
  = priority_of
      (score_of (max_severity_weight (compute_flags text channel))
         (List.length (compute_flags text channel)))
  /\ risk_score (_run text channel)
     = PyFloat.round
         (score_of (max_severity_weight (compute_flags text channel))
            (List.length (compute_flags text channel))) 2.
Proof.
  intros Hne. unfold _run, priority_of, score_of.
  cbn [priority risk_score]. unfold raw_risk_score.
  pose proof (compute_flags_known text channel) as Hk.
  destruct (compute_flags text channel) as [|f fl]; [congruence|].
  cbn [map]. rewrite (max_of_flags _ _ Hk). split; reflexivity.
Qed.

(** The priority follows the worst flag, and the number of flags. No
    flag gives score 0.1 and priority low; any flag gives medium or
    high, never low. A critical flag gives score 1.0 and priority high;
    without one, a flag of severity high gives priority high. Flags of
    severity medium alone give priority medium up to six of them and
    priority high from seven on. In particular a voice or chat
    transcript without a recording disclosure always has score 1.0 and
    priority high. *)
Theorem scanner_priority_follows_severity :
  forall text channel : string,
    let r := _run text channel in
    (flags r = [] -> risk_score r = 0.1%float /\ priority r = "low")
    /\ (flags r <> [] -> priority r = "medium" \/ priority r = "high")
    /\ (has_severity "critical" (flags r) = true ->
        risk_score r = 1.0%float /\ priority r = "high")
    /\ (has_severity "critical" (flags r) = false ->
        has_severity "high" (flags r) = true ->
        priority r = "high")
    /\ (flags r <> [] ->
        has_severity "critical" (flags r) = false ->
        has_severity "high" (flags r) = false ->
        priority r = if (flags_found r <=? 6)%nat then "medium" else "high")
    /\ (String.eqb channel "voice" || String.eqb channel "chat" = true ->
        any_in disclosure_phrases (lower text) = false ->
        risk_score r = 1.0%float /\ priority r = "high").
Proof.
  intros text channel r. subst r.
  change (flags (_run text channel)) with (compute_flags text channel).
  change (flags_found (_run text channel))
    with (List.length (compute_flags text channel)).
  pose proof (compute_flags_length text channel) as Hlen.
  assert (Hpos : compute_flags text channel <> [] ->
                 (1 <= List.length (compute_flags text channel) <= 46)%nat).
  { intros Hne. split; [|exact Hlen].
    destruct (compute_flags text channel); [congruence | cbn; lia]. }
  assert (Hcrit : has_severity "critical" (compute_flags text channel) = true ->
                  risk_score (_run text channel) = 1.0%float
                  /\ priority (_run text channel) = "high").
  { intros Hc.
    assert (Hne : compute_flags text channel <> []).
    { intros E. rewrite E in Hc. discriminate. }
    destruct (run_priority text channel Hne) as [Hp Hs].
    rewrite Hp, Hs. unfold max_severity_weight. rewrite Hc.
    rewrite (critical_score _ (Hpos Hne)). split; vm_compute; reflexivity. }
  split; [|split; [|split; [|split; [|split]]]].
  - intros E. unfold _run. rewrite E. split; vm_compute; reflexivity.
  - intros Hne. destruct (run_priority text channel Hne) as [Hp _].
    rewrite Hp. unfold max_severity_weight.
    destruct (has_severity "critical" _).
    + right. rewrite (critical_score _ (Hpos Hne)). vm_compute. reflexivity.
    + destruct (has_severity "high" _).
      * right. exact (high_score _ (Hpos Hne)).
      * rewrite (medium_score _ (Hpos Hne)).
        destruct (_ <=? 6)%nat; [now left | now right].
  - exact Hcrit.
  - intros Hc Hh.
    assert (Hne : compute_flags text channel <> []).
    { intros E. rewrite E in Hh. discriminate. }
    destruct (run_priority text channel Hne) as [Hp _].
    rewrite Hp. unfold max_severity_weight. rewrite Hc, Hh.
    exact (high_score _ (Hpos Hne)).
  - intros Hne Hc Hh.
    destruct (run_priority text channel Hne) as [Hp _].
    rewrite Hp. unfold max_severity_weight. rewrite Hc, Hh.
    exact (medium_score _ (Hpos Hne)).
  - intros Hch Hd. apply Hcrit.
    unfold compute_flags, has_severity. rewrite Hd, Hch.
    cbn [negb andb]. rewrite !existsb_app. cbn [existsb].
    cbn [severity missing_disclosure_flag String.eqb Ascii.eqb Bool.eqb andb].
    rewrite orb_true_r. reflexivity.
Qed.

(** Seven remarks about holding and transfers, on a channel that needs
    no disclosure: seven medium flags, priority high. *)
Definition seven_medium : string :=
  "I have been on hold, a long hold, holding for an hour. I waited for "
  ++ "you, was transferred again to a third person and got bounced around.".

Lemma scanner_priority_follows_severity_witness :
  flags_found (_run seven_medium "email") = 7%nat
  /\ priority (_run seven_medium "email") = "high"
  /\ priority (_run "I have been on hold." "email") = "medium".
Proof.
  split; [vm_compute; reflexivity|]. split.
  - refine (eq_trans
              (proj1 (proj2 (proj2 (proj2 (proj2
                 (scanner_priority_follows_severity seven_medium "email")))))
                 _ _ _) _);
      vm_compute; try reflexivity; discriminate.
  - refine (eq_trans
              (proj1 (proj2 (proj2 (proj2 (proj2
                 (scanner_priority_follows_severity "I have been on hold."
                    "email"))))) _ _ _) _);
      vm_compute; try reflexivity; discriminate.
Defined.

End ScannerPriority.

(* ================================================================== *)
(** * More properties of the compliance matcher and of letter case *)
(* ================================================================== *)

Section MatcherReport.

Import PyStr ComplianceMatcher.
Open Scope string_scope.

(** The entries of [results] that passed. *)
Definition passing (rs : list check_result) : list check_result :=
  filter (fun r => String.eqb (status r) "PASS") rs.

Lemma must_contain_results (low : string) (l : list (string * list string)) :
  forall t,
    List.length (results (fold_left (check_must_contain low) l t))
    = (List.length (results t) + List.length l)%nat
    /\ List.length (passing (results (fold_left (check_must_contain low) l t)))
       = (List.length (passing (results t))
          + List.length (filter (passes_must_contain low) l))%nat.
Proof.
  induction l as [|[name ph] l IH]; intros t.
  - cbn. split; lia.
  - cbn [fold_left filter].
    destruct (IH (check_must_contain low t (name, ph))) as [H1 H2].
    rewrite H1, H2.
    change (passes_must_contain low (name, ph)) with (any_in ph low).
    unfold check_must_contain, passing. cbn [results].
    rewrite filter_app, !List.length_app. cbn [filter status].
    destruct (any_in ph low); cbn; split; lia.
Qed.

Lemma must_not_contain_results (low : string)
    (l : list (string * list string)) :
  forall t,
    List.length (results (fold_left (check_must_not_contain low) l t))
    = (List.length (results t) + List.length l)%nat
    /\ List.length
         (passing (results (fold_left (check_must_not_contain low) l t)))
       = (List.length (passing (results t))
          + List.length (filter (passes_must_not_contain low) l))%nat.
Proof.
  induction l as [|[name ph] l IH]; intros t.
  - cbn. split; lia.
  - cbn [fold_left filter].
    destruct (IH (check_must_not_contain low t (name, ph))) as [H1 H2].
    rewrite H1, H2.
    change (passes_must_not_contain low (name, ph))
      with (negb (any_in ph low)).
    unfold check_must_not_contain, passing. cbn [results].
    rewrite filter_app, !List.length_app. cbn [filter status].
    rewrite no_match_iff_none.
    destruct (any_in ph low); cbn; split; lia.
Qed.

Lemma run_checks_results (reqs : requirement_set) (key text : string) :
  List.length (report_results (run_checks reqs key text)) = count_checks reqs
  /\ List.length (passing (report_results (run_checks reqs key text)))
     = count_passing (lower text) reqs.
Proof.
  unfold run_checks, count_checks, count_passing. cbn [report_results].
  destruct (must_contain_results (lower text) (must_contain reqs)
              (Tally [] 0 0)) as [H1 H2].
  destruct (must_not_contain_results (lower text) (must_not_contain reqs)
              (fold_left (check_must_contain (lower text)) (must_contain reqs)
                 (Tally [] 0 0))) as [H3 H4].
  rewrite H3, H4, H1, H2. cbn. split; reflexivity.
Qed.

(** The report of the matcher adds up. For every transcript and every
    name of a requirement set there are four checks and four entries in
    results; passed counts the entries with status PASS, failed is the
    rest, and the compliance rate is exactly 100 x passed / 4, one of 0,
    25, 50, 75 and 100. *)
Theorem compliance_report_adds_up :
  forall text key : string,
    let r := _run text key in
    total_checks r = 4%nat
    /\ List.length (report_results r) = 4%nat
    /\ passed_checks r = List.length (passing (report_results r))
    /\ (passed_checks r + failed_checks r = total_checks r)%nat
    /\ (PyFloat.to_Q (compliance_rate r) == percentage (passed_checks r) 4)%Q.
Proof.
  intros text key r. subst r. unfold _run.
  set (reqs := dict_get_default REQUIREMENT_SETS key general).
  destruct (run_checks_counts reqs key text) as (Ht & Hp & Hr).
  destruct (run_checks_results reqs key text) as [Hl Hpass].
  pose proof (shipped_sets_have_four_checks key) as H4. fold reqs in H4.
  pose proof (count_passing_le (lower text) reqs) as Hle.
  assert (Hf : failed_checks (run_checks reqs key text)
               = (total_checks (run_checks reqs key text)
                  - passed_checks (run_checks reqs key text))%nat)
    by reflexivity.
  rewrite Hr, Hf, Ht, Hp, Hl, Hpass, H4 in *.
  split; [reflexivity|]. split; [reflexivity|]. split; [reflexivity|].
  split; [lia|].
  exact (proj2 (rate_of_four_exact _ Hle)).
Qed.

(** A name that is no requirement set is checked as general, under its
    own name. For a name other than general, pci_dss, collections and
    sales, the report has the counts, the rate and the results of the
    set general, and requirement_set repeats the name that was given. *)
Theorem unknown_requirement_set_checks_general :
  forall text key : string,
    key <> "general" -> key <> "pci_dss" -> key <> "collections" ->
    key <> "sales" ->
    let r := _run text key in
    let g := _run text "general" in
    requirement_set_used r = key
    /\ total_checks r = total_checks g
    /\ passed_checks r = passed_checks g
    /\ failed_checks r = failed_checks g
    /\ compliance_rate r = compliance_rate g
    /\ report_results r = report_results g.
Proof.
  intros text key H1 H2 H3 H4 r g. subst r g. unfold _run.
  assert (Hreqs : dict_get_default REQUIREMENT_SETS key general = general).
  { unfold dict_get_default, REQUIREMENT_SETS. cbn [dict_get].
    rewrite (proj2 (String.eqb_neq _ _) (not_eq_sym H1)).
    rewrite (proj2 (String.eqb_neq _ _) (not_eq_sym H2)).
    rewrite (proj2 (String.eqb_neq _ _) (not_eq_sym H3)).
    rewrite (proj2 (String.eqb_neq _ _) (not_eq_sym H4)).
    reflexivity. }
  rewrite Hreqs.
  change (dict_get_default REQUIREMENT_SETS "general" general) with general.
  repeat split; reflexivity.
Qed.

Lemma unknown_requirement_set_checks_general_witness :
  requirement_set_used (_run "This call is recorded." "hipaa") = "hipaa"
  /\ compliance_rate (_run "This call is recorded." "hipaa") = 75%float.
Proof.
  pose proof (unknown_requirement_set_checks_general
                "This call is recorded." "hipaa"
                ltac:(discriminate) ltac:(discriminate)
                ltac:(discriminate) ltac:(discriminate)) as H.
  cbv zeta in H. destruct H as (H1 & _ & _ & _ & H5 & _).
  split; [exact H1 | rewrite H5; vm_compute; reflexivity].
Defined.

End MatcherReport.

Section LetterCase.

Import PyStr.
Open Scope string_scope.

Lemma lower_char_idempotent (c : ascii) :
  lower_char (lower_char c) = lower_char c.
Proof. destruct c as [[] [] [] [] [] [] [] []]; vm_compute; reflexivity. Qed.

Lemma lower_idempotent (s : string) : lower (lower s) = lower s.
Proof.
  induction s as [|c s IH]; cbn [lower]; [reflexivity|].
  now rewrite lower_char_idempotent, IH.
Qed.

(** The two text tools do not see letter case. Two transcripts that are
    equal once lowered get the same compliance report and the same
    red-flag scan, whatever the requirement set and the channel; so a
    transcript and its lowered form do. (Only the transcript is
    lowered: the name of the requirement set and the channel are
    compared as they are.) *)
Theorem text_tools_ignore_letter_case :
  forall text text' key channel : string,
    lower text = lower text' ->
    ComplianceMatcher._run text key = ComplianceMatcher._run text' key
    /\ RedFlagScanner._run text channel = RedFlagScanner._run text' channel
    /\ ComplianceMatcher._run (lower text) key = ComplianceMatcher._run text key
    /\ RedFlagScanner._run (lower text) channel
       = RedFlagScanner._run text channel.
Proof.
  intros text text' key channel H.
  unfold ComplianceMatcher._run, ComplianceMatcher.run_checks,
    RedFlagScanner._run, RedFlagScanner.compute_flags.
  rewrite lower_idempotent, H. repeat split; reflexivity.
Qed.

Lemma text_tools_ignore_letter_case_witness :
  ComplianceMatcher._run "THIS CALL IS RECORDED." "general"
  = ComplianceMatcher._run "This call is recorded." "general"
  /\ RedFlagScanner._run "I WANT TO SPEAK TO A MANAGER" "voice"
     = RedFlagScanner._run "i want to speak to a manager" "voice".
Proof.
  split.
  - exact (proj1 (text_tools_ignore_letter_case "THIS CALL IS RECORDED."
                    "This call is recorded." "general" "voice" eq_refl)).
  - exact (proj1 (proj2 (text_tools_ignore_letter_case
                           "I WANT TO SPEAK TO A MANAGER"
                           "i want to speak to a manager" "general" "voice"
                           eq_refl))).
Defined.

End LetterCase.

(* ================================================================== *)
(** * More properties of the scorecard calculator *)
(* ================================================================== *)

Section ScorecardProfiles.

Import Scorecard.
Open Scope string_scope.

(** A name that is no weight profile is weighted as standard, under its
    own name. For a name other than standard, compliance_heavy and
    cx_focused the card has the overall score, the band and the
    breakdown of the profile standard, and weight_profile_used repeats
    the name that was given. *)
Theorem unknown_profile_is_weighted_as_standard :
  forall (c e r p : float) (profile : string),
    profile <> "standard" -> profile <> "compliance_heavy" ->
    profile <> "cx_focused" ->
    let card := _run c e r p profile in
    let std := _run c e r p "standard" in
    weight_profile_used card = profile
    /\ overall_score card = overall_score std
    /\ performance_band card = performance_band std
    /\ breakdown card = breakdown std.
Proof.
  intros c e r p profile H1 H2 H3 card std. subst card std. unfold _run.
  assert (Hw : dict_get_default WEIGHT_PROFILES profile standard_weights
               = standard_weights).
  { unfold dict_get_default, WEIGHT_PROFILES. cbn [dict_get].
    rewrite (proj2 (String.eqb_neq _ _) (not_eq_sym H1)).
    rewrite (proj2 (String.eqb_neq _ _) (not_eq_sym H2)).
    rewrite (proj2 (String.eqb_neq _ _) (not_eq_sym H3)).
    reflexivity. }
  rewrite Hw.
  change (dict_get_default WEIGHT_PROFILES "standard" standard_weights)
    with standard_weights.
  repeat split; reflexivity.
Qed.

Lemma unknown_profile_is_weighted_as_standard_witness :
  weight_profile_used (_run 90 80 70 60 "sales_heavy") = "sales_heavy"
  /\ overall_score (_run 90 80 70 60 "sales_heavy") = 76.5%float.
Proof.
  pose proof (unknown_profile_is_weighted_as_standard 90 80 70 60
                "sales_heavy" ltac:(discriminate) ltac:(discriminate)
                ltac:(discriminate)) as H.
  cbv zeta in H. destruct H as (H1 & H2 & _).
  split; [exact H1 | rewrite H2; vm_compute; reflexivity].
Defined.

(** The score [n] as a float. *)
Definition whole (n : nat) : float := PyFloat.of_Z (Z.of_nat n).

Lemma uniform_standard (n : nat) :
  (n <= 100)%nat ->
  overall_score (_run (whole n) (whole n) (whole n) (whole n) "standard")
  = whole n.
Proof.
  intros H.
  do 101 (destruct n as [|n]; [vm_compute; reflexivity|]). lia.
Qed.

Lemma uniform_compliance_heavy (n : nat) :
  (n <= 100)%nat ->
  overall_score
    (_run (whole n) (whole n) (whole n) (whole n) "compliance_heavy")
  = whole n.
Proof.
  intros H.
  do 101 (destruct n as [|n]; [vm_compute; reflexivity|]). lia.
Qed.

Lemma uniform_cx_focused (n : nat) :
  (n <= 100)%nat ->
  overall_score (_run (whole n) (whole n) (whole n) (whole n) "cx_focused")
  = whole n.
Proof.
  intros H.
  do 101 (destruct n as [|n]; [vm_compute; reflexivity|]). lia.
Qed.

(** Weighting keeps a uniform score. When the four dimensions have the
    same whole score between 0 and 100, the overall score is that score
    under every weight profile (known or not): the weights of a profile
    add up to one, and rounding the four parts and their sum to two
    decimals does not move the result. *)
Theorem uniform_scores_keep_their_value :
  forall (n : nat) (profile : string),
    (n <= 100)%nat ->
    overall_score (_run (whole n) (whole n) (whole n) (whole n) profile)
    = whole n.
Proof.
  intros n profile H.
  destruct (String.eqb profile "standard") eqn:E1;
    [apply String.eqb_eq in E1; subst; now apply uniform_standard|].
  destruct (String.eqb profile "compliance_heavy") eqn:E2;
    [apply String.eqb_eq in E2; subst; now apply uniform_compliance_heavy|].
  destruct (String.eqb profile "cx_focused") eqn:E3;
    [apply String.eqb_eq in E3; subst; now apply uniform_cx_focused|].
  apply String.eqb_neq in E1, E2, E3.
  transitivity
    (overall_score (_run (whole n) (whole n) (whole n) (whole n) "standard")).
  - unfold _run.
    assert (Hw : dict_get_default WEIGHT_PROFILES profile standard_weights
                 = standard_weights).
    { unfold dict_get_default, WEIGHT_PROFILES. cbn [dict_get].
      rewrite (proj2 (String.eqb_neq _ _) (not_eq_sym E1)).
      rewrite (proj2 (String.eqb_neq _ _) (not_eq_sym E2)).
      rewrite (proj2 (String.eqb_neq _ _) (not_eq_sym E3)).
      reflexivity. }
    rewrite Hw. reflexivity.
  - now apply uniform_standard.
Qed.

Lemma uniform_scores_keep_their_value_witness :
  overall_score (_run 83 83 83 83 "cx_focused") = 83%float.
Proof.
  exact (uniform_scores_keep_their_value 83 "cx_focused" ltac:(lia)).
Defined.

End ScorecardProfiles.

(* ================================================================== *)
(** * Answers of the pattern crew that are no list of agent ids *)
(* ================================================================== *)

Section UnvalidatedAgents.

Import Py Flow.
Open Scope string_scope.

Lemma chars_length (a : string) :
  List.length (chars a) = String.length a.
Proof. induction a as [|c a IH]; cbn; [reflexivity | now rewrite IH]. Qed.

Lemma chars_hashable (a : string) : forallb hashable (chars a) = true.
Proof. induction a as [|c a IH]; cbn; [reflexivity | exact IH]. Qed.

(** An answer that names the agents as one string is taken apart. The
    value under agents_needing_coaching is stored as it comes: when the
    pattern crew answers with a text that parses to a dict without
    insights whose agents_needing_coaching is a string, stage 5 records
    no error and keeps the insights, and the agents to coach are the
    characters of that string, one agent per character; stage 6 then
    deals with each character as an agent id (a plan or an error message
    each). *)
Theorem string_of_agents_is_taken_apart :
  forall (env : Env) (s : QAAuditorState.t) (raw : string)
         (d : list (string * value)) (a : string),
    QAAuditorState.qa_evaluations s <> [] ->
    pattern_crew env = Returns None raw ->
    Parser._parse_json_safe (json_loads env) raw = Parser.Returned (VDict d) ->
    dict_get d "insights" = None ->
    dict_get d "agents_needing_coaching" = Some (VStr a) ->
    let s' := detect_patterns env s in
    QAAuditorState.agents_needing_coaching s' = chars a
    /\ QAAuditorState.errors s' = QAAuditorState.errors s
    /\ QAAuditorState.pattern_insights s' = QAAuditorState.pattern_insights s
    /\ snd (generate_coaching_plans env s') = None
    /\ plans_and_errors (fst (generate_coaching_plans env s'))
       = (plans_and_errors s + String.length a)%nat.
Proof.
  intros env s raw d a Hne Hcrew Hparse Hins Hagents s'.
  assert (Hs' : s' = QAAuditorState.set_agents_needing_coaching (chars a)
                       (QAAuditorState.set_pattern_insights
                          (QAAuditorState.pattern_insights s) s)).
  { subst s'. unfold detect_patterns.
    destruct (QAAuditorState.qa_evaluations s); [congruence|].
    unfold pattern_body. rewrite Hcrew. cbn [parsed_of]. rewrite Hparse.
    assert (Htruthy : truthy (VDict d) = true).
    { destruct d; [discriminate | reflexivity]. }
    rewrite Htruthy. unfold read_insights, read_agents.
    cbn [contains bind]. rewrite Hins, Hagents. cbn [getitem].
    rewrite Hagents. cbn [items]. reflexivity. }
  assert (Hall : forallb hashable (QAAuditorState.agents_needing_coaching s')
                 = true).
  { rewrite Hs'. apply chars_hashable. }
  destruct (generate_completes env s' Hall) as [Hnone Hcount].
  split; [now rewrite Hs'|]. split; [now rewrite Hs'|].
  split; [now rewrite Hs'|]. split; [exact Hnone|].
  rewrite Hcount. rewrite Hs' at 1 2.
  unfold plans_and_errors.
  cbn [QAAuditorState.set_agents_needing_coaching
       QAAuditorState.set_pattern_insights QAAuditorState.coaching_plans
       QAAuditorState.errors QAAuditorState.agents_needing_coaching].
  now rewrite chars_length.
Qed.

(** The pattern crew answers [{"agents_needing_coaching": "A-1"}]. *)
Definition stringly : Env :=
  mkEnv JsonLite.loads (fun _ => None) (fun _ => "") (fun _ => "library error")
    (fun _ => 0) (nodup string_dec) (fun l => Permutation_refl _)
    (fun _ _ => Raises "connection refused")
    (fun _ _ => Raises "connection refused")
    (Returns None
       ("{" ++ dq ++ "agents_needing_coaching" ++ dq ++ ": "
        ++ dq ++ "A-1" ++ dq ++ "}"))
    (fun _ _ => Raises "connection refused")
    "2026-02-01 10:00:00" "2026-02-01 10:00:05"
    (fun _ _ _ _ _ => "") (fun _ _ => "") (fun _ => "").

Lemma string_of_agents_is_taken_apart_witness :
  QAAuditorState.agents_needing_coaching
    (detect_patterns stringly evaluated_calls)
  = [VStr "A"; VStr "-"; VStr "1"].
Proof.
  refine (proj1 (string_of_agents_is_taken_apart stringly evaluated_calls
                   _ [("agents_needing_coaching", VStr "A-1")] "A-1"
                   _ eq_refl _ eq_refl eq_refl)).
  - discriminate.
  - vm_compute. reflexivity.
Defined.

End UnvalidatedAgents.

(* ================================================================== *)
(** * A run with every crew out of reach *)
(* ================================================================== *)

Section Outage.

Import Py Flow.
Open Scope string_scope.

(** Every call to a crew raises. *)
Definition out_of_reach (env : Env) : Prop :=
  (forall k t, exists m, risk_crew env k t = Raises m)
  /\ (forall k t, exists m, qa_crew env k t = Raises m)
  /\ (exists m, pattern_crew env = Raises m)
  /\ (forall k a, exists m, coaching_crew env k a = Raises m).

(** The evaluation stage 2 gives a transcript when the QA crew is out
    of reach: the default one, with the agent of the transcript that the
    lookup by id returns. *)
Definition failed_evaluation (transcripts : list InteractionTranscript.t)
    (t : InteractionTranscript.t) : QAEvaluation.t :=
  default_failed (default_risk_score t)
    match transcript_map_get transcripts
            (InteractionTranscript.interaction_id t) with
    | Some t' => t'
    | None => t
    end.

Lemma risk_loop_outage (env : Env) (l : list InteractionTranscript.t) :
  (forall k t, exists m, risk_crew env k t = Raises m) ->
  forall k s,
    let s' := risk_loop env k l s in
    QAAuditorState.risk_scores s'
    = (QAAuditorState.risk_scores s ++ map default_risk_score l)%list
    /\ List.length (QAAuditorState.errors s')
       = (List.length (QAAuditorState.errors s) + List.length l)%nat
    /\ QAAuditorState.qa_evaluations s' = QAAuditorState.qa_evaluations s
    /\ QAAuditorState.coaching_plans s' = QAAuditorState.coaching_plans s
    /\ QAAuditorState.raw_transcripts s' = QAAuditorState.raw_transcripts s
    /\ QAAuditorState.processing_status s'
       = QAAuditorState.processing_status s.
Proof.
  intros Hr. induction l as [|t rest IH]; intros k s; cbn [risk_loop].
  - cbn. rewrite app_nil_r. repeat split; lia.
  - destruct (IH (S k) (risk_step env s k t)) as (H1 & H2 & H3 & H4 & H5 & H6).
    cbn zeta. rewrite H1, H2, H3, H4, H5, H6.
    destruct (Hr k t) as [m Hm].
    unfold risk_step, score_transcript. rewrite Hm.
    cbn [QAAuditorState.set_risk_scores QAAuditorState.set_errors
         QAAuditorState.set_transcripts_failed QAAuditorState.risk_scores
         QAAuditorState.errors QAAuditorState.qa_evaluations
         QAAuditorState.coaching_plans QAAuditorState.raw_transcripts
         QAAuditorState.processing_status map].
    rewrite <- app_assoc, List.length_app. cbn [List.length app].
    repeat split; lia.
Qed.

Lemma insert_default (r : RiskScore.t) (acc : list RiskScore.t) :
  RiskScore.risk_score r = 1 # 2 ->
  Forall (fun x => RiskScore.risk_score x = 1 # 2) acc ->
  insert_by_risk r acc = (acc ++ [r])%list.
Proof.
  intros Hr. induction 1 as [|x rest Hx Hrest IH]; cbn [insert_by_risk app].
  - reflexivity.
  - rewrite Hr, Hx. change (Qle_bool (1 # 2) (1 # 2)) with true.
    cbv iota. now rewrite IH.
Qed.

Lemma sort_defaults (l : list RiskScore.t) :
  Forall (fun x => RiskScore.risk_score x = 1 # 2) l ->
  sort_by_risk l = l.
Proof.
  intros Hl. unfold sort_by_risk.
  assert (H : forall acc,
            Forall (fun x => RiskScore.risk_score x = 1 # 2) acc ->
            fold_left (fun sorted r => insert_by_risk r sorted) l acc
            = (acc ++ l)%list).
  { induction Hl as [|r rest Hr Hrest IH]; intros acc Hacc; cbn [fold_left].
    - now rewrite app_nil_r.
    - rewrite (insert_default r acc Hr Hacc), IH, <- app_assoc;
        [reflexivity|].
      apply Forall_app. split; [exact Hacc | now constructor]. }
  exact (H [] (Forall_nil _)).
Qed.

Lemma stage1_outage (env : Env) (initial_state : option QAAuditorState.t)
    (state : QAAuditorState.t) :
  (forall k t, exists m, risk_crew env k t = Raises m) ->
  QAAuditorState.raw_transcripts (seeded initial_state state) <> [] ->
  QAAuditorState.risk_scores (seeded initial_state state) = [] ->
  let s := seeded initial_state state in
  let s1 := ingest_and_risk_score env initial_state state in
  QAAuditorState.risk_scores s1
  = map default_risk_score (QAAuditorState.raw_transcripts s)
  /\ List.length (QAAuditorState.errors s1)
     = (List.length (QAAuditorState.errors s)
        + List.length (QAAuditorState.raw_transcripts s))%nat
  /\ QAAuditorState.qa_evaluations s1 = QAAuditorState.qa_evaluations s
  /\ QAAuditorState.coaching_plans s1 = QAAuditorState.coaching_plans s
  /\ QAAuditorState.raw_transcripts s1 = QAAuditorState.raw_transcripts s.
Proof.
  intros Hr Hne Hrisk s s1. subst s1.
  rewrite (ingest_nonempty env initial_state state Hne). fold s.
  destruct (risk_loop_outage env (QAAuditorState.raw_transcripts s) Hr 0 s)
    as (H1 & H2 & H3 & H4 & H5 & _).
  cbn [QAAuditorState.set_risk_scores QAAuditorState.risk_scores
       QAAuditorState.errors QAAuditorState.qa_evaluations
       QAAuditorState.coaching_plans QAAuditorState.raw_transcripts].
  split; [|repeat split; assumption].
  rewrite H1. unfold s. rewrite Hrisk. cbn [app].
  apply sort_defaults. apply Forall_map, Forall_forall. reflexivity.
Qed.

Lemma lookup_of_member (l : list InteractionTranscript.t)
    (t : InteractionTranscript.t) :
  In t l ->
  exists t', transcript_map_get l (InteractionTranscript.interaction_id t)
             = Some t'.
Proof.
  intros Hin.
  pose proof (lookup_found l (default_risk_score t)) as Hf.
  cbn [default_risk_score RiskScore.interaction_id] in Hf.
  destruct (transcript_map_get l (InteractionTranscript.interaction_id t))
    as [t'|]; [now exists t'|].
  assert (Hex : has_transcript l (default_risk_score t) = true).
  { apply existsb_exists. exists t. split; [exact Hin|].
    apply String.eqb_refl. }
  congruence.
Qed.

Lemma qa_loop_outage (env : Env) (l sub : list InteractionTranscript.t) :
  (forall k t, exists m, qa_crew env k t = Raises m) ->
  incl sub l ->
  forall k s,
    QAAuditorState.raw_transcripts s = l ->
    let s' := qa_loop env k (map default_risk_score sub) s in
    QAAuditorState.qa_evaluations s'
    = (QAAuditorState.qa_evaluations s
       ++ map (failed_evaluation l) sub)%list
    /\ List.length (QAAuditorState.errors s')
       = (List.length (QAAuditorState.errors s) + List.length sub)%nat
    /\ QAAuditorState.coaching_plans s' = QAAuditorState.coaching_plans s.
Proof.
  intros Hq. induction sub as [|t rest IH]; intros Hincl k s Hraw;
    cbn [map qa_loop].
  - cbn. rewrite app_nil_r. repeat split; lia.
  - assert (Hin : In t l) by (apply Hincl; now left).
    assert (Hrest : incl rest l).
    { intros x Hx. apply Hincl. now right. }
    destruct (lookup_of_member l t Hin) as [t' Ht'].
    destruct (Hq k t') as [m Hm].
    assert (Hstep :
      qa_step env s k (default_risk_score t)
      = append_evaluation (failed_evaluation l t)
          (append_error
             ("Failed QA analysis for "
              ++ InteractionTranscript.interaction_id t ++ ": " ++ m) s)).
    { unfold qa_step, failed_evaluation.
      cbn [default_risk_score RiskScore.interaction_id
           RiskScore.priority_for_review].
      rewrite Hraw, Ht'.
      change (String.eqb "medium" "low") with false. cbv iota.
      unfold analyse_transcript. rewrite Hm. reflexivity. }
    destruct (IH Hrest (S k) (qa_step env s k (default_risk_score t)))
      as (H1 & H2 & H3).
    { rewrite Hstep. exact Hraw. }
    cbn zeta. rewrite H1, H2, H3, Hstep.
    cbn [append_evaluation append_error QAAuditorState.set_qa_evaluations
         QAAuditorState.set_errors QAAuditorState.qa_evaluations
         QAAuditorState.errors QAAuditorState.coaching_plans].
    rewrite <- app_assoc, List.length_app. cbn [List.length app].
    repeat split; lia.
Qed.

Lemma stage2_outage (env : Env) (s : QAAuditorState.t) :
  (forall k t, exists m, qa_crew env k t = Raises m) ->
  QAAuditorState.raw_transcripts s <> [] ->
  QAAuditorState.risk_scores s
  = map default_risk_score (QAAuditorState.raw_transcripts s) ->
  QAAuditorState.qa_evaluations s = [] ->
  let s2 := deep_qa_analysis env s in
  QAAuditorState.qa_evaluations s2
  = map (failed_evaluation (QAAuditorState.raw_transcripts s))
      (QAAuditorState.raw_transcripts s)
  /\ List.length (QAAuditorState.errors s2)
     = (List.length (QAAuditorState.errors s)
        + List.length (QAAuditorState.raw_transcripts s))%nat
  /\ QAAuditorState.coaching_plans s2 = QAAuditorState.coaching_plans s
  /\ QAAuditorState.risk_scores s2 = QAAuditorState.risk_scores s
  /\ QAAuditorState.raw_transcripts s2 = QAAuditorState.raw_transcripts s.
Proof.
  intros Hq Hne Hrisk Heval s2. subst s2.
  assert (Hne' : QAAuditorState.risk_scores s <> []).
  { rewrite Hrisk. destruct (QAAuditorState.raw_transcripts s);
      [congruence | discriminate]. }
  destruct (deep_qa_evaluations env s Hne') as (H1 & H2 & H3 & H4).
  destruct (qa_loop_outage env (QAAuditorState.raw_transcripts s)
              (QAAuditorState.raw_transcripts s) Hq (incl_refl _) 0 s
              eq_refl) as (H5 & H6 & H7).
  cbn zeta in H5, H6, H7. rewrite <- Hrisk in H5, H6, H7.
  rewrite H1, H2, H5, H6, Heval. cbn [app].
  split; [reflexivity|]. split; [reflexivity|].
  split; [|split; assumption].
  unfold deep_qa_analysis.
  destruct (QAAuditorState.risk_scores s) as [|r rest]; [congruence|].
  set (L := qa_loop env 0 (r :: rest) s) in *.
  destruct (QAAuditorState.qa_evaluations L); exact H7.
Qed.

Lemma no_critical_goes_standard (s : QAAuditorState.t) :
  Forall (fun ev => QAEvaluation.compliance_severity ev = NONE)
    (QAAuditorState.qa_evaluations s) ->
  route_by_compliance s = (s, "standard_analysis").
Proof.
  intros H. unfold route_by_compliance.
  replace (filter is_critical (QAAuditorState.qa_evaluations s))
    with (@nil QAEvaluation.t); [reflexivity|].
  symmetry. apply filter_none. intros ev Hev.
  rewrite Forall_forall in H. unfold is_critical. now rewrite (H ev Hev).
Qed.

Lemma stage5_outage (env : Env) (s : QAAuditorState.t) (m : string) :
  pattern_crew env = Raises m ->
  QAAuditorState.qa_evaluations s <> [] ->
  detect_patterns env s
  = QAAuditorState.set_agents_needing_coaching
      (fallback_agents env (QAAuditorState.qa_evaluations s))
      (append_error ("Pattern analysis failed: " ++ m) s).
Proof.
  intros Hp Hne. unfold detect_patterns, pattern_body. rewrite Hp.
  destruct (QAAuditorState.qa_evaluations s) eqn:He; [congruence|].
  cbn [append_error QAAuditorState.set_errors QAAuditorState.qa_evaluations
       str_exn].
  rewrite He. reflexivity.
Qed.

Lemma coaching_loop_outage (env : Env) (names : list string) :
  (forall k a, exists m, coaching_crew env k a = Raises m) ->
  forall k s,
    let r := coaching_loop env k (map VStr names) s in
    snd r = None
    /\ QAAuditorState.coaching_plans (fst r) = QAAuditorState.coaching_plans s
    /\ List.length (QAAuditorState.errors (fst r))
       = (List.length (QAAuditorState.errors s) + List.length names)%nat
    /\ QAAuditorState.risk_scores (fst r) = QAAuditorState.risk_scores s
    /\ QAAuditorState.qa_evaluations (fst r)
       = QAAuditorState.qa_evaluations s
    /\ QAAuditorState.agents_needing_coaching (fst r)
       = QAAuditorState.agents_needing_coaching s.
Proof.
  intros Hc. induction names as [|a rest IH]; intros k s;
    cbn [map coaching_loop hashable].
  - cbn. repeat split; lia.
  - destruct (IH (S k) (coaching_step env s k (VStr a)))
      as (H1 & H2 & H3 & H4 & H5 & H6).
    cbn zeta. rewrite H1, H2, H3, H4, H5, H6.
    destruct (Hc k (VStr a)) as [m Hm].
    unfold coaching_step, plan_agent. rewrite Hm.
    cbn [append_error QAAuditorState.set_errors QAAuditorState.errors
         QAAuditorState.coaching_plans QAAuditorState.risk_scores
         QAAuditorState.qa_evaluations QAAuditorState.agents_needing_coaching].
    rewrite List.length_app. cbn [List.length].
    repeat split; lia.
Qed.

Lemma generate_is_loop (env : Env) (s : QAAuditorState.t) :
  generate_coaching_plans env s
  = coaching_loop env 0 (QAAuditorState.agents_needing_coaching s) s.
Proof.
  unfold generate_coaching_plans.
  destruct (QAAuditorState.agents_needing_coaching s); reflexivity.
Qed.

(** A run with every crew out of reach still completes, and loses no
    transcript. Started with at least one transcript, no score and no
    evaluation, the run ends with processing_status complete; every
    transcript has its default risk score (0.5, medium) and its default
    failed evaluation (all scores 50), in the order of the transcripts;
    the agents of these evaluations are all named for coaching; no
    coaching plan is added; and the error messages added are one per
    transcript from stage 1, one per transcript from stage 2, one from
    stage 5 and one per agent from stage 6. *)
Theorem outage_still_completes :
  forall (env : Env) (initial_state : option QAAuditorState.t)
         (state : QAAuditorState.t),
    out_of_reach env ->
    let s := seeded initial_state state in
    let l := QAAuditorState.raw_transcripts s in
    l <> [] ->
    QAAuditorState.risk_scores s = [] ->
    QAAuditorState.qa_evaluations s = [] ->
    exists s',
      kickoff env initial_state state = Completed s'
      /\ QAAuditorState.processing_status s' = "complete"
      /\ QAAuditorState.risk_scores s' = map default_risk_score l
      /\ QAAuditorState.qa_evaluations s' = map (failed_evaluation l) l
      /\ QAAuditorState.coaching_plans s' = QAAuditorState.coaching_plans s
      /\ List.length (QAAuditorState.errors s')
         = (List.length (QAAuditorState.errors s) + 2 * List.length l + 1
            + List.length (QAAuditorState.agents_needing_coaching s'))%nat
      /\ (forall v, In v (QAAuditorState.agents_needing_coaching s') <->
            exists t, In t l
                      /\ v = VStr (QAEvaluation.agent_id
                                     (failed_evaluation l t))).
Proof.
  intros env initial_state state (Hr & Hq & [m Hp] & Hc) s l Hne Hrisk Heval.
  rewrite kickoff_stages. unfold before_coaching.
  destruct (stage1_outage env initial_state state Hr Hne Hrisk)
    as (A1 & A2 & A3 & A4 & A5).
  fold s in A1, A2, A3, A4, A5. fold l in A1, A2, A5.
  set (s1 := ingest_and_risk_score env initial_state state) in *.
  assert (Hne1 : QAAuditorState.raw_transcripts s1 <> []) by congruence.
  assert (Hrisk1 : QAAuditorState.risk_scores s1
                   = map default_risk_score
                       (QAAuditorState.raw_transcripts s1)) by congruence.
  assert (Heval1 : QAAuditorState.qa_evaluations s1 = []) by congruence.
  destruct (stage2_outage env s1 Hq Hne1 Hrisk1 Heval1)
    as (B1 & B2 & B3 & B4 & B5).
  rewrite A5 in B1, B2.
  set (s2 := deep_qa_analysis env s1) in *.
  assert (Hnone : Forall
                    (fun ev => QAEvaluation.compliance_severity ev = NONE)
                    (QAAuditorState.qa_evaluations s2)).
  { rewrite B1. apply Forall_map, Forall_forall. reflexivity. }
  rewrite (no_critical_goes_standard s2 Hnone). cbn [fst snd].
  change (String.eqb "standard_analysis" "compliance_escalation") with false.
  cbv iota.
  assert (Hne2 : QAAuditorState.qa_evaluations s2 <> []).
  { rewrite B1. destruct l; [congruence | discriminate]. }
  rewrite (stage5_outage env s2 m Hp Hne2).
  set (s5 := QAAuditorState.set_agents_needing_coaching _ _).
  set (names :=
         list_of_set env
           (map QAEvaluation.agent_id
              (filter needs_coaching (QAAuditorState.qa_evaluations s2)))).
  assert (Hagents : QAAuditorState.agents_needing_coaching s5
                    = map VStr names) by reflexivity.
  rewrite generate_is_loop, Hagents.
  destruct (coaching_loop_outage env names Hc 0 s5)
    as (C1 & C2 & C3 & C4 & C5 & C6).
  cbn zeta in C1, C2, C3, C4, C5, C6.
  destruct (coaching_loop env 0 (map VStr names) s5) as [s6 o].
  cbn [fst snd] in C1, C2, C3, C4, C5, C6. subst o.
  eexists. split; [reflexivity|].
  cbn [compile_final_report QAAuditorState.set_processing_status
       QAAuditorState.set_detailed_qa_report
       QAAuditorState.set_executive_summary
       QAAuditorState.processing_status QAAuditorState.risk_scores
       QAAuditorState.qa_evaluations QAAuditorState.coaching_plans
       QAAuditorState.errors QAAuditorState.agents_needing_coaching].
  rewrite C2, C3, C4, C5, C6, Hagents.
  subst s5.
  cbn [append_error QAAuditorState.set_agents_needing_coaching
       QAAuditorState.set_errors QAAuditorState.risk_scores
       QAAuditorState.qa_evaluations QAAuditorState.coaching_plans
       QAAuditorState.errors].
  split; [reflexivity|]. split; [congruence|]. split; [exact B1|].
  split; [congruence|]. split.
  - rewrite List.length_app, length_map, B2, A2. cbn [List.length]. lia.
  - intros v. unfold names. rewrite B1, in_map_iff. split.
    + intros (a & <- & Ha). apply list_of_set_In in Ha.
      apply in_map_iff in Ha. destruct Ha as (ev & <- & Hev).
      apply filter_In in Hev. destruct Hev as [Hev _].
      apply in_map_iff in Hev. destruct Hev as (t & <- & Ht).
      now exists t.
    + intros (t & Ht & ->).
      exists (QAEvaluation.agent_id (failed_evaluation l t)).
      split; [reflexivity|].
      apply list_of_set_In. apply in_map. apply filter_In. split.
      * now apply in_map.
      * reflexivity.
Qed.

Lemma outage_still_completes_witness :
  exists s',
    kickoff offline (Some three_calls) QAAuditorState.default = Completed s'
    /\ QAAuditorState.processing_status s' = "complete"
    /\ map QAEvaluation.overall_score (QAAuditorState.qa_evaluations s')
       = [50; 50; 50]
    /\ List.length (QAAuditorState.errors s') = 9%nat.
Proof.
  assert (Hout : out_of_reach offline).
  { repeat split; intros; eexists; reflexivity. }
  destruct (outage_still_completes offline (Some three_calls)
              QAAuditorState.default Hout) as (s' & H1 & H2 & _ & H4 & _).
  - discriminate.
  - reflexivity.
  - reflexivity.
  - exists s'. split; [exact H1|]. split; [exact H2|].
    pose proof H1 as Hk. vm_compute in Hk. injection Hk as Hk.
    rewrite <- Hk. split; vm_compute; reflexivity.
Defined.

End Outage.
